(** * Junior soccer backend: live match, substitution and playtime engine

    A shallow embedding of the match controller (start, substitute,
    playtime query, end, statistics materialisation, fair-play check),
    of the schedule controller (create, update, cancel, team
    generation), of the injury handlers of the statistics and player
    controllers, of the validation middleware of their routes and of the
    Mongoose models they use, followed by the properties of the
    specification and by further properties of the code.

    Conventions of the embedding.
    - An ObjectId is the string of its hexadecimal form; a populated
      reference is identified with the id it was populated from.
    - A [Date] is its number of milliseconds since the epoch, a [Z];
      JavaScript numbers carried by the documents are integers, [Z].
    - The playtime ledger, a [Map] from player-id strings to numbers, is a
      [gmap string Z]; so is the [playerPlaytime] object of the generator.
    - The match and player collections are finite maps keyed by [_id], and
      a document of them is its [_id] with a record of its other fields;
      the statistics collection is the list of its documents, on which
      the unique index on (playerId, matchId) is checked at insertion.
    - A request handler is a function of the database; it ends with the
      response sent ([Json]) or with the error forwarded to [next].  The
      document a handler loads is a value: only [save], [create] and
      [findByIdAndUpdate] write the database, and [save] writes every
      assignment made to the loaded document, those to an index of one of
      its arrays included.
    - [new Date()] is the parameter [now] of the handler.
    - The optional socket notifications of a substitution do not touch
      the database or the response and are left out of the handler.
    - Strings are sequences of ASCII characters. *)

From Stdlib Require Import ZArith Lia Ascii String Sorted.
From stdpp Require Import gmap strings list pretty.

Local Open Scope string_scope.
Local Open Scope Z_scope.

(** ** JavaScript helpers *)

(** Truthiness of an optional string: [undefined] and [""] are falsy. *)
Definition truthy (o : option string) : bool :=
  match o with
  | Some (String _ _) => true
  | _ => false
  end.

(** [a || d] on an optional number: [undefined] and [0] give [d]. *)
Definition num_or (o : option Z) (d : Z) : Z :=
  match o with
  | Some n => if n =? 0 then d else n
  | None => d
  end.

(** [a || null] on an optional number. *)
Definition num_or_null (o : option Z) : option Z :=
  match o with
  | Some n => if n =? 0 then None else Some n
  | None => None
  end.

(** [s || d] on an optional string. *)
Definition str_or (o : option string) (d : string) : string :=
  match o with
  | Some (String a s) => String a s
  | _ => d
  end.

Definition lower_ascii (c : ascii) : ascii :=
  let n := nat_of_ascii c in
  if ((65 <=? n)%nat && (n <=? 90)%nat)%bool then ascii_of_nat (n + 32) else c.

(** [String.prototype.toLowerCase], on ASCII letters. *)
Fixpoint toLowerCase (s : string) : string :=
  match s with
  | EmptyString => EmptyString
  | String c s' => String (lower_ascii c) (toLowerCase s')
  end.

(** [hay.includes(needle)] on strings. *)
Fixpoint str_includes (needle hay : string) : bool :=
  (String.prefix needle hay ||
   match hay with
   | EmptyString => false
   | String _ hay' => str_includes needle hay'
   end)%bool.

(** [arr.includes(x)] on an array of ids. *)
Definition includes (x : string) (l : list string) : bool :=
  bool_decide (x ∈ l).

(** [arr.indexOf(x)]: the first index holding [x]; [None] stands for -1. *)
Fixpoint indexOf (x : string) (l : list string) : option nat :=
  match l with
  | [] => None
  | y :: l' => if decide (y = x) then Some 0%nat else S <$> indexOf x l'
  end.

(** [Math.floor((t1 - t0) / (1000 * 60))] on two dates. *)
Definition minutes_between (t0 t1 : Z) : Z := (t1 - t0) / (1000 * 60).

(** ** Models *)

Record Player := {
  p_name : string;
  p_jerseyNumber : Z;
  p_position : string;
  p_injuryStatus : string;
  p_preferredPositions : list string;
  p_availability : bool
}.

Record Substitution := {
  sub_playerIn : string;
  sub_playerOut : string;
  sub_time : Z;
  sub_reason : string
}.

Record PlayerPerformance := {
  pp_playerId : string;
  pp_goals : Z;
  pp_assists : Z;
  pp_yellowCards : Z;
  pp_redCards : Z;
  pp_rating : option Z;
  pp_playerOfMatch : bool;
  pp_minutesPlayed : Z
}.

Record MatchResult := {
  mr_result : option string;
  mr_ourScore : Z;
  mr_opponentScore : Z
}.

Inductive MatchType := type_match | type_training.
Inductive MatchStatus := scheduled | ongoing | completed | cancelled.

Record Match := {
  m_date : Z;
  m_type : MatchType;
  m_teamSheet : list string;
  m_substitutions : list Substitution;
  m_playtime : gmap string Z;
  m_status : MatchStatus;
  m_duration : Z;
  m_opponent : option string;
  m_venue : option string;
  m_notes : option string;
  m_matchResult : option MatchResult;
  m_playerPerformances : list PlayerPerformance;
  m_createdAt : Z
}.

Record Statistics := {
  st_playerId : string;
  st_matchId : string;
  st_minutesPlayed : Z;
  st_positionsPlayed : list (option string);
  st_substitutionsCount : Z;
  st_injuries : list string;
  st_playerOfMatch : bool;
  st_goals : Z;
  st_assists : Z;
  st_yellowCards : Z;
  st_redCards : Z;
  st_rating : option Z
}.

Global Instance MatchType_eq_dec : EqDecision MatchType.
Proof. solve_decision. Defined.
Global Instance MatchStatus_eq_dec : EqDecision MatchStatus.
Proof. solve_decision. Defined.

(** Assignments to the fields of a loaded match document. *)
Definition set_teamSheet (m : Match) (v : list string) : Match :=
  {| m_date := m_date m; m_type := m_type m;
     m_teamSheet := v; m_substitutions := m_substitutions m;
     m_playtime := m_playtime m; m_status := m_status m;
     m_duration := m_duration m; m_opponent := m_opponent m;
     m_venue := m_venue m; m_notes := m_notes m;
     m_matchResult := m_matchResult m;
     m_playerPerformances := m_playerPerformances m;
     m_createdAt := m_createdAt m |}.

Definition set_substitutions (m : Match) (v : list Substitution) : Match :=
  {| m_date := m_date m; m_type := m_type m;
     m_teamSheet := m_teamSheet m; m_substitutions := v;
     m_playtime := m_playtime m; m_status := m_status m;
     m_duration := m_duration m; m_opponent := m_opponent m;
     m_venue := m_venue m; m_notes := m_notes m;
     m_matchResult := m_matchResult m;
     m_playerPerformances := m_playerPerformances m;
     m_createdAt := m_createdAt m |}.

Definition set_playtime (m : Match) (v : gmap string Z) : Match :=
  {| m_date := m_date m; m_type := m_type m;
     m_teamSheet := m_teamSheet m; m_substitutions := m_substitutions m;
     m_playtime := v; m_status := m_status m;
     m_duration := m_duration m; m_opponent := m_opponent m;
     m_venue := m_venue m; m_notes := m_notes m;
     m_matchResult := m_matchResult m;
     m_playerPerformances := m_playerPerformances m;
     m_createdAt := m_createdAt m |}.

Definition set_status (m : Match) (v : MatchStatus) : Match :=
  {| m_date := m_date m; m_type := m_type m;
     m_teamSheet := m_teamSheet m; m_substitutions := m_substitutions m;
     m_playtime := m_playtime m; m_status := v;
     m_duration := m_duration m; m_opponent := m_opponent m;
     m_venue := m_venue m; m_notes := m_notes m;
     m_matchResult := m_matchResult m;
     m_playerPerformances := m_playerPerformances m;
     m_createdAt := m_createdAt m |}.

Definition set_matchResult (m : Match) (v : option MatchResult) : Match :=
  {| m_date := m_date m; m_type := m_type m;
     m_teamSheet := m_teamSheet m; m_substitutions := m_substitutions m;
     m_playtime := m_playtime m; m_status := m_status m;
     m_duration := m_duration m; m_opponent := m_opponent m;
     m_venue := m_venue m; m_notes := m_notes m;
     m_matchResult := v;
     m_playerPerformances := m_playerPerformances m;
     m_createdAt := m_createdAt m |}.

Definition set_playerPerformances (m : Match) (v : list PlayerPerformance) : Match :=
  {| m_date := m_date m; m_type := m_type m;
     m_teamSheet := m_teamSheet m; m_substitutions := m_substitutions m;
     m_playtime := m_playtime m; m_status := m_status m;
     m_duration := m_duration m; m_opponent := m_opponent m;
     m_venue := m_venue m; m_notes := m_notes m;
     m_matchResult := m_matchResult m;
     m_playerPerformances := v;
     m_createdAt := m_createdAt m |}.

Definition set_injuryStatus (v : string) (p : Player) : Player :=
  {| p_name := p_name p; p_jerseyNumber := p_jerseyNumber p;
     p_position := p_position p; p_injuryStatus := v;
     p_preferredPositions := p_preferredPositions p;
     p_availability := p_availability p |}.

(** ** Methods of the match schema *)

(** [this.playtime.get(playerId.toString()) || 0] *)
Definition getPlayerPlaytime (m : Match) (playerId : string) : Z :=
  num_or (m_playtime m !! playerId) 0.

(** [this.playtime.set(playerId.toString(), minutes)] *)
Definition updatePlayerPlaytime (m : Match) (playerId : string) (minutes : Z) : Match :=
  set_playtime m (<[playerId := minutes]> (m_playtime m)).

Definition getTotalPlaytime (m : Match) : Z :=
  map_fold (λ _ minutes total, total + minutes) 0 (m_playtime m).

Definition calculateTeamGoals (m : Match) : Z :=
  foldl (λ total performance, total + pp_goals performance) 0 (m_playerPerformances m).

Definition calculateTeamAssists (m : Match) : Z :=
  foldl (λ total performance, total + pp_assists performance) 0 (m_playerPerformances m).

Definition getPlayerPerformance (m : Match) (playerId : string) : option PlayerPerformance :=
  List.find (λ p, bool_decide (pp_playerId p = playerId)) (m_playerPerformances m).

(** The fields [updatePlayerPerformance] receives from [endMatch]. *)
Record PerformanceData := {
  pd_goals : Z;
  pd_assists : Z;
  pd_yellowCards : Z;
  pd_redCards : Z;
  pd_rating : option Z;
  pd_playerOfMatch : bool;
  pd_minutesPlayed : Z
}.

Definition assign_performance (playerId : string) (d : PerformanceData) : PlayerPerformance :=
  {| pp_playerId := playerId; pp_goals := pd_goals d; pp_assists := pd_assists d;
     pp_yellowCards := pd_yellowCards d; pp_redCards := pd_redCards d;
     pp_rating := pd_rating d; pp_playerOfMatch := pd_playerOfMatch d;
     pp_minutesPlayed := pd_minutesPlayed d |}.

(** [Object.assign] on the first performance of [playerId]. *)
Fixpoint assign_first (playerId : string) (d : PerformanceData)
    (l : list PlayerPerformance) : list PlayerPerformance :=
  match l with
  | [] => []
  | p :: l' =>
      if bool_decide (pp_playerId p = playerId)
      then assign_performance (pp_playerId p) d :: l'
      else p :: assign_first playerId d l'
  end.

Definition updatePlayerPerformance (m : Match) (playerId : string)
    (d : PerformanceData) : Match :=
  match getPlayerPerformance m playerId with
  | Some _ => set_playerPerformances m (assign_first playerId d (m_playerPerformances m))
  | None => set_playerPerformances m (m_playerPerformances m ++ [assign_performance playerId d])
  end.

(** [validateMatchResult]: the document after the call (it returns [true]). *)
Definition validateMatchResult (m : Match) : Match :=
  match m_matchResult m, m_type m with
  | Some r, type_match =>
      set_matchResult m (Some {| mr_result := mr_result r;
                                 mr_ourScore := calculateTeamGoals m;
                                 mr_opponentScore := mr_opponentScore r |})
  | _, _ => m
  end.

(** ** Schema validators

    The [min], [max], [maxlength], [enum] and [required] declarations of
    the schemas, as run by [save] and [create] on a document. *)

Definition maxlength (n : nat) (s : string) : bool := (String.length s <=? n)%nat.

Definition opt_maxlength (n : nat) (o : option string) : bool :=
  match o with
  | Some s => maxlength n s
  | None => true
  end.

Definition rating_valid (r : option Z) : bool :=
  match r with
  | Some x => (1 <=? x) && (x <=? 10)
  | None => true
  end.

Definition substitutionSchema_valid (s : Substitution) : bool :=
  maxlength 200 (sub_reason s).

Definition playerPerformanceSchema_valid (p : PlayerPerformance) : bool :=
  (0 <=? pp_goals p) && (0 <=? pp_assists p) && (0 <=? pp_yellowCards p)
  && (0 <=? pp_redCards p) && rating_valid (pp_rating p)
  && (0 <=? pp_minutesPlayed p).

(** [required] is the value of the schema's [required] function on the
    parent match: type 'match' and status 'completed'. *)
Definition matchResultSchema_valid (required : bool) (r : MatchResult) : bool :=
  match mr_result r with
  | Some s => bool_decide (s ∈ ["win"; "loss"; "draw"])
  | None => negb required
  end
  && (0 <=? mr_ourScore r) && (0 <=? mr_opponentScore r).

Definition matchSchema_valid (m : Match) : bool :=
  forallb substitutionSchema_valid (m_substitutions m)
  && (1 <=? m_duration m) && (m_duration m <=? 200)
  && opt_maxlength 100 (m_opponent m)
  && opt_maxlength 200 (m_venue m)
  && opt_maxlength 1000 (m_notes m)
  && match m_matchResult m with
     | Some r =>
         matchResultSchema_valid
           (bool_decide (m_type m = type_match) && bool_decide (m_status m = completed)) r
     | None => true
     end
  && forallb playerPerformanceSchema_valid (m_playerPerformances m).

(** The date validator, run where [date] is set: at most one year ahead. *)
Definition date_valid (now date : Z) : bool :=
  date <=? now + 365 * 24 * 60 * 60 * 1000.

Definition position_enum : list string :=
  ["Goalkeeper"; "Defender"; "Midfielder"; "Forward"].

(** An [undefined] element passes the enum validator. *)
Definition position_valid (o : option string) : bool :=
  match o with
  | Some s => bool_decide (s ∈ position_enum)
  | None => true
  end.

Definition statisticsSchema_valid (s : Statistics) : bool :=
  (0 <=? st_minutesPlayed s)
  && forallb position_valid (st_positionsPlayed s)
  && (0 <=? st_substitutionsCount s)
  && forallb (maxlength 200) (st_injuries s)
  && (0 <=? st_goals s) && (0 <=? st_assists s)
  && (0 <=? st_yellowCards s) && (0 <=? st_redCards s)
  && rating_valid (st_rating s).

(** ** The database and the handlers' monad *)

Record DB := {
  matches : gmap string Match;
  players : gmap string Player;
  statistics : list Statistics
}.

Definition set_matches (db : DB) (v : gmap string Match) : DB :=
  {| matches := v; players := players db; statistics := statistics db |}.
Definition set_players (db : DB) (v : gmap string Player) : DB :=
  {| matches := matches db; players := v; statistics := statistics db |}.
Definition set_statistics (db : DB) (v : list Statistics) : DB :=
  {| matches := matches db; players := players db; statistics := v |}.

Inductive Error := ValidationError | DuplicateKeyError.

(** One player of the playtime report. *)
Record PlaytimeStat := {
  ps_player : string * Player;
  ps_minutesPlayed : Z;
  ps_isCurrentlyPlaying : bool
}.

(** The JSON bodies the handlers send. *)
Inductive Body :=
| Failure (message : string)
| MatchData (data : Match)
| NullData
| MatchDataMessage (data : Match) (message : string)
| Message (message : string)
| PlaytimeData (data : Match) (playtimeStats : list PlaytimeStat)
| GeneratedTeam (data : Match) (generatedTeam : list (string * Player)) (formation : string).

Inductive Response :=
| Json (status : nat) (body : Body)
| Next (error : Error).

(** A computation on the database that either has already answered the
    request (left) or goes on with a value (right). *)
Definition Handler (A : Type) : Type := DB → (Response + A) * DB.

Definition ret {A} (a : A) : Handler A := λ db, (inr a, db).

Definition bind {A B} (h : Handler A) (k : A → Handler B) : Handler B :=
  λ db, match h db with
        | (inl r, db') => (inl r, db')
        | (inr a, db') => k a db'
        end.

Notation "'let!' x ':=' h 'in' k" := (bind h (λ x, k))
  (at level 10, x name, h at level 100, k at level 200).
Notation "h ';;;' k" := (bind h (λ _, k))
  (at level 100, k at level 200, right associativity).

(** [return res.status(..).json(..)] and [next(error)]. *)
Definition reply {A} (r : Response) : Handler A := λ db, (inl r, db).

(** [if (cond) return res.status(..).json(..)] *)
Definition reply_if (cond : bool) (r : Response) : Handler unit :=
  if cond then reply r else ret tt.

(** [if (!doc) return res.status(..).json(..)] after a query. *)
Definition or_reply {A} (h : Handler (option A)) (r : Response) : Handler A :=
  let! o := h in
  match o with
  | Some a => ret a
  | None => reply r
  end.

(** The response of a handler and the database it leaves. *)
Definition run (h : Handler Response) (db : DB) : Response * DB :=
  match h db with
  | (inl r, db') => (r, db')
  | (inr r, db') => (r, db')
  end.

(** [for (const x of l) { await body(x) }] *)
Fixpoint for_of {A} (l : list A) (body : A → Handler unit) : Handler unit :=
  match l with
  | [] => ret tt
  | x :: l' => body x ;;; for_of l' body
  end.

(** *** Queries and writes *)

Definition Match_findById (id : string) : Handler (option Match) :=
  λ db, (inr (matches db !! id), db).

Definition Player_findById (id : string) : Handler (option Player) :=
  λ db, (inr (players db !! id), db).

(** [match.save()] on the document loaded under [id]. *)
Definition Match_save (id : string) (m : Match) : Handler unit :=
  λ db, if matchSchema_valid m
        then (inr tt, set_matches db (<[id := m]> (matches db)))
        else (inl (Next ValidationError), db).

(** [Player.findByIdAndUpdate(id, { injuryStatus, injuryNotes })]: no
    validators run, and [injuryNotes], which is not a path of the player
    schema, is not stored. *)
Definition Player_updateInjuryStatus (id : string) (injuryStatus : string) : Handler unit :=
  λ db, (inr tt, set_players db (alter (set_injuryStatus injuryStatus) id (players db))).

(** ** Match controller: substitution *)

(** The body of a substitution request, after the validation
    middleware: [sb_time] is the date its [time] denotes, when it has
    one. *)
Record SubstitutionBody := {
  sb_playerIn : string;
  sb_playerOut : string;
  sb_time : option Z;
  sb_reason : option string;
  sb_injuryStatus : option string;
  sb_injuryNotes : option string
}.

(** [time ? new Date(time) : new Date()] *)
Definition substitutionTime (body : SubstitutionBody) (now : Z) : Z :=
  match sb_time body with
  | Some t => t
  | None => now
  end.

(** [match.teamSheet[match.teamSheet.indexOf(playerOut)] = playerIn]; an
    index of -1 would leave the elements of the array as they are. *)
Definition replace_on_teamSheet (playerOut playerIn : string) (teamSheet : list string) : list string :=
  match indexOf playerOut teamSheet with
  | Some teamSheetIndex => <[teamSheetIndex := playerIn]> teamSheet
  | None => teamSheet
  end.

(** The document [makeSubstitution] builds before saving it. *)
Definition apply_substitution (m : Match) (body : SubstitutionBody) (now : Z) : Match :=
  let playerIn := sb_playerIn body in
  let playerOut := sb_playerOut body in
  let minutesPlayed := minutes_between (m_createdAt m) (substitutionTime body now) in
  let currentPlaytime := getPlayerPlaytime m playerOut in
  let m := updatePlayerPlaytime m playerOut (currentPlaytime + minutesPlayed) in
  let m := updatePlayerPlaytime m playerIn (getPlayerPlaytime m playerIn) in
  let m := set_teamSheet m (replace_on_teamSheet playerOut playerIn (m_teamSheet m)) in
  set_substitutions m
    (m_substitutions m ++
     [{| sub_playerIn := playerIn; sub_playerOut := playerOut;
         sub_time := substitutionTime body now;
         sub_reason := str_or (sb_reason body) "Tactical substitution" |}]).

(** The condition of the injury update. *)
Definition injury_substitution (body : SubstitutionBody) : bool :=
  match sb_reason body with
  | Some r => truthy (Some r) && str_includes "injury" (toLowerCase r)
              && truthy (sb_injuryStatus body)
  | None => false
  end.

Definition makeSubstitution (id : string) (body : SubstitutionBody) (now : Z) : Handler Response :=
  let playerIn := sb_playerIn body in
  let playerOut := sb_playerOut body in
  let! m := or_reply (Match_findById id) (Json 404 (Failure "Match not found")) in
  reply_if (negb (bool_decide (m_status m = ongoing)))
    (Json 400 (Failure "Can only make substitutions during ongoing matches")) ;;;
  let! playerInDoc := Player_findById playerIn in
  let! playerOutDoc := Player_findById playerOut in
  reply_if (negb (bool_decide (is_Some playerInDoc)) || negb (bool_decide (is_Some playerOutDoc)))
    (Json 404 (Failure "One or both players not found")) ;;;
  reply_if (negb (includes playerOut (m_teamSheet m)))
    (Json 400 (Failure "Player to be substituted is not currently on the field")) ;;;
  reply_if (includes playerIn (m_teamSheet m))
    (Json 400 (Failure "Player coming in is already on the field")) ;;;
  let m' := apply_substitution m body now in
  (if injury_substitution body
   then Player_updateInjuryStatus playerOut (str_or (sb_injuryStatus body) "")
   else ret tt) ;;;
  Match_save id m' ;;;
  ret (Json 200 (MatchData m')).

(** ** Match controller: the playtime derivation *)

(** [arr.sort((a, b) => key(a) - key(b))]: the stable sort, ascending in
    [key]. *)
Fixpoint insert_by {A} (key : A → Z) (x : A) (l : list A) : list A :=
  match l with
  | [] => [x]
  | y :: l' => if key x <=? key y then x :: y :: l' else y :: insert_by key x l'
  end.

Definition sort_by {A} (key : A → Z) (l : list A) : list A :=
  foldr (insert_by key) [] l.

(** [match.substitutions.filter(sub => sub.playerIn == playerId)
      .sort((a, b) => b.time - a.time)[0]] *)
Definition lastSubstitution (m : Match) (playerId : string) : option Substitution :=
  head (sort_by (λ sub, - sub_time sub)
          (filter (λ sub, sub_playerIn sub = playerId) (m_substitutions m))).

(** The body of the loop over the team sheet, in [getPlaytimeStats] and
    in [endMatch] alike. *)
Definition add_timePlayed (now : Z) (m : Match) (playerId : string) : Match :=
  let matchStart := m_createdAt m in
  let startTime :=
    match lastSubstitution m playerId with
    | Some sub => sub_time sub
    | None => matchStart
    end in
  let timePlayed := minutes_between startTime now in
  updatePlayerPlaytime m playerId (getPlayerPlaytime m playerId + timePlayed).

(** [match.teamSheet.forEach(playerId => ...)] *)
Definition accumulate_playtime (now : Z) (m : Match) : Match :=
  foldl (add_timePlayed now) m (m_teamSheet m).

(** [Player.find(query)]: the documents of the collection that satisfy
    the query. *)
Definition Player_find (query : string → Player → bool) : Handler (list (string * Player)) :=
  λ db, (inr (filter (λ d, query d.1 d.2 = true) (map_to_list (players db))), db).

(** [Match.find(query)] *)
Definition Match_find (query : string → Match → bool) : Handler (list (string * Match)) :=
  λ db, (inr (filter (λ d, query d.1 d.2 = true) (map_to_list (matches db))), db).

(** The fair-play summary of the response (an average, a maximum and a
    minimum, computed from [playtimeStats]) is not part of the model. *)
Definition getPlaytimeStats (id : string) (now : Z) : Handler Response :=
  let! m := or_reply (Match_findById id) (Json 404 (Failure "Match not found")) in
  let m := if bool_decide (m_status m = ongoing) then accumulate_playtime now m else m in
  let allPlayerIds := (map_to_list (m_playtime m)).*1 in
  let! found := Player_find (λ _id _, includes _id allPlayerIds) in
  let playtimeStats :=
    (λ player, {| ps_player := player;
                  ps_minutesPlayed := getPlayerPlaytime m player.1;
                  ps_isCurrentlyPlaying := includes player.1 (m_teamSheet m) |}) <$> found in
  let playtimeStats := sort_by (λ stat, - ps_minutesPlayed stat) playtimeStats in
  ret (Json 200 (PlaytimeData m playtimeStats)).

(** ** Match controller: starting a match *)

Definition status_string (s : MatchStatus) : string :=
  match s with
  | scheduled => "scheduled"
  | ongoing => "ongoing"
  | completed => "completed"
  | cancelled => "cancelled"
  end.

Definition startExistingMatch (id : string) : Handler Response :=
  let! m := or_reply (Match_findById id) (Json 404 (Failure "Match not found")) in
  reply_if (negb (bool_decide (m_status m = scheduled)))
    (Json 400 (Failure ("Cannot start match with status: " ++ status_string (m_status m)
                        ++ ". Only scheduled matches can be started."))) ;;;
  let m := set_status m ongoing in
  Match_save id m ;;;
  ret (Json 200 (MatchData m)).

(** The fields of a request body that describe a match; the validation
    middleware of the routes has checked [date] and [type]. *)
Record MatchBody := {
  mb_date : Z;
  mb_type : MatchType;
  mb_teamSheet : option (list string);
  mb_status : option MatchStatus;
  mb_duration : option Z;
  mb_opponent : option string;
  mb_venue : option string;
  mb_notes : option string
}.

(** The team-sheet check of [startMatch], [createSchedule] and
    [updateSchedule]: the available players among those listed are as
    many as the entries of the list. *)
Definition all_available (teamSheet : list string) : Handler bool :=
  let! found := Player_find (λ _id p, includes _id teamSheet && p_availability p) in
  ret (bool_decide (length found = length teamSheet)).

(** [Match.create(doc)] under a new [_id]: validation, then insertion. *)
Definition Match_create (now : Z) (newId : string) (m : Match) : Handler unit :=
  λ db, if negb (date_valid now (m_date m) && matchSchema_valid m)
        then (inl (Next ValidationError), db)
        else match matches db !! newId with
             | Some _ => (inl (Next DuplicateKeyError), db)
             | None => (inr tt, set_matches db (<[newId := m]> (matches db)))
             end.

(** [teamSheet && teamSheet.length > 0] *)
Definition nonempty_sheet (teamSheet : option (list string)) : bool :=
  match teamSheet with
  | Some (_ :: _) => true
  | _ => false
  end.

(** The document [Match.create] builds from the body of [startMatch];
    the status of the body, if any, is overwritten. *)
Definition new_match (now : Z) (body : MatchBody) (status : MatchStatus) : Match :=
  {| m_date := mb_date body; m_type := mb_type body;
     m_teamSheet := default [] (mb_teamSheet body);
     m_substitutions := []; m_playtime := ∅; m_status := status;
     m_duration := default 90 (mb_duration body);
     m_opponent := mb_opponent body; m_venue := mb_venue body;
     m_notes := mb_notes body; m_matchResult := None;
     m_playerPerformances := []; m_createdAt := now |}.

Definition startMatch (body : MatchBody) (now : Z) (newId : string) : Handler Response :=
  let teamSheet := mb_teamSheet body in
  (if nonempty_sheet teamSheet then
     let! ok := all_available (default [] teamSheet) in
     reply_if (negb ok)
       (Json 400 (Failure "Some players in the team sheet are not available"))
   else ret tt) ;;;
  let m := new_match now body ongoing in
  Match_create now newId m ;;;
  let! m :=
    (if nonempty_sheet teamSheet then
       let m := foldl (λ m playerId, updatePlayerPlaytime m playerId 0) m (default [] teamSheet) in
       Match_save newId m ;;; ret m
     else ret m) in
  ret (Json 201 (MatchData m)).

(** ** Match controller: statistics of a completed match *)

Definition stats_key (s : Statistics) : string * string := (st_playerId s, st_matchId s).

(** [Statistics.findOne({ playerId, matchId })] *)
Definition Statistics_findOne (playerId matchId : string) : Handler (option Statistics) :=
  λ db, (inr (List.find (λ s, bool_decide (stats_key s = (playerId, matchId))) (statistics db)), db).

(** The document found by [findOne] is the first of its key: saving it
    rewrites that one. *)
Fixpoint replace_first (s : Statistics) (l : list Statistics) : list Statistics :=
  match l with
  | [] => []
  | s0 :: l' =>
      if bool_decide (stats_key s0 = stats_key s) then s :: l' else s0 :: replace_first s l'
  end.

(** [stats.save()] on a document obtained from [findOne]. *)
Definition Statistics_save (s : Statistics) : Handler unit :=
  λ db, if statisticsSchema_valid s
        then (inr tt, set_statistics db (replace_first s (statistics db)))
        else (inl (Next ValidationError), db).

(** [stats.save()] on a [new Statistics(..)]: validation, then insertion
    under the unique index on (playerId, matchId). *)
Definition Statistics_insert (s : Statistics) : Handler unit :=
  λ db, if negb (statisticsSchema_valid s) then (inl (Next ValidationError), db)
        else if bool_decide (stats_key s ∈ stats_key <$> statistics db)
        then (inl (Next DuplicateKeyError), db)
        else (inr tt, set_statistics db (statistics db ++ [s])).

Definition set_positionsPlayed (s : Statistics) (v : list (option string)) : Statistics :=
  {| st_playerId := st_playerId s; st_matchId := st_matchId s;
     st_minutesPlayed := st_minutesPlayed s; st_positionsPlayed := v;
     st_substitutionsCount := st_substitutionsCount s;
     st_injuries := st_injuries s; st_playerOfMatch := st_playerOfMatch s;
     st_goals := st_goals s; st_assists := st_assists s;
     st_yellowCards := st_yellowCards s; st_redCards := st_redCards s;
     st_rating := st_rating s |}.

Definition set_minutesPlayed (s : Statistics) (v : Z) : Statistics :=
  {| st_playerId := st_playerId s; st_matchId := st_matchId s;
     st_minutesPlayed := v; st_positionsPlayed := st_positionsPlayed s;
     st_substitutionsCount := st_substitutionsCount s;
     st_injuries := st_injuries s; st_playerOfMatch := st_playerOfMatch s;
     st_goals := st_goals s; st_assists := st_assists s;
     st_yellowCards := st_yellowCards s; st_redCards := st_redCards s;
     st_rating := st_rating s |}.

(** The update of an existing record from a performance; the position
    read through the unpopulated [playerId] is [undefined]. *)
Definition stats_of_performance (s : Statistics) (performance : PlayerPerformance) : Statistics :=
  {| st_playerId := st_playerId s; st_matchId := st_matchId s;
     st_minutesPlayed := pp_minutesPlayed performance;
     st_positionsPlayed := [None];
     st_substitutionsCount := st_substitutionsCount s;
     st_injuries := st_injuries s;
     st_playerOfMatch := pp_playerOfMatch performance;
     st_goals := pp_goals performance; st_assists := pp_assists performance;
     st_yellowCards := pp_yellowCards performance;
     st_redCards := pp_redCards performance;
     st_rating := pp_rating performance |}.

Definition new_stats_of_performance (matchId : string) (performance : PlayerPerformance) : Statistics :=
  {| st_playerId := pp_playerId performance; st_matchId := matchId;
     st_minutesPlayed := pp_minutesPlayed performance;
     st_positionsPlayed := [];
     st_substitutionsCount := 0; st_injuries := [];
     st_playerOfMatch := pp_playerOfMatch performance;
     st_goals := pp_goals performance; st_assists := pp_assists performance;
     st_yellowCards := pp_yellowCards performance;
     st_redCards := pp_redCards performance;
     st_rating := pp_rating performance |}.

Definition basic_stats (playerId matchId : string) (minutesPlayed : Z)
    (player : option Player) : Statistics :=
  {| st_playerId := playerId; st_matchId := matchId;
     st_minutesPlayed := minutesPlayed;
     st_positionsPlayed :=
       match player with
       | Some p => [Some (p_position p)]
       | None => [Some "Unknown"]
       end;
     st_substitutionsCount := 0; st_injuries := [];
     st_playerOfMatch := false;
     st_goals := 0; st_assists := 0; st_yellowCards := 0; st_redCards := 0;
     st_rating := None |}.

(** First loop of [createStatisticsFromMatch]: one performance. *)
Definition stats_for_performance (matchId : string) (performance : PlayerPerformance) : Handler unit :=
  let! found := Statistics_findOne (pp_playerId performance) matchId in
  let stats :=
    match found with
    | Some s => stats_of_performance s performance
    | None => new_stats_of_performance matchId performance
    end in
  let! player := Player_findById (pp_playerId performance) in
  let stats :=
    match player with
    | Some p => set_positionsPlayed stats [Some (p_position p)]
    | None => stats
    end in
  match found with
  | Some _ => Statistics_save stats
  | None => Statistics_insert stats
  end.

(** Second loop: one player of the team sheet. *)
Definition stats_for_fielded (matchId : string) (m : Match) (playerId : string) : Handler unit :=
  match getPlayerPerformance m playerId with
  | Some _ => ret tt
  | None =>
      let! found := Statistics_findOne playerId matchId in
      let minutesPlayed := getPlayerPlaytime m playerId in
      match found with
      | Some s => Statistics_save (set_minutesPlayed s minutesPlayed)
      | None =>
          let! player := Player_findById playerId in
          Statistics_insert (basic_stats playerId matchId minutesPlayed player)
      end
  end.

(** An error of a query or of a [save] is rethrown to the caller. *)
Definition createStatisticsFromMatch (matchId : string) (m : Match) : Handler unit :=
  for_of (m_playerPerformances m) (stats_for_performance matchId) ;;;
  for_of (m_teamSheet m) (stats_for_fielded matchId m).

(** ** Match controller: ending a match *)

Record MatchResultBody := {
  rb_result : option string;
  rb_ourScore : option Z;
  rb_opponentScore : option Z
}.

Record PerformanceBody := {
  pb_playerId : option string;
  pb_goals : option Z;
  pb_assists : option Z;
  pb_yellowCards : option Z;
  pb_redCards : option Z;
  pb_rating : option Z;
  pb_playerOfMatch : option bool
}.

(** [playerPerformances] is [Some] when the body carries an array. *)
Record EndBody := {
  eb_matchResult : option MatchResultBody;
  eb_playerPerformances : option (list PerformanceBody)
}.

(** [playerPerformances.forEach(performance => ...)] *)
Definition record_performance (m : Match) (performance : PerformanceBody) : Match :=
  match pb_playerId performance with
  | Some (String a s) =>
      let playerId := String a s in
      updatePlayerPerformance m playerId
        {| pd_goals := num_or (pb_goals performance) 0;
           pd_assists := num_or (pb_assists performance) 0;
           pd_yellowCards := num_or (pb_yellowCards performance) 0;
           pd_redCards := num_or (pb_redCards performance) 0;
           pd_rating := num_or_null (pb_rating performance);
           pd_playerOfMatch := default false (pb_playerOfMatch performance);
           pd_minutesPlayed := getPlayerPlaytime m playerId |}
  | _ => m
  end.

Definition record_performances (m : Match) (l : list PerformanceBody) : Match :=
  foldl record_performance m l.

Definition result_enum : list (option string) := [Some "win"; Some "loss"; Some "draw"].

Definition endMatch (id : string) (body : EndBody) (now : Z) : Handler Response :=
  let! m := or_reply (Match_findById id) (Json 404 (Failure "Match not found")) in
  reply_if (negb (bool_decide (m_status m = ongoing)))
    (Json 400 (Failure "Match is not currently ongoing")) ;;;
  let m := accumulate_playtime now m in
  let m := set_status m completed in
  let! m :=
    match m_type m with
    | type_training =>
        match eb_playerPerformances body with
        | Some l => ret (record_performances m l)
        | None => ret m
        end
    | type_match =>
        let! matchResult :=
          or_reply (ret (eb_matchResult body))
            (Json 400 (Failure "Match result is required when ending a match")) in
        reply_if (negb (bool_decide (rb_result matchResult ∈ result_enum)))
          (Json 400 (Failure "Match result must be win, loss, or draw")) ;;;
        let m := set_matchResult m
                   (Some {| mr_result := rb_result matchResult;
                            mr_ourScore := num_or (rb_ourScore matchResult) 0;
                            mr_opponentScore := num_or (rb_opponentScore matchResult) 0 |}) in
        match eb_playerPerformances body with
        | Some l => ret (validateMatchResult (record_performances m l))
        | None => ret m
        end
    end in
  Match_save id m ;;;
  createStatisticsFromMatch id m ;;;
  ret (Json 200 (MatchDataMessage m
         ((match m_type m with type_match => "Match" | type_training => "Training session" end)
          ++ " completed successfully"))).

(** ** Schedule controller: update and cancel *)

(** [Match.findByIdAndUpdate(id, body, { runValidators: true })]: the
    paths of the body are validated, then set on the stored document. *)
Definition update_valid (now : Z) (body : MatchBody) : bool :=
  date_valid now (mb_date body)
  && match mb_duration body with
     | Some d => (1 <=? d) && (d <=? 200)
     | None => true
     end
  && opt_maxlength 100 (mb_opponent body)
  && opt_maxlength 200 (mb_venue body)
  && opt_maxlength 1000 (mb_notes body).

Definition apply_update (body : MatchBody) (m : Match) : Match :=
  {| m_date := mb_date body; m_type := mb_type body;
     m_teamSheet := default (m_teamSheet m) (mb_teamSheet body);
     m_substitutions := m_substitutions m; m_playtime := m_playtime m;
     m_status := default (m_status m) (mb_status body);
     m_duration := default (m_duration m) (mb_duration body);
     m_opponent := from_option Some (m_opponent m) (mb_opponent body);
     m_venue := from_option Some (m_venue m) (mb_venue body);
     m_notes := from_option Some (m_notes m) (mb_notes body);
     m_matchResult := m_matchResult m;
     m_playerPerformances := m_playerPerformances m;
     m_createdAt := m_createdAt m |}.

Definition Match_findByIdAndUpdate (now : Z) (id : string) (body : MatchBody) : Handler (option Match) :=
  λ db, if negb (update_valid now body) then (inl (Next ValidationError), db)
        else match matches db !! id with
             | Some m => (inr (Some (apply_update body m)),
                          set_matches db (<[id := apply_update body m]> (matches db)))
             | None => (inr None, db)
             end.

(** [Match.findByIdAndUpdate(id, { status })], without validators. *)
Definition Match_updateStatus (id : string) (status : MatchStatus) : Handler unit :=
  λ db, (inr tt, set_matches db (alter (λ m, set_status m status) id (matches db))).

Definition updateSchedule (id : string) (body : MatchBody) (now : Z) : Handler Response :=
  let! schedule := or_reply (Match_findById id) (Json 404 (Failure "Schedule not found")) in
  reply_if (bool_decide (m_status schedule = completed))
    (Json 400 (Failure "Cannot update completed matches")) ;;;
  match mb_teamSheet body with
  | Some teamSheet =>
      let! ok := all_available teamSheet in
      reply_if (negb ok)
        (Json 400 (Failure "Some players in the team sheet are not available"))
  | None => ret tt
  end ;;;
  let! schedule := Match_findByIdAndUpdate now id body in
  ret (Json 200 (match schedule with
                 | Some updated => MatchData updated
                 | None => NullData
                 end)).

Definition cancelSchedule (id : string) : Handler Response :=
  let! schedule := or_reply (Match_findById id) (Json 404 (Failure "Schedule not found")) in
  reply_if (bool_decide (m_status schedule = completed))
    (Json 400 (Failure "Cannot cancel completed matches")) ;;;
  reply_if (bool_decide (m_status schedule = ongoing))
    (Json 400 (Failure "Cannot cancel ongoing matches. End the match first.")) ;;;
  Match_updateStatus id cancelled ;;;
  ret (Json 200 (Message "Schedule cancelled successfully")).

Definition createSchedule (body : MatchBody) (now : Z) (newId : string) : Handler Response :=
  (if nonempty_sheet (mb_teamSheet body) then
     let! ok := all_available (default [] (mb_teamSheet body)) in
     reply_if (negb ok)
       (Json 400 (Failure "Some players in the team sheet are not available"))
   else ret tt) ;;;
  let schedule := new_match now body scheduled in
  Match_create now newId schedule ;;;
  ret (Json 201 (MatchData schedule)).

(** ** Schedule controller: team generation *)

(** [s.split('-')] *)
Fixpoint split_dash (s : string) : list string :=
  match s with
  | EmptyString => [EmptyString]
  | String c s' =>
      if Ascii.eqb c "-"%char then EmptyString :: split_dash s'
      else match split_dash s' with
           | w :: ws => String c w :: ws
           | [] => [String c EmptyString]
           end
  end.

Definition is_space (c : ascii) : bool :=
  let n := nat_of_ascii c in
  ((n =? 32)%nat || ((9 <=? n)%nat && (n <=? 13)%nat))%bool.

Fixpoint skip_spaces (s : string) : string :=
  match s with
  | String c s' => if is_space c then skip_spaces s' else s
  | EmptyString => s
  end.

Definition digit_value (radix : Z) (c : ascii) : option Z :=
  let n := Z.of_nat (nat_of_ascii c) in
  let v := if (48 <=? n) && (n <=? 57) then Some (n - 48)
           else if (97 <=? n) && (n <=? 122) then Some (n - 87)
           else if (65 <=? n) && (n <=? 90) then Some (n - 55)
           else None in
  match v with
  | Some d => if d <? radix then Some d else None
  | None => None
  end.

(** The value of the longest prefix of digits; [None] when it is empty. *)
Fixpoint read_digits (radix : Z) (acc : option Z) (s : string) : option Z :=
  match s with
  | String c s' =>
      match digit_value radix c with
      | Some d => read_digits radix (Some (default 0 acc * radix + d)) s'
      | None => acc
      end
  | EmptyString => acc
  end.

Definition read_unsigned (s : string) : option Z :=
  match s with
  | String "0" (String "x" s') => read_digits 16 None s'
  | String "0" (String "X" s') => read_digits 16 None s'
  | _ => read_digits 10 None s
  end.

(** [parseInt(s)]; [None] is [NaN]. *)
Definition parseInt (s : string) : option Z :=
  match skip_spaces s with
  | String "-" s' => Z.opp <$> read_unsigned s'
  | String "+" s' => read_unsigned s'
  | s' => read_unsigned s'
  end.

(** [i < needed && i < available.length]: the entries the loop pushes.
    A count that is [NaN] or [undefined] compares false. *)
Definition take_needed {A} (needed : option Z) (available : list A) : list A :=
  match needed with
  | Some n => take (Z.to_nat n) available
  | None => []
  end.

(** [a + b] where [None] is [NaN] or [undefined]. *)
Definition num_add (a b : option Z) : option Z :=
  match a, b with
  | Some x, Some y => Some (x + y)
  | _, _ => None
  end.

(** [playerPlaytime[id]], read as 0 where the key is missing:
    [generateTeamSheet] sets the key of every available player. *)
Definition recent_minutes (playerPlaytime : gmap string Z) (id : string) : Z :=
  num_or (playerPlaytime !! id) 0.

Definition in_bucket (position : string) (p : string * Player) : bool :=
  bool_decide (p_position p.2 = position)
  || bool_decide (position ∈ p_preferredPositions p.2).

(** The comparator key of a position bucket. *)
Definition selection_score (playerPlaytime : gmap string Z) (prioritizeRest : bool)
    (position : string) (p : string * Player) : Z :=
  if prioritizeRest then recent_minutes playerPlaytime p.1
  else recent_minutes playerPlaytime p.1
       + (if bool_decide (p_position p.2 = position) then 0 else 1) * 10.

(** Documents of one query are the same object when they have the same
    [_id]. *)
Definition selected (selectedTeam : list (string * Player)) (p : string * Player) : bool :=
  includes p.1 selectedTeam.*1.

Definition generateOptimalTeam (availablePlayers : list (string * Player))
    (playerPlaytime : gmap string Z) (formation : string) (prioritizeRest : bool)
    : list (string * Player) :=
  let formationArray : list (option Z) := parseInt <$> split_dash formation in
  let defenders : option Z := mjoin (formationArray !! 0%nat) in
  let midfielders : option Z := mjoin (formationArray !! 1%nat) in
  let forwards : option Z := mjoin (formationArray !! 2%nat) in
  let goalkeepers : option Z := Some 1 in
  let bucket (position : string) (players : list (string * Player)) :=
    sort_by (selection_score playerPlaytime prioritizeRest position) players in
  let Goalkeeper :=
    bucket "Goalkeeper"
      (filter (λ p : string * Player, p_position p.2 = "Goalkeeper") availablePlayers) in
  let Defender :=
    bucket "Defender" (filter (λ p, in_bucket "Defender" p = true) availablePlayers) in
  let Midfielder :=
    bucket "Midfielder" (filter (λ p, in_bucket "Midfielder" p = true) availablePlayers) in
  let Forward :=
    bucket "Forward" (filter (λ p, in_bucket "Forward" p = true) availablePlayers) in
  let selectedTeam : list (string * Player) :=
    (take_needed goalkeepers Goalkeeper ++ take_needed defenders Defender
     ++ take_needed midfielders Midfielder ++ take_needed forwards Forward)%list in
  let totalNeeded := num_add (num_add (num_add goalkeepers defenders) midfielders) forwards in
  let selectedTeam :=
    match totalNeeded with
    | Some total =>
        if Z.of_nat (length selectedTeam) <? total then
          let remainingPlayers :=
            sort_by (λ p, recent_minutes playerPlaytime p.1)
              (filter (λ p, selected selectedTeam p = false) availablePlayers) in
          (selectedTeam ++ take (Z.to_nat total - length selectedTeam) remainingPlayers)%list
        else selectedTeam
    | None => selectedTeam
    end in
  take 11 selectedTeam.

Record GenerateBody := {
  gb_formationPreference : option string;
  gb_prioritizeRest : bool
}.

(** [recentMatch.playtime.forEach((minutes, playerId) => ...)] *)
Definition add_recent (playerPlaytime : gmap string Z) (recentMatch : string * Match) : gmap string Z :=
  map_fold (λ playerId minutes acc,
              match acc !! playerId with
              | Some t => <[playerId := t + minutes]> acc
              | None => acc
              end)
    playerPlaytime (m_playtime recentMatch.2).

Definition thirty_days : Z := 30 * 24 * 60 * 60 * 1000.

Definition generateTeamSheet (id : string) (body : GenerateBody) (now : Z) : Handler Response :=
  let! m := or_reply (Match_findById id) (Json 404 (Failure "Schedule not found")) in
  reply_if (negb (bool_decide (m_status m = scheduled)))
    (Json 400 (Failure "Can only generate team sheet for scheduled matches")) ;;;
  let! availablePlayers :=
    Player_find (λ _ p, p_availability p
                        && bool_decide (p_injuryStatus p ∈ ["Healthy"; "Minor Injury"])) in
  reply_if (bool_decide (length availablePlayers < 11)%nat)
    (Json 400 (Failure "Not enough available players for a full team")) ;;;
  let! recentMatches :=
    Match_find (λ _ r, (now - thirty_days <=? m_date r) && (m_date r <? m_date m)
                       && bool_decide (m_status r = completed)) in
  let playerPlaytime : gmap string Z :=
    foldl (λ acc player, <[player.1 := 0]> acc) ∅ availablePlayers in
  let playerPlaytime := foldl add_recent playerPlaytime recentMatches in
  let formation := str_or (gb_formationPreference body) "4-4-2" in
  let teamSheet :=
    generateOptimalTeam availablePlayers playerPlaytime formation (gb_prioritizeRest body) in
  let m := set_teamSheet m teamSheet.*1 in
  Match_save id m ;;;
  ret (Json 200 (GeneratedTeam m teamSheet formation)).

(** ** Notions used by the properties *)

(** The fields the loop over the team sheet reads are not written by it. *)
Definition same_but_playtime (m m' : Match) : Prop :=
  m_date m' = m_date m ∧ m_type m' = m_type m ∧ m_teamSheet m' = m_teamSheet m
  ∧ m_substitutions m' = m_substitutions m ∧ m_status m' = m_status m
  ∧ m_matchResult m' = m_matchResult m
  ∧ m_playerPerformances m' = m_playerPerformances m
  ∧ m_createdAt m' = m_createdAt m.

(** The start of the current stay of a player on the field. *)
Definition startTime (m : Match) (playerId : string) : Z :=
  match lastSubstitution m playerId with
  | Some sub => sub_time sub
  | None => m_createdAt m
  end.

(** The keys of the unique index, in the order of the collection. *)
Definition stats_keys (db : DB) : list (string * string) :=
  stats_key <$> statistics db.

(** The effect on the index of a computation that is to see to it that
    the records of [keys] exist: it appends keys and never repeats one,
    when it returns the [keys] are there, when they were there already it
    appends nothing, and it fails by throwing only. *)
Record upserts (keys : list (string * string)) (db : DB)
    (out : (Response + unit) * DB) : Prop := {
  upserts_grows : ∃ new, stats_keys out.2 = (stats_keys db ++ new)%list;
  upserts_unique : NoDup (stats_keys db) → NoDup (stats_keys out.2);
  upserts_done : out.1 = inr tt → ∀ k, k ∈ keys → k ∈ stats_keys out.2;
  upserts_same : (∀ k, k ∈ keys → k ∈ stats_keys db) → stats_keys out.2 = stats_keys db;
  upserts_throws : ∀ r, out.1 = inl r → ∃ e, r = Next e;
  upserts_frame : matches out.2 = matches db ∧ players out.2 = players db
}.

(** The key the second loop has to provide for a player of the team
    sheet: none when the player has a performance. *)
Definition fielded_key (matchId : string) (m : Match) (playerId : string)
    : list (string * string) :=
  match getPlayerPerformance m playerId with
  | Some _ => []
  | None => [(playerId, matchId)]
  end.

(** The keys of a completed match: one per performance, and one per
    player of the team sheet without a performance. *)
Definition match_keys (matchId : string) (m : Match) : list (string * string) :=
  ((m_playerPerformances m ≫= λ performance, [(pp_playerId performance, matchId)])
   ++ (m_teamSheet m ≫= fielded_key matchId m))%list.

(** The fields left alone by the recording of the performances. *)
Definition same_but_performances (m m' : Match) : Prop :=
  m_type m' = m_type m ∧ m_teamSheet m' = m_teamSheet m
  ∧ m_playtime m' = m_playtime m ∧ m_status m' = m_status m
  ∧ m_matchResult m' = m_matchResult m.

(** The document [endMatch] saves for a match of type 'match'. *)
Definition ended_match (m : Match) (r : MatchResultBody)
    (performances : option (list PerformanceBody)) (now : Z) : Match :=
  let m := set_status (accumulate_playtime now m) completed in
  let m := set_matchResult m
             (Some {| mr_result := rb_result r;
                      mr_ourScore := num_or (rb_ourScore r) 0;
                      mr_opponentScore := num_or (rb_opponentScore r) 0 |}) in
  match performances with
  | Some l => validateMatchResult (record_performances m l)
  | None => m
  end.

(** The document [endMatch] saves for a training session. *)
Definition ended_training (m : Match) (performances : option (list PerformanceBody))
    (now : Z) : Match :=
  let m := set_status (accumulate_playtime now m) completed in
  match performances with
  | Some l => record_performances m l
  | None => m
  end.

(** ** Routes *)

(** The requests of the match and schedule routes that reach a handler
    of this development. *)
Inductive Request :=
| POST_matches_start (body : MatchBody) (newId : string)
| PUT_matches_start (id : string)
| POST_matches_substitute (id : string) (body : SubstitutionBody)
| GET_matches_playtime (id : string)
| PUT_matches_end (id : string) (body : EndBody)
| POST_schedules (body : MatchBody) (newId : string)
| POST_schedules_generate_team (id : string) (body : GenerateBody)
| PUT_schedules (id : string) (body : MatchBody)
| DELETE_schedules (id : string).

Definition route (req : Request) (now : Z) : Handler Response :=
  match req with
  | POST_matches_start body newId => startMatch body now newId
  | PUT_matches_start id => startExistingMatch id
  | POST_matches_substitute id body => makeSubstitution id body now
  | GET_matches_playtime id => getPlaytimeStats id now
  | PUT_matches_end id body => endMatch id body now
  | POST_schedules body newId => createSchedule body now newId
  | POST_schedules_generate_team id body => generateTeamSheet id body now
  | PUT_schedules id body => updateSchedule id body now
  | DELETE_schedules id => cancelSchedule id
  end.

(** A computation keeps the match stored under [id] as [m]. *)
Definition keeps (id : string) (m : Match) {A} (h : Handler A) : Prop :=
  ∀ db, matches db !! id = Some m → matches (h db).2 !! id = Some m.

(** A completed match is kept by a handler. *)
Definition keeps_completed (h : Handler Response) : Prop :=
  ∀ db id m, matches db !! id = Some m → m_status m = completed →
             matches (run h db).2 !! id = Some m.

(** The query of [generateTeamSheet] for the players it may select. *)
Definition eligible (p : Player) : bool :=
  p_availability p && bool_decide (p_injuryStatus p ∈ ["Healthy"; "Minor Injury"]).

Definition is_goalkeeper (d : string * Player) : Prop := p_position d.2 = "Goalkeeper".

(** ** Further notions and handlers *)

(** *** Fair play

    [checkPlaytimeFairness] of the match controller.  [Math.max] and
    [Math.min] of no arguments are the infinities, written [None]; their
    difference is then not above 20.  The message carries the difference
    in decimal digits, as JavaScript prints an integer of that size. *)

Definition Math_max (l : list Z) : option Z :=
  foldr (λ x acc, Some (match acc with Some y => Z.max x y | None => x end)) None l.

Definition Math_min (l : list Z) : option Z :=
  foldr (λ x acc, Some (match acc with Some y => Z.min x y | None => x end)) None l.

Record PlaytimeAlert := {
  pa_type : string;
  pa_message : string;
  pa_maxPlaytime : Z;
  pa_minPlaytime : Z;
  pa_difference : Z
}.

Definition checkPlaytimeFairness (m : Match) : option PlaytimeAlert :=
  let playtimes := (map_to_list (m_playtime m)).*2 in
  if (length playtimes <? 2)%nat then None
  else
    match Math_max playtimes, Math_min playtimes with
    | Some maxPlaytime, Some minPlaytime =>
        let difference := maxPlaytime - minPlaytime in
        if 20 <? difference
        then Some {| pa_type := "unfair_playtime";
                     pa_message := "Playtime difference is " +:+ pretty difference
                                   +:+ " minutes. Consider rotating players.";
                     pa_maxPlaytime := maxPlaytime;
                     pa_minPlaytime := minPlaytime;
                     pa_difference := difference |}
        else None
    | _, _ => None
    end.

(** *** The substitution route

    [validateSubstitution] of the validation middleware, which the route
    runs before [makeSubstitution]: [None] is the call of [next()].  A
    [playerIn] or [playerOut] missing from the body is falsy like the
    empty string. *)

Definition quoted (s : string) : string :=
  String (ascii_of_nat 34) s +:+ String (ascii_of_nat 34) "".

Definition validInjuryStatuses : list string := ["Minor Injury"; "Major Injury"].

Definition validateSubstitution (body : SubstitutionBody) : option Response :=
  if negb (truthy (Some (sb_playerIn body))) || negb (truthy (Some (sb_playerOut body)))
  then Some (Json 400 (Failure "Player in and player out are required"))
  else if injury_substitution body
          && negb (match sb_injuryStatus body with
                   | Some injuryStatus => includes injuryStatus validInjuryStatuses
                   | None => false
                   end)
  then Some (Json 400 (Failure ("Invalid injury status. Must be " +:+ quoted "Minor Injury"
                                +:+ " or " +:+ quoted "Major Injury")))
  else None.

(** [router.post('/:id/substitute', ..., validateSubstitution, makeSubstitution)] *)
Definition substitute_route (id : string) (body : SubstitutionBody) (now : Z)
    : Handler Response :=
  match validateSubstitution body with
  | Some r => reply r
  | None => makeSubstitution id body now
  end.

(** The [enum] of [injuryStatus] in the player schema. *)
Definition injuryStatus_enum : list string :=
  ["Healthy"; "Minor Injury"; "Major Injury"; "Recovering"].


(** *** The records of the statistics *)

(** The record [Statistics.findOne] returns for a key. *)
Definition find_stats (k : string * string) (db : DB) : option Statistics :=
  List.find (λ s, bool_decide (stats_key s = k)) (statistics db).

(** The record the first loop writes for a performance, from the record
    it found and the player it looked up. *)
Definition performance_stats (matchId : string) (performance : PlayerPerformance)
    (found : option Statistics) (player : option Player) : Statistics :=
  let stats :=
    match found with
    | Some s => stats_of_performance s performance
    | None => new_stats_of_performance matchId performance
    end in
  match player with
  | Some p => set_positionsPlayed stats [Some (p_position p)]
  | None => stats
  end.

(** The record the second loop writes for a player of the team sheet. *)
Definition fielded_stats (matchId : string) (m : Match) (playerId : string)
    (found : option Statistics) (player : option Player) : Statistics :=
  match found with
  | Some s => set_minutesPlayed s (getPlayerPlaytime m playerId)
  | None => basic_stats playerId matchId (getPlayerPlaytime m playerId) player
  end.

(** What the materialisation leaves alone: the players and the matches,
    the records under keys other than [keys], and of every record its
    existence, its injuries and its count of substitutions. *)
Definition stats_kept (keys : list (string * string)) (db db' : DB) : Prop :=
  players db' = players db
  ∧ matches db' = matches db
  ∧ (∀ k, k ∉ keys → find_stats k db' = find_stats k db)
  ∧ (∀ k s, find_stats k db = Some s →
       ∃ s', find_stats k db' = Some s'
             ∧ st_injuries s' = st_injuries s
             ∧ st_substitutionsCount s' = st_substitutionsCount s).

(** Entries of the available players whose positions are among [S]. *)
Definition of_positions (availablePlayers : list (string * Player)) (S : list string)
    (l : list (string * Player)) : Prop :=
  NoDup l.*1 ∧ ∀ p, p ∈ l → p ∈ availablePlayers ∧ p_position p.2 ∈ S.

(** ** Statistics controller: logging an injury

    [logInjury] behind [validateStatistics], as the route runs them.  The
    handler answers a refusal with [Json], and its value is the record it
    sends with the status 201 and the message 'Injury logged
    successfully'. *)

(** [String.prototype.trim], on ASCII white space: the setter of the
    [injuries] strings. *)
Definition trim (s : string) : string :=
  String.rev (skip_spaces (String.rev (skip_spaces s))).

(** The body of the request; a field missing from it is falsy like the
    empty string. *)
Record InjuryBody := {
  ib_playerId : string;
  ib_matchId : string;
  ib_injuryDescription : string;
  ib_severity : option string
}.

(** [next()] is [None]. *)
Definition validateStatistics (body : InjuryBody) : option Response :=
  if negb (truthy (Some (ib_playerId body))) || negb (truthy (Some (ib_matchId body)))
     || negb (truthy (Some (ib_injuryDescription body)))
  then Some (Json 400 (Failure "Player ID, match ID, and injury description are required"))
  else if truthy (ib_severity body)
          && negb (includes (toLowerCase (default "" (ib_severity body)))
                     ["minor"; "major"; "severe"])
  then Some (Json 400 (Failure ("Severity must be " +:+ quoted "minor" +:+ ", "
                                +:+ quoted "major" +:+ ", or " +:+ quoted "severe")))
  else None.

Definition set_injuries (s : Statistics) (v : list string) : Statistics :=
  {| st_playerId := st_playerId s; st_matchId := st_matchId s;
     st_minutesPlayed := st_minutesPlayed s; st_positionsPlayed := st_positionsPlayed s;
     st_substitutionsCount := st_substitutionsCount s;
     st_injuries := v; st_playerOfMatch := st_playerOfMatch s;
     st_goals := st_goals s; st_assists := st_assists s;
     st_yellowCards := st_yellowCards s; st_redCards := st_redCards s;
     st_rating := st_rating s |}.

(** [new Statistics({ playerId, matchId, minutesPlayed, positionsPlayed })],
    with the defaults of the schema. *)
Definition new_injury_stats (playerId matchId : string) (minutesPlayed : Z)
    (position : string) : Statistics :=
  {| st_playerId := playerId; st_matchId := matchId;
     st_minutesPlayed := minutesPlayed; st_positionsPlayed := [Some position];
     st_substitutionsCount := 0; st_injuries := []; st_playerOfMatch := false;
     st_goals := 0; st_assists := 0; st_yellowCards := 0; st_redCards := 0;
     st_rating := None |}.

(** [injuryStatusMap[severity.toLowerCase()] || 'Minor Injury'], for the
    severities the middleware lets through. *)
Definition injuryStatusMap (severity : string) : string :=
  let key := toLowerCase severity in
  if bool_decide (key = "minor") then "Minor Injury"
  else if bool_decide (key = "major") then "Major Injury"
  else if bool_decide (key = "severe") then "Major Injury"
  else "Minor Injury".

(** [Player.findByIdAndUpdate(id, { injuryStatus, ...(major && { availability: false }) })],
    without validators. *)
Definition Player_updateInjury (id : string) (injuryStatus : string) : Handler unit :=
  λ db, (inr tt,
         set_players db
           (alter (λ p, {| p_name := p_name p; p_jerseyNumber := p_jerseyNumber p;
                           p_position := p_position p; p_injuryStatus := injuryStatus;
                           p_preferredPositions := p_preferredPositions p;
                           p_availability :=
                             if bool_decide (injuryStatus = "Major Injury") then false
                             else p_availability p |})
              id (players db))).

Definition logInjury (body : InjuryBody) : Handler Statistics :=
  let playerId := ib_playerId body in
  let matchId := ib_matchId body in
  let! player := Player_findById playerId in
  let! m := Match_findById matchId in
  let! player := or_reply (ret player) (Json 404 (Failure "Player not found")) in
  let! m := or_reply (ret m) (Json 404 (Failure "Match not found")) in
  let! found := Statistics_findOne playerId matchId in
  let stats :=
    match found with
    | Some s => s
    | None => new_injury_stats playerId matchId
                (num_or (Some (getPlayerPlaytime m playerId)) 0) (p_position player)
    end in
  let stats := set_injuries stats (st_injuries stats ++ [trim (ib_injuryDescription body)]) in
  match found with
  | Some _ => Statistics_save stats
  | None => Statistics_insert stats
  end ;;;
  (if truthy (ib_severity body)
   then Player_updateInjury playerId (injuryStatusMap (default "" (ib_severity body)))
   else ret tt) ;;;
  ret stats.

(** [router.post('/log-injury', ..., validateStatistics, logInjury)] *)
Definition log_injury_route (body : InjuryBody) : Handler Statistics :=
  match validateStatistics body with
  | Some r => reply r
  | None => logInjury body
  end.

(** ** Player controller: the injury status

    [updateInjuryStatus], for a request that carries an injury status.
    The update runs the validators of the paths it sets; the value of the
    handler is the updated player it sends with the status 200. *)

(** [Player.findByIdAndUpdate(id, { injuryStatus, ...(major && { availability: false }) },
      { new: true, runValidators: true })] *)
Definition Player_findByIdAndUpdate (id : string) (injuryStatus : string)
    : Handler (option Player) :=
  λ db, if negb (bool_decide (injuryStatus ∈ injuryStatus_enum))
        then (inl (Next ValidationError), db)
        else match players db !! id with
             | Some p =>
                 let p' := {| p_name := p_name p; p_jerseyNumber := p_jerseyNumber p;
                              p_position := p_position p; p_injuryStatus := injuryStatus;
                              p_preferredPositions := p_preferredPositions p;
                              p_availability :=
                                if bool_decide (injuryStatus = "Major Injury") then false
                                else p_availability p |} in
                 (inr (Some p'), set_players db (<[id := p']> (players db)))
             | None => (inr None, db)
             end.

Definition updateInjuryStatus (id : string) (injuryStatus : string) : Handler Player :=
  or_reply (Player_findByIdAndUpdate id injuryStatus) (Json 404 (Failure "Player not found")).

(** ** Sample data

    A squad of six, and a training session created at 10:00:00.000 on
    some day (in milliseconds, 36000000) that is under way with five of
    them on the field. *)

Definition sample_player (name position : string) : Player :=
  {| p_name := name; p_jerseyNumber := 7; p_position := position;
     p_injuryStatus := "Healthy"; p_preferredPositions := [position];
     p_availability := true |}.

Definition sample_session (type : MatchType) (status : MatchStatus)
    (teamSheet : list string) : Match :=
  {| m_date := 36000000; m_type := type; m_teamSheet := teamSheet;
     m_substitutions := []; m_playtime := ∅; m_status := status;
     m_duration := 90; m_opponent := None; m_venue := None; m_notes := None;
     m_matchResult := None; m_playerPerformances := [];
     m_createdAt := 36000000 |}.

Definition sample_players : gmap string Player :=
  list_to_map ((λ id, (id, sample_player id "Midfielder")) <$> ["P1"; "P2"; "P3"; "P4"; "P5"; "P6"]).

Definition sample_db (type : MatchType) (status : MatchStatus) : DB :=
  {| matches := {[ "M1" := sample_session type status ["P1"; "P2"; "P3"; "P4"; "P5"] ]};
     players := sample_players;
     statistics := [] |}.

(** P6 for P3, thirty minutes after the creation of the match. *)
Definition sample_substitution : SubstitutionBody :=
  {| sb_playerIn := "P6"; sb_playerOut := "P3";
     sb_time := Some (36000000 + 30 * 60000);
     sb_reason := Some "Tactical"; sb_injuryStatus := None; sb_injuryNotes := None |}.

Definition sample_substituted : Match :=
  apply_substitution (sample_session type_training ongoing ["P1"; "P2"; "P3"; "P4"; "P5"])
    sample_substitution 40000000.

Definition sample_db_substituted : DB :=
  set_matches (sample_db type_training ongoing) {[ "M1" := sample_substituted ]}.

(** An injury substitution whose reason is longer than the schema
    allows. *)
Definition sample_long_injury : SubstitutionBody :=
  {| sb_playerIn := "P6"; sb_playerOut := "P3"; sb_time := None;
     sb_reason := Some ("injury " ++ string_of_list_ascii (repeat "x"%char 200));
     sb_injuryStatus := Some "Minor Injury"; sb_injuryNotes := None |}.

(** A request to end a match that carries no result. *)
Definition sample_end_without_result : EndBody :=
  {| eb_matchResult := None; eb_playerPerformances := None |}.

Definition sample_result : MatchResultBody :=
  {| rb_result := Some "win"; rb_ourScore := Some 10; rb_opponentScore := Some 0 |}.

Definition sample_goals (playerId : string) (goals : Z) : PerformanceBody :=
  {| pb_playerId := Some playerId; pb_goals := Some goals; pb_assists := None;
     pb_yellowCards := None; pb_redCards := None; pb_rating := None;
     pb_playerOfMatch := None |}.

(** A result with a score of 10 and no array of performances. *)
Definition sample_end_without_performances : EndBody :=
  {| eb_matchResult := Some sample_result; eb_playerPerformances := None |}.

(** The same result, with two goals for P1 and one for P2. *)
Definition sample_end_with_performances : EndBody :=
  {| eb_matchResult := Some sample_result;
     eb_playerPerformances := Some [sample_goals "P1" 2; sample_goals "P2" 1] |}.

(** Ninety minutes after the creation of the sample match. *)
Definition sample_end_time : Z := 36000000 + 90 * 60000.

Definition sample_db_ended : DB :=
  (run (endMatch "M1" sample_end_with_performances sample_end_time)
     (sample_db type_match ongoing)).2.

Definition sample_ended : Match :=
  ended_match (sample_session type_match ongoing ["P1"; "P2"; "P3"; "P4"; "P5"])
    sample_result (Some [sample_goals "P1" 2; sample_goals "P2" 1]) sample_end_time.

(** A request to change an ongoing match into a cancelled one. *)
Definition sample_update : MatchBody :=
  {| mb_date := 36000000; mb_type := type_match; mb_teamSheet := None;
     mb_status := Some cancelled; mb_duration := None; mb_opponent := None;
     mb_venue := None; mb_notes := None |}.

(** Two goalkeepers and nine defenders, all of them eligible, and a
    scheduled match. *)
Definition sample_squad : gmap string Player :=
  list_to_map
    (((λ id, (id, sample_player id "Goalkeeper")) <$> ["G1"; "G2"])
     ++ ((λ id, (id, sample_player id "Defender"))
           <$> ["D1"; "D2"; "D3"; "D4"; "D5"; "D6"; "D7"; "D8"; "D9"]))%list.

Definition sample_db_squad : DB :=
  {| matches := {[ "M1" := sample_session type_match scheduled [] ]};
     players := sample_squad;
     statistics := [] |}.

Definition sample_generate : GenerateBody :=
  {| gb_formationPreference := None; gb_prioritizeRest := true |}.

(** A start with three players of the squad, under a status that the
    handlers overwrite. *)
Definition sample_start : MatchBody :=
  {| mb_date := 36000000; mb_type := type_match;
     mb_teamSheet := Some ["P1"; "P2"; "P3"]; mb_status := Some completed;
     mb_duration := None; mb_opponent := Some "Rovers"; mb_venue := None;
     mb_notes := None |}.

(** P7 is not a player of the sample squad. *)
Definition sample_start_unknown : MatchBody :=
  {| mb_date := 36000000; mb_type := type_match;
     mb_teamSheet := Some ["P1"; "P7"]; mb_status := None;
     mb_duration := None; mb_opponent := None; mb_venue := None;
     mb_notes := None |}.



(** The squad of [sample_db_squad] as a query returns it, and a table of
    recent minutes with an entry for each of its players. *)
Definition sample_available : list (string * Player) :=
  filter (λ d, eligible d.2 = true) (map_to_list sample_squad).

Definition sample_recent : gmap string Z :=
  list_to_map ((λ d : string * Player, (d.1, 0)) <$> sample_available).

(** A severe injury of P3 in the sample match. *)
Definition sample_injury : InjuryBody :=
  {| ib_playerId := "P3"; ib_matchId := "M1";
     ib_injuryDescription := "  Sprained ankle ";
     ib_severity := Some "Severe" |}.

(** * Properties *)

(** *** Substitution *)

Lemma getPlayerPlaytime_default (m : Match) (playerId : string) :
  getPlayerPlaytime m playerId = default 0 (m_playtime m !! playerId).
Proof.
  unfold getPlayerPlaytime, num_or.
  destruct (m_playtime m !! playerId) as [n|]; [|done].
  simpl. destruct (Z.eqb_spec n 0); congruence.
Qed.

Lemma includes_true (x : string) (l : list string) : includes x l = true ↔ x ∈ l.
Proof. unfold includes. by rewrite bool_decide_eq_true. Qed.

Lemma includes_false (x : string) (l : list string) : includes x l = false ↔ x ∉ l.
Proof. unfold includes. by rewrite bool_decide_eq_false. Qed.

(** What a successful substitution went through. *)
Lemma makeSubstitution_success (id : string) (body : SubstitutionBody) (now : Z)
    (db db' : DB) (st : nat) (m' : Match) :
  run (makeSubstitution id body now) db = (Json st (MatchData m'), db') →
  ∃ m, matches db !! id = Some m
       ∧ m_status m = ongoing
       ∧ sb_playerOut body ∈ m_teamSheet m
       ∧ (sb_playerIn body ∉ m_teamSheet m)
       ∧ m' = apply_substitution m body now
       ∧ st = 200%nat
       ∧ matches db' = <[id := m']> (matches db).
Proof.
  unfold run, makeSubstitution, bind, or_reply, bind, Match_findById, Player_findById,
    reply_if, reply, ret, Match_save, Player_updateInjuryStatus.
  destruct (matches db !! id) as [m|] eqn:Hm; [|intros [=]].
  case_bool_decide as Hst; simpl; [|intros [=]].
  destruct (negb _ || negb _); simpl; [intros [=]|].
  destruct (includes (sb_playerOut body) (m_teamSheet m)) eqn:Hout; simpl; [|intros [=]].
  destruct (includes (sb_playerIn body) (m_teamSheet m)) eqn:Hin; simpl; [intros [=]|].
  apply includes_true in Hout. apply includes_false in Hin.
  destruct (injury_substitution body); simpl;
    destruct (matchSchema_valid _); simpl; intros [=]; subst;
    exists m; done.
Qed.

Lemma indexOf_Some (x : string) (l : list string) (i : nat) :
  indexOf x l = Some i →
  l !! i = Some x ∧ ∀ j, (j < i)%nat → l !! j ≠ Some x.
Proof.
  revert i. induction l as [|y l IH]; intros i; simpl; [done|].
  destruct (decide (y = x)) as [->|Hne].
  - intros [= <-]. split; [done|]. intros j Hj. lia.
  - destruct (indexOf x l) as [i'|]; simpl; [|done].
    intros [= <-]. destruct (IH i' eq_refl) as [Hi Hlt]. split; [done|].
    intros [|j] Hj; simpl; [congruence|]. apply Hlt. lia.
Qed.

Lemma indexOf_elem_of (x : string) (l : list string) :
  x ∈ l → is_Some (indexOf x l).
Proof.
  induction l as [|y l IH]; [by intros ?%elem_of_nil|].
  simpl. destruct (decide (y = x)); [by eexists|].
  intros [->|Hin]%elem_of_cons; [done|].
  destruct (IH Hin) as [i ->]. by eexists.
Qed.

Lemma apply_substitution_playtime (m : Match) (body : SubstitutionBody) (now : Z) :
  m_playtime (apply_substitution m body now)
  = <[sb_playerIn body :=
        getPlayerPlaytime
          (updatePlayerPlaytime m (sb_playerOut body)
             (getPlayerPlaytime m (sb_playerOut body)
              + minutes_between (m_createdAt m) (substitutionTime body now)))
          (sb_playerIn body)]>
      (<[sb_playerOut body :=
           getPlayerPlaytime m (sb_playerOut body)
           + minutes_between (m_createdAt m) (substitutionTime body now)]>
         (m_playtime m)).
Proof. reflexivity. Qed.

(** C3. A successful substitution adds to the ledger entry of playerOut
    the whole minutes from the creation of the match to the substitution
    time (the time of the request if it has one, the current time
    otherwise), sets the entry of playerIn to the value it had (0 if it
    had none) and leaves every other entry as it was. *)
Theorem makeSubstitution_ledger (id : string) (body : SubstitutionBody) (now : Z)
    (db db' : DB) (m' : Match) :
  run (makeSubstitution id body now) db = (Json 200 (MatchData m'), db') →
  ∃ m, matches db !! id = Some m
       ∧ matches db' !! id = Some m'
       ∧ m_playtime m' !! sb_playerOut body
         = Some (default 0 (m_playtime m !! sb_playerOut body)
                 + (default now (sb_time body) - m_createdAt m) / 60000)
       ∧ m_playtime m' !! sb_playerIn body
         = Some (default 0 (m_playtime m !! sb_playerIn body))
       ∧ ∀ k, k ≠ sb_playerOut body → k ≠ sb_playerIn body →
              m_playtime m' !! k = m_playtime m !! k.
Proof.
  intros (m & Hm & _ & Hout & Hin & -> & _ & Hdb)%makeSubstitution_success.
  assert (sb_playerIn body ≠ sb_playerOut body) as Hne by congruence.
  exists m. rewrite Hdb, lookup_insert_eq, apply_substitution_playtime.
  repeat split; [done| | |].
  - rewrite lookup_insert_ne, lookup_insert_eq by done.
    rewrite getPlayerPlaytime_default. unfold minutes_between, substitutionTime.
    by destruct (sb_time body).
  - rewrite lookup_insert_eq, getPlayerPlaytime_default. simpl.
    by rewrite lookup_insert_ne.
  - intros k Hk1 Hk2. by rewrite !lookup_insert_ne.
Qed.

(** C5. A successful substitution keeps the length of the team sheet,
    puts playerIn at the first index that held playerOut, leaves every
    other slot as it was and appends one record to the substitution log,
    whose reason is 'Tactical substitution' when the request has none. *)
Theorem makeSubstitution_teamSheet (id : string) (body : SubstitutionBody) (now : Z)
    (db db' : DB) (m' : Match) :
  run (makeSubstitution id body now) db = (Json 200 (MatchData m'), db') →
  ∃ m i, matches db !! id = Some m
         ∧ matches db' !! id = Some m'
         ∧ length (m_teamSheet m') = length (m_teamSheet m)
         ∧ m_teamSheet m !! i = Some (sb_playerOut body)
         ∧ (∀ j, (j < i)%nat → m_teamSheet m !! j ≠ Some (sb_playerOut body))
         ∧ m_teamSheet m' !! i = Some (sb_playerIn body)
         ∧ (∀ j, j ≠ i → m_teamSheet m' !! j = m_teamSheet m !! j)
         ∧ (∃ reason,
              m_substitutions m'
              = (m_substitutions m
                 ++ [{| sub_playerIn := sb_playerIn body;
                        sub_playerOut := sb_playerOut body;
                        sub_time := default now (sb_time body);
                        sub_reason := reason |}])%list
              ∧ (sb_reason body = None → reason = "Tactical substitution")
              ∧ (∀ r, sb_reason body = Some r → r ≠ "" → reason = r)).
Proof.
  intros (m & Hm & _ & Hout & Hin & -> & _ & Hdb)%makeSubstitution_success.
  destruct (indexOf_elem_of _ _ Hout) as [i Hi].
  destruct (indexOf_Some _ _ _ Hi) as [Hlook Hfirst].
  exists m, i. rewrite Hdb, lookup_insert_eq.
  unfold apply_substitution, replace_on_teamSheet; simpl. rewrite Hi.
  repeat split.
  - done.
  - by rewrite length_insert.
  - done.
  - exact Hfirst.
  - apply list_lookup_insert_eq. by eapply lookup_lt_Some.
  - intros j Hj. by rewrite list_lookup_insert_ne.
  - exists (str_or (sb_reason body) "Tactical substitution").
    split; [|split].
    + unfold substitutionTime. by destruct (sb_time body).
    + by intros ->.
    + intros r -> Hr. by destruct r.
Qed.

Ltac unfold_handler :=
  unfold run, bind, or_reply, bind, reply_if, reply, ret,
    Match_findById, Player_findById, Match_save, Player_updateInjuryStatus.

(** C4. A substitution that breaks a precondition fails and changes
    nothing: the answer is 404 when the match does not exist or, the
    match being ongoing, when one of the two players does not exist; it is
    400 when the match is not ongoing and, match and players being there,
    when playerOut is not on the team sheet or playerIn is on it already
    (the checks are made in this order, and the two kinds of 400 differ by
    their message).  Conversely a 404 or a 400 is answered for one of
    these reasons only, and whenever the answer is a failure the database
    is the one the request found. *)
Theorem makeSubstitution_rejections (id : string) (body : SubstitutionBody) (now : Z)
    (db : DB) :
  let r := run (makeSubstitution id body now) db in
  ((matches db !! id = None
    ∨ ∃ m, matches db !! id = Some m
           ∧ (m_status m ≠ ongoing
              ∨ players db !! sb_playerIn body = None
              ∨ players db !! sb_playerOut body = None
              ∨ sb_playerOut body ∉ m_teamSheet m
              ∨ sb_playerIn body ∈ m_teamSheet m)) →
   ∃ st message, r = (Json st (Failure message), db) ∧ (st = 404 ∨ st = 400)%nat)
  ∧ (matches db !! id = None → r = (Json 404 (Failure "Match not found"), db))
  ∧ (∀ m, matches db !! id = Some m →
       (m_status m ≠ ongoing →
          r = (Json 400 (Failure "Can only make substitutions during ongoing matches"), db))
       ∧ (m_status m = ongoing →
          players db !! sb_playerIn body = None ∨ players db !! sb_playerOut body = None →
          r = (Json 404 (Failure "One or both players not found"), db))
       ∧ (m_status m = ongoing →
          is_Some (players db !! sb_playerIn body) →
          is_Some (players db !! sb_playerOut body) →
          (sb_playerOut body ∉ m_teamSheet m →
             r = (Json 400 (Failure "Player to be substituted is not currently on the field"), db))
          ∧ (sb_playerOut body ∈ m_teamSheet m →
             sb_playerIn body ∈ m_teamSheet m →
             r = (Json 400 (Failure "Player coming in is already on the field"), db))))
  ∧ (∀ message, r.1 = Json 404 (Failure message) →
       matches db !! id = None
       ∨ players db !! sb_playerIn body = None
       ∨ players db !! sb_playerOut body = None)
  ∧ (∀ message, r.1 = Json 400 (Failure message) →
       ∃ m, matches db !! id = Some m
            ∧ (m_status m ≠ ongoing
               ∨ sb_playerOut body ∉ m_teamSheet m
               ∨ sb_playerIn body ∈ m_teamSheet m))
  ∧ (∀ st message, r.1 = Json st (Failure message) → r.2 = db).
Proof.
  unfold makeSubstitution. unfold_handler.
  destruct (matches db !! id) as [m|] eqn:Hm; simpl.
  2: { split; [by eauto|]. split; [done|]. split; [done|]. split; [by auto|].
       split; [by intros ? [=]|]. by intros st message _. }
  case_bool_decide as Hst; simpl.
  2: { split; [by eauto|]. split; [done|]. split.
       { intros ? [= <-]. split; [done|]. split; [done|]. done. }
       split; [by intros ? [=]|]. split; [|by intros st message _].
       intros ? _. exists m. auto. }
  destruct (players db !! sb_playerIn body) as [pin|] eqn:Hpin; simpl.
  2: { split; [by eauto|]. split; [done|]. split.
       { intros ? [= <-]. split; [done|]. split; [done|]. by intros _ [? ?]. }
       split; [by auto|]. split; [by intros ? [=]|]. by intros st message _. }
  destruct (players db !! sb_playerOut body) as [pout|] eqn:Hpout; simpl.
  2: { split; [by eauto|]. split; [done|]. split.
       { intros ? [= <-]. split; [done|]. split; [done|]. by intros _ _ [? ?]. }
       split; [by auto|]. split; [by intros ? [=]|]. by intros st message _. }
  destruct (includes (sb_playerOut body) (m_teamSheet m)) eqn:Hout; simpl.
  2: { apply includes_false in Hout.
       split; [by eauto|]. split; [done|]. split.
       { intros ? [= <-]. split; [done|]. split; [by intros _ [[=]|[=]]|].
         intros _ _ _. split; [done|]. done. }
       split; [by intros ? [=]|]. split; [|by intros st message _].
       intros ? _. exists m. auto. }
  apply includes_true in Hout.
  destruct (includes (sb_playerIn body) (m_teamSheet m)) eqn:Hin; simpl.
  { apply includes_true in Hin.
    split; [by eauto|]. split; [done|]. split.
    { intros ? [= <-]. split; [done|]. split; [by intros _ [[=]|[=]]|].
      intros _ _ _. split; [done|]. done. }
    split; [by intros ? [=]|]. split; [|by intros st message _].
    intros ? _. exists m. auto. }
  apply includes_false in Hin.
  destruct (injury_substitution body); simpl;
    destruct (matchSchema_valid _); simpl;
    (split; [intros [[=]|(? & [= <-] & [?|[[=]|[[=]|[?|?]]]])]; done|]);
    (split; [done|]);
    (split; [intros ? [= <-]; split; [done|]; split; [by intros _ [[=]|[=]]|];
             intros _ _ _; split; done|]);
    (split; [by intros ? [=]|]); (split; [by intros ? [=]|]);
    by intros ? ? [=].
Qed.

Lemma makeSubstitution_ledger_witness :
  run (makeSubstitution "M1" sample_substitution 40000000) (sample_db type_training ongoing)
  = (Json 200 (MatchData sample_substituted), sample_db_substituted)
  ∧ ∃ m, matches (sample_db type_training ongoing) !! "M1" = Some m
         ∧ matches sample_db_substituted !! "M1" = Some sample_substituted
         ∧ m_playtime sample_substituted !! "P3"
           = Some (default 0 (m_playtime m !! "P3")
                   + (default 40000000 (Some (36000000 + 30 * 60000)) - m_createdAt m) / 60000)
         ∧ m_playtime sample_substituted !! "P6" = Some (default 0 (m_playtime m !! "P6"))
         ∧ ∀ k, k ≠ "P3" → k ≠ "P6" → m_playtime sample_substituted !! k = m_playtime m !! k.
Proof.
  split; [by vm_compute|].
  apply (makeSubstitution_ledger "M1" sample_substitution 40000000
           (sample_db type_training ongoing) sample_db_substituted sample_substituted).
  by vm_compute.
Defined.

(** The example of the specification: thirty minutes for P3, and P6 in
    the slot of P3. *)
Example substitution_after_thirty_minutes :
  m_playtime sample_substituted !! "P3" = Some 30
  ∧ m_teamSheet sample_substituted = ["P1"; "P2"; "P6"; "P4"; "P5"].
Proof. by vm_compute. Qed.

Lemma makeSubstitution_teamSheet_witness :
  run (makeSubstitution "M1" sample_substitution 40000000) (sample_db type_training ongoing)
  = (Json 200 (MatchData sample_substituted), sample_db_substituted)
  ∧ ∃ m i, matches (sample_db type_training ongoing) !! "M1" = Some m
         ∧ matches sample_db_substituted !! "M1" = Some sample_substituted
         ∧ length (m_teamSheet sample_substituted) = length (m_teamSheet m)
         ∧ m_teamSheet m !! i = Some "P3"
         ∧ (∀ j, (j < i)%nat → m_teamSheet m !! j ≠ Some "P3")
         ∧ m_teamSheet sample_substituted !! i = Some "P6"
         ∧ (∀ j, j ≠ i → m_teamSheet sample_substituted !! j = m_teamSheet m !! j)
         ∧ (∃ reason,
              m_substitutions sample_substituted
              = (m_substitutions m
                 ++ [{| sub_playerIn := "P6"; sub_playerOut := "P3";
                        sub_time := default 40000000 (Some (36000000 + 30 * 60000));
                        sub_reason := reason |}])%list
              ∧ (Some "Tactical" = None → reason = "Tactical substitution")
              ∧ (∀ r, Some "Tactical" = Some r → r ≠ "" → reason = r)).
Proof.
  split; [by vm_compute|].
  apply (makeSubstitution_teamSheet "M1" sample_substitution 40000000
           (sample_db type_training ongoing) sample_db_substituted sample_substituted).
  by vm_compute.
Defined.

Lemma makeSubstitution_rejections_witness :
  run (makeSubstitution "M1" sample_substitution 40000000) (sample_db type_training scheduled)
  = (Json 400 (Failure "Can only make substitutions during ongoing matches"),
     sample_db type_training scheduled).
Proof.
  pose proof (makeSubstitution_rejections "M1" sample_substitution 40000000
                (sample_db type_training scheduled)) as H.
  cbv zeta in H. destruct H as (_ & _ & H & _).
  destruct (H (sample_session type_training scheduled ["P1"; "P2"; "P3"; "P4"; "P5"]))
    as (H1 & _); [by vm_compute|].
  apply H1. discriminate.
Defined.

(** The validation of [save] is not one of the refusals above: when it
    throws, the injury status of playerOut has been written already. *)
Example makeSubstitution_throws_after_injury_update :
  ∃ db', run (makeSubstitution "M1" sample_long_injury 40000000)
           (sample_db type_training ongoing)
         = (Next ValidationError, db')
         ∧ matches db' = matches (sample_db type_training ongoing)
         ∧ p_injuryStatus <$> players db' !! "P3" = Some "Minor Injury"
         ∧ p_injuryStatus <$> players (sample_db type_training ongoing) !! "P3"
           = Some "Healthy".
Proof. eexists. split; [by vm_compute|]. by vm_compute. Qed.

(** *** The playtime derivation *)

Lemma foldl_add_timePlayed (now : Z) (l : list string) (m : Match) :
  let m' := foldl (add_timePlayed now) m l in
  same_but_playtime m m'
  ∧ (∀ p, p ∉ l → m_playtime m' !! p = m_playtime m !! p)
  ∧ (NoDup l → ∀ p, p ∈ l →
       m_playtime m' !! p
       = Some (default 0 (m_playtime m !! p) + (now - startTime m p) / 60000)).
Proof.
  revert m. induction l as [|q l IH]; intros m; simpl.
  { split; [by repeat split|]. split; [done|]. by intros _ p ?%elem_of_nil. }
  destruct (IH (add_timePlayed now m q)) as ((?&?&?&Hsub&?&?&?&Hcr) & Hout & Hin).
  simpl in *.
  split; [by repeat split|]. split.
  - intros p [Hpq Hpl]%not_elem_of_cons. rewrite Hout by done.
    simpl. by rewrite lookup_insert_ne.
  - intros [Hq Hnd]%NoDup_cons p [->|Hp]%elem_of_cons.
    + rewrite Hout by done. simpl. rewrite lookup_insert_eq.
      by rewrite getPlayerPlaytime_default.
    + rewrite (Hin Hnd p Hp). simpl.
      rewrite lookup_insert_ne by (intros ->; done). done.
Qed.

Lemma accumulate_playtime_spec (now : Z) (m : Match) :
  let m' := accumulate_playtime now m in
  same_but_playtime m m'
  ∧ (∀ p, p ∉ m_teamSheet m → m_playtime m' !! p = m_playtime m !! p)
  ∧ (NoDup (m_teamSheet m) → ∀ p, p ∈ m_teamSheet m →
       m_playtime m' !! p
       = Some (default 0 (m_playtime m !! p) + (now - startTime m p) / 60000)).
Proof. apply foldl_add_timePlayed. Qed.

(** C8. Ending an ongoing match of type 'match' without a result, or
    with a result that is none of win, loss and draw, is answered with
    400 and leaves the database, hence the stored match, its status, its
    ledger and its performances, as they were. *)
Theorem endMatch_requires_result (id : string) (body : EndBody) (now : Z)
    (db : DB) (m : Match) :
  matches db !! id = Some m →
  m_status m = ongoing →
  m_type m = type_match →
  (eb_matchResult body = None →
     run (endMatch id body now) db
     = (Json 400 (Failure "Match result is required when ending a match"), db))
  ∧ (∀ r, eb_matchResult body = Some r →
       rb_result r ≠ Some "win" → rb_result r ≠ Some "loss" → rb_result r ≠ Some "draw" →
       run (endMatch id body now) db
       = (Json 400 (Failure "Match result must be win, loss, or draw"), db)).
Proof.
  intros Hm Hst Hty.
  destruct (accumulate_playtime_spec now m) as ((_ & Hty' & _) & _).
  unfold endMatch. unfold_handler. rewrite Hm. simpl.
  rewrite Hst. simpl. rewrite Hty', Hty.
  split.
  - by intros ->.
  - intros r -> H1 H2 H3. simpl.
    rewrite bool_decide_eq_false_2; [done|].
    unfold result_enum. rewrite !elem_of_cons, elem_of_nil.
    intros [?|[?|[?|[]]]]; congruence.
Qed.

Lemma endMatch_requires_result_witness :
  (matches (sample_db type_match ongoing) !! "M1"
   = Some (sample_session type_match ongoing ["P1"; "P2"; "P3"; "P4"; "P5"])
   ∧ m_status (sample_session type_match ongoing ["P1"; "P2"; "P3"; "P4"; "P5"]) = ongoing
   ∧ m_type (sample_session type_match ongoing ["P1"; "P2"; "P3"; "P4"; "P5"]) = type_match)
  ∧ (eb_matchResult sample_end_without_result = None →
       run (endMatch "M1" sample_end_without_result 40000000) (sample_db type_match ongoing)
       = (Json 400 (Failure "Match result is required when ending a match"),
          sample_db type_match ongoing))
  ∧ (∀ r, eb_matchResult sample_end_without_result = Some r →
       rb_result r ≠ Some "win" → rb_result r ≠ Some "loss" → rb_result r ≠ Some "draw" →
       run (endMatch "M1" sample_end_without_result 40000000) (sample_db type_match ongoing)
       = (Json 400 (Failure "Match result must be win, loss, or draw"),
          sample_db type_match ongoing)).
Proof.
  assert (matches (sample_db type_match ongoing) !! "M1"
          = Some (sample_session type_match ongoing ["P1"; "P2"; "P3"; "P4"; "P5"])) as H
    by (by vm_compute).
  split; [by split|].
  exact (endMatch_requires_result "M1" sample_end_without_result 40000000
           (sample_db type_match ongoing)
           (sample_session type_match ongoing ["P1"; "P2"; "P3"; "P4"; "P5"])
           H eq_refl eq_refl).
Defined.

Lemma sort_by_Permutation {A} (key : A → Z) (l : list A) : sort_by key l ≡ₚ l.
Proof.
  induction l as [|x l IH]; simpl; [done|].
  rewrite <-IH at 2. generalize (sort_by key l). clear.
  intros l. induction l as [|y l IH]; simpl; [done|].
  destruct (key x <=? key y); [done|].
  rewrite IH. apply Permutation_swap.
Qed.

(** The playtime query writes nothing. *)
Lemma getPlaytimeStats_frame (id : string) (now : Z) (db : DB) :
  (run (getPlaytimeStats id now) db).2 = db.
Proof.
  unfold getPlaytimeStats. unfold_handler. unfold Player_find.
  by destruct (matches db !! id).
Qed.



(** *** Statistics of a completed match *)

Lemma upserts_ret (db : DB) : upserts [] db (ret tt db).
Proof.
  split; simpl; try done.
  - exists []. by rewrite app_nil_r.
  - by intros _ k ?%elem_of_nil.
Qed.

Lemma upserts_seq (keys1 keys2 : list (string * string)) (h k : Handler unit) (db : DB) :
  upserts keys1 db (h db) →
  (∀ db1, upserts keys2 db1 (k db1)) →
  upserts (keys1 ++ keys2) db (bind h (λ _, k) db).
Proof.
  intros [[new1 Hg1] Hu1 Hd1 Hs1 Ht1 [Hf1 Hf1']] Hk. unfold bind.
  destruct (h db) as [[r|[]] db1] eqn:Hh; simpl in *.
  - split; simpl; try done.
    + by exists new1.
    + intros Hall. apply Hs1. intros k0 Hk0. apply Hall, elem_of_app. by left.
  - destruct (Hk db1) as [[new2 Hg2] Hu2 Hd2 Hs2 Ht2 [Hf2 Hf2']].
    split; [| | | | |by rewrite Hf2, Hf2'].
    + exists (new1 ++ new2)%list. by rewrite Hg2, Hg1, app_assoc.
    + intros Hnd. by apply Hu2, Hu1.
    + intros Hout k0 [Hk0|Hk0]%elem_of_app.
      * rewrite Hg2. apply elem_of_app. left. by apply Hd1.
      * by apply Hd2.
    + intros Hall.
      assert (stats_keys db1 = stats_keys db) as H1.
      { apply Hs1. intros k0 Hk0. apply Hall, elem_of_app. by left. }
      rewrite <-H1. apply Hs2. intros k0 Hk0. rewrite H1.
      apply Hall, elem_of_app. by right.
    + done.
Qed.

Lemma upserts_for_of {A} (key : A → list (string * string)) (body : A → Handler unit)
    (l : list A) (db : DB) :
  (∀ x db1, upserts (key x) db1 (body x db1)) →
  upserts (l ≫= key) db (for_of l body db).
Proof.
  intros Hbody. revert db. induction l as [|x l IH]; intros db; simpl.
  - apply upserts_ret.
  - apply upserts_seq; [apply Hbody|apply IH].
Qed.

Lemma stats_keys_replace_first (s : Statistics) (l : list Statistics) :
  stats_key <$> replace_first s l = stats_key <$> l.
Proof.
  induction l as [|s0 l IH]; simpl; [done|].
  case_bool_decide as Hk; simpl; [by rewrite Hk|]. f_equal. apply IH.
Qed.

Lemma Statistics_findOne_Some (playerId matchId : string) (db : DB) (s : Statistics) :
  List.find (λ s, bool_decide (stats_key s = (playerId, matchId))) (statistics db) = Some s →
  stats_key s = (playerId, matchId) ∧ (playerId, matchId) ∈ stats_keys db.
Proof.
  intros [Hin Hk%bool_decide_eq_true]%find_some. split; [done|].
  rewrite <-Hk. apply list_elem_of_fmap. exists s. split; [done|].
  by apply list_elem_of_In.
Qed.

Lemma Statistics_findOne_None (playerId matchId : string) (db : DB) :
  List.find (λ s, bool_decide (stats_key s = (playerId, matchId))) (statistics db) = None →
  (playerId, matchId) ∉ stats_keys db.
Proof.
  intros Hnone (s & Hk & Hin%list_elem_of_In)%list_elem_of_fmap.
  apply (find_none _ _ Hnone) in Hin. apply bool_decide_eq_false in Hin. congruence.
Qed.

(** Saving the record that [findOne] returned, with its key unchanged. *)
Lemma upserts_save (k : string * string) (s : Statistics) (db : DB) :
  stats_key s = k →
  k ∈ stats_keys db →
  upserts [k] db (Statistics_save s db).
Proof.
  intros <- Hin. unfold Statistics_save.
  destruct (statisticsSchema_valid s); split; simpl; try done.
  - exists []. unfold stats_keys. simpl.
    by rewrite stats_keys_replace_first, app_nil_r.
  - unfold stats_keys. simpl. by rewrite stats_keys_replace_first.
  - intros _ k ->%list_elem_of_singleton. unfold stats_keys. simpl.
    by rewrite stats_keys_replace_first.
  - intros _. unfold stats_keys. simpl. by rewrite stats_keys_replace_first.
  - exists []. by rewrite app_nil_r.
  - intros r [= <-]. by eexists.
Qed.

(** Inserting a record whose key [findOne] did not find. *)
Lemma upserts_insert (k : string * string) (s : Statistics) (db : DB) :
  stats_key s = k →
  k ∉ stats_keys db →
  upserts [k] db (Statistics_insert s db).
Proof.
  intros <- Hnin. unfold Statistics_insert.
  destruct (statisticsSchema_valid s); simpl.
  - rewrite bool_decide_eq_false_2 by done.
    assert (stats_keys (set_statistics db (statistics db ++ [s]))
            = (stats_keys db ++ [stats_key s])%list) as Hk.
    { unfold stats_keys. simpl. by rewrite fmap_app. }
    split; simpl; try done.
    + by eexists.
    + intros Hnd. rewrite Hk. apply NoDup_app. split; [done|]. split.
      * intros k Hk1 ->%list_elem_of_singleton. done.
      * apply NoDup_singleton.
    + intros _ k ->%list_elem_of_singleton. rewrite Hk. apply elem_of_app. right.
      by apply list_elem_of_singleton.
    + intros Hall. exfalso. apply Hnin, Hall. by apply list_elem_of_singleton.
  - split; simpl; try done.
    + exists []. by rewrite app_nil_r.
    + intros r [= <-]. by eexists.
Qed.

Lemma upserts_stats_for_performance (matchId : string) (performance : PlayerPerformance)
    (db : DB) :
  upserts [(pp_playerId performance, matchId)] db
    (stats_for_performance matchId performance db).
Proof.
  unfold stats_for_performance, bind, Statistics_findOne, Player_findById.
  destruct (List.find _ (statistics db)) as [s|] eqn:Hfind.
  - apply Statistics_findOne_Some in Hfind as [Hk Hin].
    destruct (players db !! pp_playerId performance) as [p|];
      by apply upserts_save.
  - apply Statistics_findOne_None in Hfind.
    destruct (players db !! pp_playerId performance) as [p|];
      by apply upserts_insert.
Qed.

Lemma upserts_stats_for_fielded (matchId : string) (m : Match) (playerId : string)
    (db : DB) :
  upserts (fielded_key matchId m playerId) db (stats_for_fielded matchId m playerId db).
Proof.
  unfold stats_for_fielded, fielded_key.
  destruct (getPlayerPerformance m playerId); [apply upserts_ret|].
  unfold bind, Statistics_findOne, Player_findById.
  destruct (List.find _ (statistics db)) as [s|] eqn:Hfind.
  - apply Statistics_findOne_Some in Hfind as [Hk Hin].
    by apply upserts_save.
  - apply Statistics_findOne_None in Hfind.
    by apply upserts_insert.
Qed.

Lemma upserts_createStatisticsFromMatch (matchId : string) (m : Match) (db : DB) :
  upserts (match_keys matchId m) db (createStatisticsFromMatch matchId m db).
Proof.
  unfold createStatisticsFromMatch, match_keys.
  apply upserts_seq.
  - apply upserts_for_of. intros. apply upserts_stats_for_performance.
  - intros db1. apply upserts_for_of. intros. apply upserts_stats_for_fielded.
Qed.


Lemma match_keys_teamSheet (matchId : string) (m : Match) (k : string * string) :
  k ∈ match_keys matchId m →
  k.2 = matchId
  ∧ (k.1 ∈ m_teamSheet m ∨ ∃ performance, performance ∈ m_playerPerformances m
                                          ∧ pp_playerId performance = k.1).
Proof.
  unfold match_keys.
  intros [(performance & Hk & Hin)%list_elem_of_bind
         |(playerId & Hk & Hin)%list_elem_of_bind]%elem_of_app.
  - apply list_elem_of_singleton in Hk as ->. split; [done|]. right. by exists performance.
  - unfold fielded_key in Hk. destruct (getPlayerPerformance m playerId).
    + by apply elem_of_nil in Hk.
    + apply list_elem_of_singleton in Hk as ->. split; [done|]. by left.
Qed.




(** *** Ending a match *)

Lemma updatePlayerPerformance_same (m : Match) (playerId : string) (d : PerformanceData) :
  same_but_performances m (updatePlayerPerformance m playerId d).
Proof. unfold updatePlayerPerformance. by destruct (getPlayerPerformance m playerId). Qed.

Lemma record_performances_same (l : list PerformanceBody) (m : Match) :
  same_but_performances m (record_performances m l).
Proof.
  unfold record_performances, same_but_performances. revert m.
  induction l as [|performance l IH]; intros m; simpl; [done|].
  destruct (IH (record_performance m performance)) as (-> & -> & -> & -> & ->).
  unfold record_performance.
  destruct (pb_playerId performance) as [[|a s]|]; try done.
  apply updatePlayerPerformance_same.
Qed.


Lemma ended_training_type_status (m : Match)
    (performances : option (list PerformanceBody)) (now : Z) :
  m_type (ended_training m performances now) = m_type m
  ∧ m_status (ended_training m performances now) = completed
  ∧ m_teamSheet (ended_training m performances now) = m_teamSheet m.
Proof.
  destruct (accumulate_playtime_spec now m) as ((_ & Hty & Hts & _) & _).
  unfold ended_training. destruct performances as [l|]; [|by simpl].
  destruct (record_performances_same l (set_status (accumulate_playtime now m) completed))
    as (Hty' & Hts' & _ & Hst' & _).
  by rewrite Hty', Hst', Hts'.
Qed.

(** What a successful end of a match went through. *)
Lemma endMatch_success (id : string) (body : EndBody) (now : Z)
    (db db' : DB) (st : nat) (m' : Match) (message : string) :
  run (endMatch id body now) db = (Json st (MatchDataMessage m' message), db') →
  ∃ m, matches db !! id = Some m
       ∧ m_status m = ongoing
       ∧ match m_type m with
         | type_match =>
             ∃ r, eb_matchResult body = Some r
                  ∧ m' = ended_match m r (eb_playerPerformances body) now
         | type_training => m' = ended_training m (eb_playerPerformances body) now
         end
       ∧ createStatisticsFromMatch id m' (set_matches db (<[id := m']> (matches db)))
         = (inr tt, db').
Proof.
  unfold endMatch. unfold_handler.
  destruct (matches db !! id) as [m|] eqn:Hm; simpl; [|intros [=]].
  case_bool_decide as Hst; simpl; [|intros [=]].
  destruct (accumulate_playtime_spec now m) as ((_ & Hty & _) & _).
  rewrite Hty. intros H. exists m. split; [done|]. split; [done|].
  destruct (m_type m) eqn:Htype.
  - destruct (eb_matchResult body) as [r|]; simpl in H; [|by inversion H].
    destruct (bool_decide (rb_result r ∈ result_enum)); simpl in H; [|by inversion H].
    assert (∃ x, x = ended_match m r (eb_playerPerformances body) now) as [x Hx] by eauto.
    unfold ended_match in Hx.
    destruct (eb_playerPerformances body) as [l|]; simpl in H;
      rewrite <-Hx in H;
      (destruct (matchSchema_valid x); simpl in H; [|by inversion H]);
      (destruct (createStatisticsFromMatch id x _) as [[resp|[]] db1] eqn:Hc;
       [apply (f_equal fst) in Hc;
        apply (upserts_throws _ _ _ (upserts_createStatisticsFromMatch _ _ _)) in Hc
          as [e ->]; by inversion H|]);
      simplify_eq; (split; [by eexists|done]).
  - assert (∃ x, x = ended_training m (eb_playerPerformances body) now) as [x Hx] by eauto.
    unfold ended_training in Hx.
    destruct (eb_playerPerformances body) as [l|]; simpl in H;
      rewrite <-Hx in H;
      (destruct (matchSchema_valid x); simpl in H; [|by inversion H]);
      (destruct (createStatisticsFromMatch id x _) as [[resp|[]] db1] eqn:Hc;
       [apply (f_equal fst) in Hc;
        apply (upserts_throws _ _ _ (upserts_createStatisticsFromMatch _ _ _)) in Hc
          as [e ->]; by inversion H|]);
      simplify_eq; (split; [done|done]).
Qed.

Lemma calculateTeamGoals_validateMatchResult (m : Match) :
  calculateTeamGoals (validateMatchResult m) = calculateTeamGoals m.
Proof.
  unfold validateMatchResult. by destruct (m_matchResult m), (m_type m).
Qed.

(** When the request carries an array of performances, the saved score
    is the sum of the goals of the saved performances. *)
Lemma endMatch_recomputes_score (id : string) (body : EndBody) (now : Z)
    (db db' : DB) (st : nat) (m' : Match) (message : string)
    (performances : list PerformanceBody) :
  run (endMatch id body now) db = (Json st (MatchDataMessage m' message), db') →
  m_type m' = type_match →
  eb_playerPerformances body = Some performances →
  ∃ r, m_matchResult m' = Some r ∧ mr_ourScore r = calculateTeamGoals m'.
Proof.
  intros (m & Hm & Hst & Hm' & _)%endMatch_success Hty Hperf.
  destruct (m_type m) eqn:Htype.
  - destruct Hm' as (r & Hr & ->). rewrite Hperf in *.
    unfold ended_match in *. rewrite calculateTeamGoals_validateMatchResult.
    unfold validateMatchResult in *.
    match goal with
    | |- context [record_performances ?x performances] =>
        destruct (record_performances_same performances x) as (Ht & _ & _ & _ & Hres)
    end.
    rewrite Hres in *. simpl in *.
    destruct (m_type (record_performances _ performances)) eqn:E;
      [by eexists|congruence].
  - subst m'. destruct (ended_training_type_status m (eb_playerPerformances body) now)
      as (Hty' & _). congruence.
Qed.

(** When the request carries no array of performances, the saved score
    is the one of the request. *)
Lemma endMatch_without_performances_score (id : string) (body : EndBody) (now : Z)
    (db db' : DB) (st : nat) (m' : Match) (message : string) :
  run (endMatch id body now) db = (Json st (MatchDataMessage m' message), db') →
  m_type m' = type_match →
  eb_playerPerformances body = None →
  ∃ r, eb_matchResult body = Some r
       ∧ mr_ourScore <$> m_matchResult m' = Some (num_or (rb_ourScore r) 0).
Proof.
  intros (m & Hm & Hst & Hm' & _)%endMatch_success Hty Hperf.
  destruct (m_type m) eqn:Htype.
  - destruct Hm' as (r & Hr & ->). exists r. split; [done|]. by rewrite Hperf.
  - subst m'. destruct (ended_training_type_status m (eb_playerPerformances body) now)
      as (Hty' & _). congruence.
Qed.



(** The example of the specification: a submitted score of 10 with two
    goals for P1 and one for P2 is saved as 3. *)
Example endMatch_score_recomputed :
  mr_ourScore <$> m_matchResult sample_ended = Some 3
  ∧ matches sample_db_ended !! "M1" = Some sample_ended
  ∧ length (statistics sample_db_ended) = 5%nat.
Proof. by vm_compute. Qed.

(** C1, on the code: a request that ends a match of type 'match' with a
    score of 10 and without an array of performances is answered with
    200, and the saved match is completed with the score 10 while the
    goals of its performances sum to 0. *)
Theorem endMatch_keeps_submitted_score :
  ∃ m' db',
    run (endMatch "M1" sample_end_without_performances sample_end_time)
      (sample_db type_match ongoing)
    = (Json 200 (MatchDataMessage m' "Match completed successfully"), db')
    ∧ matches db' !! "M1" = Some m'
    ∧ m_type m' = type_match
    ∧ m_status m' = completed
    ∧ m_playerPerformances m' = []
    ∧ calculateTeamGoals m' = 0
    ∧ mr_ourScore <$> m_matchResult m' = Some 10.
Proof.
  exists (ended_match (sample_session type_match ongoing ["P1"; "P2"; "P3"; "P4"; "P5"])
            sample_result None sample_end_time).
  eexists. split; [by vm_compute|]. by vm_compute.
Qed.

(** *** Starting a match *)

(** The documents a query of the players returns: each is stored under
    its [_id], satisfies the query, and no [_id] comes twice. *)
Lemma Player_find_spec (query : string → Player → bool) (db : DB) :
  ∃ found, Player_find query db = (inr found, db)
           ∧ NoDup found.*1
           ∧ ∀ _id p, (_id, p) ∈ found ↔ players db !! _id = Some p ∧ query _id p = true.
Proof.
  eexists. split; [done|]. split.
  - apply (sublist_NoDup _ (map_to_list (players db)).*1).
    + apply NoDup_fst_map_to_list.
    + apply fmap_sublist, sublist_filter.
  - intros _id p. rewrite list_elem_of_filter, elem_of_map_to_list. simpl. tauto.
Qed.

(** The team-sheet check passes only on a list without repetition whose
    players all exist and are available. *)
Lemma all_available_true (teamSheet : list string) (db db' : DB) :
  all_available teamSheet db = (inr true, db') →
  db' = db
  ∧ NoDup teamSheet
  ∧ ∀ playerId, playerId ∈ teamSheet →
      ∃ p, players db !! playerId = Some p ∧ p_availability p = true.
Proof.
  unfold all_available, bind.
  destruct (Player_find_spec (λ _id p, includes _id teamSheet && p_availability p) db)
    as (found & -> & Hnd & Hfound).
  unfold ret. intros [= Hlen%bool_decide_eq_true <-]. split; [done|].
  assert (found.*1 ≡ₚ teamSheet) as Hperm.
  { apply submseteq_length_Permutation.
    - apply NoDup_submseteq; [done|].
      intros _id ([_id' p] & -> & Hin)%list_elem_of_fmap.
      apply Hfound in Hin as [_ [Hinc _]%andb_prop]. by apply includes_true.
    - rewrite length_fmap. lia. }
  split; [by rewrite <-Hperm|].
  intros playerId Hin. rewrite <-Hperm in Hin.
  apply list_elem_of_fmap in Hin as ([_id p] & -> & Hin).
  apply Hfound in Hin as [Hp [_ Hav]%andb_prop]. by exists p.
Qed.

Lemma all_available_frame (teamSheet : list string) (db : DB) :
  ∃ ok, all_available teamSheet db = (inr ok, db).
Proof. by eexists. Qed.

Local Opaque all_available.

Lemma foldl_zero_playtime_other (l : list string) (m : Match) (playerId : string) :
  playerId ∉ l →
  m_playtime (foldl (λ m playerId, updatePlayerPlaytime m playerId 0) m l) !! playerId
  = m_playtime m !! playerId.
Proof.
  revert m. induction l as [|q l IH]; intros m; simpl; [done|].
  intros [Hne Hl]%not_elem_of_cons. rewrite IH by done. simpl.
  by rewrite lookup_insert_ne.
Qed.

Lemma foldl_zero_playtime (l : list string) (m : Match) :
  let m' := foldl (λ m playerId, updatePlayerPlaytime m playerId 0) m l in
  m_status m' = m_status m ∧ m_teamSheet m' = m_teamSheet m
  ∧ ∀ playerId, playerId ∈ l → m_playtime m' !! playerId = Some 0.
Proof.
  revert m. induction l as [|q l IH]; intros m; simpl.
  { split; [done|]. split; [done|]. by intros p ?%elem_of_nil. }
  destruct (IH (updatePlayerPlaytime m q 0)) as (-> & -> & Hin).
  split; [done|]. split; [done|].
  intros p Hp. destruct (decide (p ∈ l)) as [Hl|Hl]; [by apply Hin|].
  apply elem_of_cons in Hp as [->|Hp]; [|done].
  rewrite foldl_zero_playtime_other by done. simpl. apply lookup_insert_eq.
Qed.

(** X8. A start with an inline team sheet is refused when a listed
    player does not exist or is not available, and nothing is written. *)
Lemma startMatch_unavailable (body : MatchBody) (now : Z) (newId : string) (db : DB)
    (teamSheet : list string) (playerId : string) :
  mb_teamSheet body = Some teamSheet →
  playerId ∈ teamSheet →
  (∀ p, players db !! playerId = Some p → p_availability p = false) →
  run (startMatch body now newId) db
  = (Json 400 (Failure "Some players in the team sheet are not available"), db).
Proof.
  intros Hsheet Hin Hunav.
  destruct (all_available_frame teamSheet db) as [ok Hok].
  assert (ok = false) as ->.
  { destruct ok; [|done]. apply all_available_true in Hok as (_ & _ & Hall).
    destruct (Hall playerId Hin) as (p & Hp & Htrue). by rewrite (Hunav p Hp) in Htrue. }
  unfold startMatch, run, bind. rewrite Hsheet.
  replace (nonempty_sheet (Some teamSheet)) with true
    by (destruct teamSheet; [by apply elem_of_nil in Hin|done]).
  change (default [] (Some teamSheet)) with teamSheet. by rewrite Hok.
Qed.

(** A successful start with an inline team sheet creates an ongoing
    match whose ledger has the entry 0 for every player of the sheet, all
    of whom are available. *)
Lemma startMatch_success (body : MatchBody) (now : Z) (newId : string) (db db' : DB)
    (st : nat) (m' : Match) :
  run (startMatch body now newId) db = (Json st (MatchData m'), db') →
  st = 201%nat
  ∧ matches db !! newId = None
  ∧ matches db' !! newId = Some m'
  ∧ m_status m' = ongoing
  ∧ m_teamSheet m' = default [] (mb_teamSheet body)
  ∧ (∀ playerId, playerId ∈ m_teamSheet m' → m_playtime m' !! playerId = Some 0)
  ∧ (∀ playerId, playerId ∈ m_teamSheet m' →
       ∃ p, players db !! playerId = Some p ∧ p_availability p = true).
Proof.
  unfold startMatch, run, bind.
  destruct (nonempty_sheet (mb_teamSheet body)) eqn:Hne.
  - destruct (all_available (default [] (mb_teamSheet body)) db) as [[r|[|]] db1] eqn:Hav;
      try (destruct (all_available_frame (default [] (mb_teamSheet body)) db) as [ok Hok];
           rewrite Hok in Hav; simplify_eq; simpl; by intros [=]).
    apply all_available_true in Hav as (-> & _ & Hall). simpl.
    unfold Match_create.
    destruct (negb _); [by intros [=]|].
    destruct (matches db !! newId) eqn:Hnew; [by intros [=]|].
    unfold Match_save, ret.
    destruct (foldl_zero_playtime (default [] (mb_teamSheet body))
                (new_match now body ongoing)) as (Hst & Hts & Hzero).
    destruct (matchSchema_valid _); [|by intros [=]].
    intros [= <- <- <-]. simpl in *.
    rewrite lookup_insert_eq, Hst, Hts.
    repeat split; try done. all: intros p Hp; by auto.
  - unfold ret, Match_create.
    destruct (negb _); [by intros [=]|].
    destruct (matches db !! newId) eqn:Hnew; [by intros [=]|].
    intros [= <- <- <-]. simpl. rewrite lookup_insert_eq.
    destruct (mb_teamSheet body) as [[|q l]|]; try done; simpl;
      repeat split; try done; by intros p ?%elem_of_nil.
Qed.

(** X9. Only a scheduled match is started: any other status is
    answered with 400 and no change, and the start of an existing match
    changes its status and nothing else. *)
Lemma startExistingMatch_spec (id : string) (db : DB) (m : Match) :
  matches db !! id = Some m →
  (m_status m ≠ scheduled →
     ∃ message, run (startExistingMatch id) db = (Json 400 (Failure message), db))
  ∧ (∀ st m' db', run (startExistingMatch id) db = (Json st (MatchData m'), db') →
       m_status m = scheduled ∧ m' = set_status m ongoing
       ∧ matches db' = <[id := m']> (matches db)).
Proof.
  intros Hm. unfold startExistingMatch. unfold_handler. rewrite Hm. simpl.
  case_bool_decide as Hst; simpl.
  - split; [done|]. intros st m' db'.
    destruct (matchSchema_valid _); simpl; [|by intros [=]].
    by intros [= <- <- <-].
  - split; [by eexists|]. by intros st m' db' [=].
Qed.

(** C6, on the code: the start of an existing scheduled match with five
    players on its team sheet is answered with 200 and saves the match as
    ongoing, with a ledger that has no entry for P1. *)
Theorem startExistingMatch_without_ledger :
  ∃ m' db',
    run (startExistingMatch "M1") (sample_db type_match scheduled)
    = (Json 200 (MatchData m'), db')
    ∧ matches db' !! "M1" = Some m'
    ∧ m_status m' = ongoing
    ∧ m_teamSheet m' = ["P1"; "P2"; "P3"; "P4"; "P5"]
    ∧ m_playtime m' !! "P1" = None.
Proof.
  exists (set_status (sample_session type_match scheduled ["P1"; "P2"; "P3"; "P4"; "P5"])
            ongoing).
  eexists. split; [by vm_compute|]. by vm_compute.
Qed.

(** *** Cancelling and updating *)

Section keeps.
Context (id : string) (m : Match).

Lemma keeps_ret {A} (a : A) : keeps id m (ret a).
Proof. by intros db. Qed.

Lemma keeps_reply {A} (r : Response) : keeps id m (reply (A := A) r).
Proof. by intros db. Qed.

(** Sequencing, with what is known of the value of the first part when
    it ran on a database that stores [m] under [id]. *)
Lemma keeps_bind {A B} (Q : A → Prop) (h : Handler A) (k : A → Handler B) :
  keeps id m h →
  (∀ db a db', matches db !! id = Some m → h db = (inr a, db') → Q a) →
  (∀ a, Q a → keeps id m (k a)) →
  keeps id m (bind h k).
Proof.
  intros Hh HQ Hk db Hdb. unfold bind.
  specialize (Hh db Hdb). specialize (HQ db).
  destruct (h db) as [[r|a] db1]; simpl in *; [done|].
  apply Hk; [|done]. by eapply HQ.
Qed.

Lemma keeps_seq {A B} (h : Handler A) (k : Handler B) :
  keeps id m h → keeps id m k → keeps id m (bind h (λ _, k)).
Proof. intros Hh Hk. apply (keeps_bind (λ _, True)); [done|done|by intros]. Qed.

Lemma keeps_reply_if (cond : bool) (r : Response) : keeps id m (reply_if cond r).
Proof. destruct cond; by intros db. Qed.

Lemma reply_if_passed (cond : bool) (r : Response) (db db' : DB) (u : unit) :
  reply_if cond r db = (inr u, db') → cond = false.
Proof. by destruct cond. Qed.

Lemma keeps_findById (id0 : string) (r : Response) :
  keeps id m (or_reply (Match_findById id0) r).
Proof.
  intros db Hdb. unfold or_reply, bind, Match_findById.
  by destruct (matches db !! id0).
Qed.

Lemma findById_found (id0 : string) (r : Response) (db db' : DB) (m0 : Match) :
  matches db !! id = Some m →
  or_reply (Match_findById id0) r db = (inr m0, db') →
  id0 = id → m0 = m.
Proof.
  unfold or_reply, bind, Match_findById. intros Hdb H ->. rewrite Hdb in H.
  by inversion H.
Qed.

Lemma keeps_save (id0 : string) (m0 : Match) : id0 ≠ id → keeps id m (Match_save id0 m0).
Proof.
  intros Hne db Hdb. unfold Match_save.
  destruct (matchSchema_valid m0); simpl; [|done]. by rewrite lookup_insert_ne.
Qed.

Lemma keeps_create (now : Z) (newId : string) (m0 : Match) :
  keeps id m (Match_create now newId m0).
Proof.
  intros db Hdb. unfold Match_create.
  destruct (negb _); simpl; [done|].
  destruct (matches db !! newId) eqn:Hnew; simpl; [done|].
  rewrite lookup_insert_ne; [done|]. intros ->. congruence.
Qed.

Lemma create_fresh (now : Z) (newId : string) (m0 : Match) (db db' : DB) (u : unit) :
  matches db !! id = Some m →
  Match_create now newId m0 db = (inr u, db') → newId ≠ id.
Proof.
  unfold Match_create. intros Hdb.
  destruct (negb _); [done|].
  destruct (matches db !! newId) eqn:Hnew; [done|]. intros _ ->. congruence.
Qed.

Lemma keeps_Player_findById (playerId : string) : keeps id m (Player_findById playerId).
Proof. by intros db. Qed.

Lemma keeps_Player_find (query : string → Player → bool) : keeps id m (Player_find query).
Proof. by intros db. Qed.

Lemma keeps_Match_find (query : string → Match → bool) : keeps id m (Match_find query).
Proof. by intros db. Qed.

Lemma keeps_all_available (teamSheet : list string) : keeps id m (all_available teamSheet).
Proof. intros db Hdb. by destruct (all_available_frame teamSheet db) as [ok ->]. Qed.

Lemma keeps_updateInjuryStatus (playerId injuryStatus : string) :
  keeps id m (Player_updateInjuryStatus playerId injuryStatus).
Proof. by intros db. Qed.

Lemma keeps_createStatisticsFromMatch (matchId : string) (m0 : Match) :
  keeps id m (createStatisticsFromMatch matchId m0).
Proof.
  intros db Hdb.
  destruct (upserts_createStatisticsFromMatch matchId m0 db) as [_ _ _ _ _ [Hf _]].
  by rewrite Hf.
Qed.

Lemma keeps_run (h : Handler Response) :
  keeps id m h → ∀ db, matches db !! id = Some m → matches (run h db).2 !! id = Some m.
Proof.
  intros Hh db Hdb. specialize (Hh db Hdb). unfold run.
  by destruct (h db) as [[r|r] db1].
Qed.

End keeps.

(** X22. [cancelSchedule] refuses a completed match and an ongoing
    match, each with its own message and without a change, and sets a
    scheduled or an already cancelled match to cancelled. *)
Lemma cancelSchedule_spec (id : string) (db : DB) (m : Match) :
  matches db !! id = Some m →
  (m_status m = completed →
     run (cancelSchedule id) db
     = (Json 400 (Failure "Cannot cancel completed matches"), db))
  ∧ (m_status m = ongoing →
     run (cancelSchedule id) db
     = (Json 400 (Failure "Cannot cancel ongoing matches. End the match first."), db))
  ∧ (m_status m = scheduled ∨ m_status m = cancelled →
     (run (cancelSchedule id) db).1 = Json 200 (Message "Schedule cancelled successfully")
     ∧ matches (run (cancelSchedule id) db).2 !! id = Some (set_status m cancelled)).
Proof.
  intros Hm. unfold cancelSchedule. unfold_handler. unfold Match_updateStatus.
  rewrite Hm. simpl.
  split; [by intros ->|]. split; [by intros ->|].
  intros [Hst|Hst]; rewrite Hst; simpl; by rewrite lookup_alter_eq, Hm.
Qed.

(** The proof that a handler keeps a completed match [m] stored under
    [id]: the handler loads a match, checks that its status is not
    'completed', and writes that match only. *)
Ltac keeps_load id0 id m m0 Hload :=
  apply keeps_run; [|done];
  apply (keeps_bind id m (λ m0, id0 = id → m0 = m));
  [apply keeps_findById
  |intros ? ? ? ? ?; by eapply findById_found
  |intros m0 Hload].

Lemma keeps_completed_cancelSchedule (id : string) : keeps_completed (cancelSchedule id).
Proof.
  intros db id' m Hm Hst. unfold cancelSchedule.
  keeps_load id id' m m0 Hload.
  apply (keeps_bind id' m (λ _, m_status m0 ≠ completed)).
  { apply keeps_reply_if. }
  { intros ? ? ? _ H%reply_if_passed. by apply bool_decide_eq_false in H. }
  intros _ Hnc. apply keeps_seq; [apply keeps_reply_if|].
  apply keeps_seq; [|apply keeps_ret].
  intros db1 Hdb1. unfold Match_updateStatus. simpl.
  rewrite lookup_alter_ne; [done|]. intros ->. apply Hnc. by rewrite Hload.
Qed.

Lemma keeps_completed_updateSchedule (id : string) (body : MatchBody) (now : Z) :
  keeps_completed (updateSchedule id body now).
Proof.
  intros db id' m Hm Hst. unfold updateSchedule.
  keeps_load id id' m m0 Hload.
  apply (keeps_bind id' m (λ _, m_status m0 ≠ completed)).
  { apply keeps_reply_if. }
  { intros ? ? ? _ H%reply_if_passed. by apply bool_decide_eq_false in H. }
  intros _ Hnc.
  assert (id ≠ id') as Hne by (intros ->; apply Hnc; by rewrite Hload).
  apply keeps_seq.
  { destruct (mb_teamSheet body); [|apply keeps_ret].
    apply (keeps_bind id' m (λ _, True)); [apply keeps_all_available|done|].
    intros; apply keeps_reply_if. }
  apply (keeps_bind id' m (λ _, True)); [|done|intros; apply keeps_ret].
  intros db1 Hdb1. unfold Match_findByIdAndUpdate.
  destruct (negb _); simpl; [done|].
  destruct (matches db1 !! id); simpl; [|done]. by rewrite lookup_insert_ne.
Qed.

(** C9, on the code: an update whose body sets the status to
    'cancelled' is accepted on an ongoing match and saves it as
    cancelled. *)
Theorem updateSchedule_cancels_ongoing :
  ∃ m' db',
    matches (sample_db type_match ongoing) !! "M1"
    = Some (sample_session type_match ongoing ["P1"; "P2"; "P3"; "P4"; "P5"])
    ∧ run (updateSchedule "M1" sample_update 36000000) (sample_db type_match ongoing)
      = (Json 200 (MatchData m'), db')
    ∧ matches db' !! "M1" = Some m'
    ∧ m_status m' = cancelled.
Proof.
  exists (set_status (sample_session type_match ongoing ["P1"; "P2"; "P3"; "P4"; "P5"])
            cancelled).
  eexists. split; [by vm_compute|]. split; [by vm_compute|]. by vm_compute.
Qed.

Lemma keeps_completed_startExistingMatch (id : string) :
  keeps_completed (startExistingMatch id).
Proof.
  intros db id' m Hm Hst. unfold startExistingMatch.
  keeps_load id id' m m0 Hload.
  apply (keeps_bind id' m (λ _, m_status m0 = scheduled)).
  { apply keeps_reply_if. }
  { intros ? ? ? _ H%reply_if_passed. apply negb_false_iff in H.
    by apply bool_decide_eq_true in H. }
  intros _ Hsch. apply keeps_seq; [|apply keeps_ret].
  apply keeps_save. intros ->. rewrite Hload in Hsch by done. congruence.
Qed.

Lemma keeps_completed_makeSubstitution (id : string) (body : SubstitutionBody) (now : Z) :
  keeps_completed (makeSubstitution id body now).
Proof.
  intros db id' m Hm Hst. unfold makeSubstitution.
  keeps_load id id' m m0 Hload.
  apply (keeps_bind id' m (λ _, m_status m0 = ongoing)).
  { apply keeps_reply_if. }
  { intros ? ? ? _ H%reply_if_passed. apply negb_false_iff in H.
    by apply bool_decide_eq_true in H. }
  intros _ Hon.
  apply (keeps_bind id' m (λ _, True)); [apply keeps_Player_findById|done|intros ? _].
  apply (keeps_bind id' m (λ _, True)); [apply keeps_Player_findById|done|intros ? _].
  do 3 (apply keeps_seq; [apply keeps_reply_if|]).
  apply keeps_seq.
  { destruct (injury_substitution body); [apply keeps_updateInjuryStatus|apply keeps_ret]. }
  apply keeps_seq; [|apply keeps_ret].
  apply keeps_save. intros ->. rewrite Hload in Hon by done. congruence.
Qed.

Lemma keeps_completed_getPlaytimeStats (id : string) (now : Z) :
  keeps_completed (getPlaytimeStats id now).
Proof.
  intros db id' m Hm Hst.
  by rewrite getPlaytimeStats_frame.
Qed.

Lemma keeps_completed_endMatch (id : string) (body : EndBody) (now : Z) :
  keeps_completed (endMatch id body now).
Proof.
  intros db id' m Hm Hst. unfold endMatch.
  keeps_load id id' m m0 Hload.
  apply (keeps_bind id' m (λ _, m_status m0 = ongoing)).
  { apply keeps_reply_if. }
  { intros ? ? ? _ H%reply_if_passed. apply negb_false_iff in H.
    by apply bool_decide_eq_true in H. }
  intros _ Hon.
  assert (id ≠ id') as Hne by (intros ->; rewrite Hload in Hon by done; congruence).
  apply (keeps_bind id' m (λ _, True)); [|done|].
  { destruct (m_type _).
    - apply (keeps_bind id' m (λ _, True)); [|done|intros r _].
      { unfold or_reply. apply (keeps_bind id' m (λ _, True)); [apply keeps_ret|done|].
        intros [r|] _; [apply keeps_ret|apply keeps_reply]. }
      apply keeps_seq; [apply keeps_reply_if|].
      destruct (eb_playerPerformances body); apply keeps_ret.
    - destruct (eb_playerPerformances body); apply keeps_ret. }
  intros m1 _. apply keeps_seq; [by apply keeps_save|].
  apply keeps_seq; [apply keeps_createStatisticsFromMatch|apply keeps_ret].
Qed.

Lemma keeps_team_sheet_check (id : string) (m : Match) (teamSheet : option (list string)) :
  keeps id m
    (if nonempty_sheet teamSheet
     then bind (all_available (default [] teamSheet))
            (λ ok, reply_if (negb ok)
                     (Json 400 (Failure "Some players in the team sheet are not available")))
     else ret tt).
Proof.
  destruct (nonempty_sheet teamSheet); [|apply keeps_ret].
  apply (keeps_bind id m (λ _, True)); [apply keeps_all_available|done|].
  intros; apply keeps_reply_if.
Qed.

Lemma keeps_completed_startMatch (body : MatchBody) (now : Z) (newId : string) :
  keeps_completed (startMatch body now newId).
Proof.
  intros db id m Hm Hst. unfold startMatch.
  apply keeps_run; [|done].
  apply keeps_seq; [apply keeps_team_sheet_check|].
  apply (keeps_bind id m (λ _, newId ≠ id)).
  { apply keeps_create. }
  { intros ? ? ?. apply create_fresh. }
  intros _ Hne.
  apply (keeps_bind id m (λ _, True)); [|done|intros; apply keeps_ret].
  destruct (nonempty_sheet (mb_teamSheet body)); [|apply keeps_ret].
  apply keeps_seq; [by apply keeps_save|apply keeps_ret].
Qed.

Lemma keeps_completed_createSchedule (body : MatchBody) (now : Z) (newId : string) :
  keeps_completed (createSchedule body now newId).
Proof.
  intros db id m Hm Hst. unfold createSchedule.
  apply keeps_run; [|done].
  apply keeps_seq; [apply keeps_team_sheet_check|].
  apply keeps_seq; [apply keeps_create|apply keeps_ret].
Qed.

Lemma keeps_completed_generateTeamSheet (id : string) (body : GenerateBody) (now : Z) :
  keeps_completed (generateTeamSheet id body now).
Proof.
  intros db id' m Hm Hst. unfold generateTeamSheet.
  keeps_load id id' m m0 Hload.
  apply (keeps_bind id' m (λ _, m_status m0 = scheduled)).
  { apply keeps_reply_if. }
  { intros ? ? ? _ H%reply_if_passed. apply negb_false_iff in H.
    by apply bool_decide_eq_true in H. }
  intros _ Hsch.
  apply (keeps_bind id' m (λ _, True)); [apply keeps_Player_find|done|intros ? _].
  apply keeps_seq; [apply keeps_reply_if|].
  apply (keeps_bind id' m (λ _, True)); [apply keeps_Match_find|done|intros ? _].
  apply keeps_seq; [|apply keeps_ret].
  apply keeps_save. intros ->. rewrite Hload in Hsch by done. congruence.
Qed.

(** X23. A completed match is left as it is by every request of the
    match and schedule routes: no handler changes its status, its team
    sheet, its substitutions or any other field. *)
Theorem completed_is_terminal (req : Request) (now : Z) : keeps_completed (route req now).
Proof.
  destruct req; simpl.
  - apply keeps_completed_startMatch.
  - apply keeps_completed_startExistingMatch.
  - apply keeps_completed_makeSubstitution.
  - apply keeps_completed_getPlaytimeStats.
  - apply keeps_completed_endMatch.
  - apply keeps_completed_createSchedule.
  - apply keeps_completed_generateTeamSheet.
  - apply keeps_completed_updateSchedule.
  - apply keeps_completed_cancelSchedule.
Qed.

(** *** Team generation *)

Lemma formation_442 : parseInt <$> split_dash "4-4-2" = [Some 4; Some 4; Some 2].
Proof. reflexivity. Qed.

(** The team of the formation 4-4-2: the picks of the four buckets, and
    the fill when they are fewer than eleven. *)
Lemma generateOptimalTeam_442 (availablePlayers : list (string * Player))
    (playerPlaytime : gmap string Z) (prioritizeRest : bool) :
  ∃ Goalkeeper Defender Midfielder Forward,
    Goalkeeper ≡ₚ filter is_goalkeeper availablePlayers
    ∧ (∀ p, p ∈ Defender ∨ p ∈ Midfielder ∨ p ∈ Forward → p ∈ availablePlayers)
    ∧ let picks := (take 1 Goalkeeper ++ take 4 Defender
                    ++ take 4 Midfielder ++ take 2 Forward)%list in
      generateOptimalTeam availablePlayers playerPlaytime "4-4-2" prioritizeRest
      = take 11
          (if Z.of_nat (length picks) <? 11
           then (picks
                 ++ take (11 - length picks)
                      (sort_by (λ p, recent_minutes playerPlaytime p.1)
                         (filter (λ p, selected picks p = false) availablePlayers)))%list
           else picks).
Proof.
  exists (sort_by (selection_score playerPlaytime prioritizeRest "Goalkeeper")
            (filter (λ p : string * Player, p_position p.2 = "Goalkeeper") availablePlayers)),
    (sort_by (selection_score playerPlaytime prioritizeRest "Defender")
       (filter (λ p, in_bucket "Defender" p = true) availablePlayers)),
    (sort_by (selection_score playerPlaytime prioritizeRest "Midfielder")
       (filter (λ p, in_bucket "Midfielder" p = true) availablePlayers)),
    (sort_by (selection_score playerPlaytime prioritizeRest "Forward")
       (filter (λ p, in_bucket "Forward" p = true) availablePlayers)).
  split; [apply sort_by_Permutation|]. split; [|reflexivity].
  intros p. rewrite !sort_by_Permutation, !list_elem_of_filter. tauto.
Qed.

(** The players that are among the picks are at most as many as the
    picks, the [_id]s of the available players being distinct. *)
Lemma length_not_selected (picks availablePlayers : list (string * Player)) :
  NoDup availablePlayers.*1 →
  (length availablePlayers
   ≤ length (filter (λ p, selected picks p = false) availablePlayers) + length picks)%nat.
Proof.
  intros Hnd.
  rewrite <-(filter_app_complement (λ p, selected picks p = false) availablePlayers) at 1.
  rewrite length_app. apply Nat.add_le_mono_l.
  rewrite <-(length_fmap fst), <-(length_fmap fst picks).
  apply submseteq_length, NoDup_submseteq.
  - apply (sublist_NoDup _ availablePlayers.*1); [done|].
    apply fmap_sublist, sublist_filter.
  - intros _id ([_id' p] & -> & [Hsel _]%list_elem_of_filter)%list_elem_of_fmap.
    apply not_false_is_true in Hsel. by apply includes_true in Hsel.
Qed.

(** With eleven available players or more the generated team of the
    formation 4-4-2 has eleven entries, and its first entry is a
    goalkeeper when a goalkeeper is available. *)
Lemma generateOptimalTeam_eleven (availablePlayers : list (string * Player))
    (playerPlaytime : gmap string Z) (prioritizeRest : bool) :
  NoDup availablePlayers.*1 →
  (11 ≤ length availablePlayers)%nat →
  let team := generateOptimalTeam availablePlayers playerPlaytime "4-4-2" prioritizeRest in
  length team = 11%nat
  ∧ (∀ p, p ∈ team → p ∈ availablePlayers)
  ∧ ((∃ g, g ∈ availablePlayers ∧ is_goalkeeper g) →
     ∃ g, head team = Some g ∧ g ∈ availablePlayers ∧ is_goalkeeper g).
Proof.
  intros Hnd Hlen.
  destruct (generateOptimalTeam_442 availablePlayers playerPlaytime prioritizeRest)
    as (G & D & M & F & HG & Hsub & ->).
  set (picks := (take 1 G ++ take 4 D ++ take 4 M ++ take 2 F)%list).
  assert (length picks ≤ 11)%nat as Hpicks.
  { unfold picks. rewrite !length_app, !length_take. lia. }
  pose proof (length_not_selected picks availablePlayers Hnd) as Hrest.
  assert (∀ p, p ∈ picks → p ∈ availablePlayers) as Hpicks_sub.
  { intros p. unfold picks. rewrite !elem_of_app.
    intros [Hp|[Hp|[Hp|Hp]]]; apply elem_of_take in Hp as (i & Hp%list_elem_of_lookup_2 & _).
    - rewrite HG in Hp. by apply list_elem_of_filter in Hp as [_ Hp].
    - apply Hsub; auto.
    - apply Hsub; auto.
    - apply Hsub; auto. }
  split; [|split].
  - destruct (Z.ltb_spec (Z.of_nat (length picks)) 11) as [Hlt|Hge].
    + rewrite length_take, length_app, length_take.
      rewrite (Permutation_length (sort_by_Permutation _ _)). lia.
    + rewrite length_take. lia.
  - intros p (i & Hp%list_elem_of_lookup_2 & _)%elem_of_take.
    destruct (Z.of_nat _ <? 11); [|by apply Hpicks_sub].
    apply elem_of_app in Hp as [Hp|Hp]; [by apply Hpicks_sub|].
    apply elem_of_take in Hp as (j & Hp%list_elem_of_lookup_2 & _).
    rewrite sort_by_Permutation in Hp. by apply list_elem_of_filter in Hp as [_ Hp].
  - intros (g & Hg & Hgk).
    assert (g ∈ G) as HgG by (rewrite HG; by apply list_elem_of_filter).
    destruct G as [|g' G']; [by apply elem_of_nil in HgG|].
    assert (g' ∈ filter is_goalkeeper availablePlayers) as [Hgk' Hg']%list_elem_of_filter.
    { rewrite <-HG. apply elem_of_cons. by left. }
    exists g'. split; [|done].
    unfold picks. simpl. by destruct (Z.of_nat _ <? 11).
Qed.

(** C7, as the code has it. On a scheduled match, with the formation
    4-4-2 and eleven eligible players or more, the generation answers
    200 and saves a team sheet of eleven entries, all of them eligible
    players, whose first entry is a goalkeeper when a goalkeeper is
    eligible. *)
Theorem generateTeamSheet_eleven (id : string) (body : GenerateBody) (now : Z)
    (db : DB) (m : Match) :
  matches db !! id = Some m →
  m_status m = scheduled →
  matchSchema_valid m = true →
  gb_formationPreference body = None ∨ gb_formationPreference body = Some "4-4-2" →
  (11 ≤ length (filter (λ d, eligible d.2 = true) (map_to_list (players db))))%nat →
  ∃ team db',
    run (generateTeamSheet id body now) db
    = (Json 200 (GeneratedTeam (set_teamSheet m team.*1) team "4-4-2"), db')
    ∧ matches db' !! id = Some (set_teamSheet m team.*1)
    ∧ length team = 11%nat
    ∧ (∀ d, d ∈ team → players db !! d.1 = Some d.2 ∧ eligible d.2 = true)
    ∧ ((∃ _id p, players db !! _id = Some p ∧ eligible p = true
                 ∧ p_position p = "Goalkeeper") →
       ∃ g, head team = Some g ∧ p_position g.2 = "Goalkeeper").
Proof.
  intros Hm Hst Hvalid Hformation Hlen.
  assert (str_or (gb_formationPreference body) "4-4-2" = "4-4-2") as Hf
    by (by destruct Hformation as [->| ->]).
  set (availablePlayers := filter (λ d, eligible d.2 = true) (map_to_list (players db))) in *.
  assert (NoDup availablePlayers.*1) as Hnd.
  { apply (sublist_NoDup _ (map_to_list (players db)).*1);
      [apply NoDup_fst_map_to_list|apply fmap_sublist, sublist_filter]. }
  unfold generateTeamSheet. unfold_handler. unfold Player_find, Match_find.
  rewrite Hm. simpl. rewrite Hst. simpl.
  change (filter _ (map_to_list (players db))) with availablePlayers.
  rewrite bool_decide_eq_false_2 by lia. simpl. rewrite Hf.
  match goal with
  | |- context [generateOptimalTeam availablePlayers ?pt "4-4-2" ?pr] =>
      pose proof (generateOptimalTeam_eleven availablePlayers pt pr Hnd Hlen) as Hspec;
      set (team := generateOptimalTeam availablePlayers pt "4-4-2" pr) in *
  end.
  destruct Hspec as (Hteam & Hsub & Hgk).
  change (matchSchema_valid (set_teamSheet m team.*1)) with (matchSchema_valid m).
  rewrite Hvalid. simpl.
  exists team. eexists. split; [done|]. simpl. split; [by rewrite lookup_insert_eq|].
  split; [done|]. split.
  - intros d [Hel Hd%elem_of_map_to_list']%Hsub%list_elem_of_filter. done.
  - intros (_id & p & Hp & Hel & Hpos).
    destruct Hgk as (g & Hg & _ & Hgpos); [|by exists g].
    exists (_id, p). split; [|done].
    apply list_elem_of_filter. split; [done|]. by apply elem_of_map_to_list.
Qed.

Lemma generateTeamSheet_eleven_witness :
  (matches sample_db_squad !! "M1" = Some (sample_session type_match scheduled [])
   ∧ m_status (sample_session type_match scheduled []) = scheduled
   ∧ matchSchema_valid (sample_session type_match scheduled []) = true
   ∧ (gb_formationPreference sample_generate = None
      ∨ gb_formationPreference sample_generate = Some "4-4-2")
   ∧ (11 ≤ length (filter (λ d, eligible d.2 = true)
                     (map_to_list (players sample_db_squad))))%nat)
  ∧ ∃ team db',
      run (generateTeamSheet "M1" sample_generate 36000000) sample_db_squad
      = (Json 200 (GeneratedTeam (set_teamSheet (sample_session type_match scheduled [])
                                    team.*1) team "4-4-2"), db')
      ∧ matches db' !! "M1"
        = Some (set_teamSheet (sample_session type_match scheduled []) team.*1)
      ∧ length team = 11%nat
      ∧ (∀ d, d ∈ team → players sample_db_squad !! d.1 = Some d.2 ∧ eligible d.2 = true)
      ∧ ((∃ _id p, players sample_db_squad !! _id = Some p ∧ eligible p = true
                   ∧ p_position p = "Goalkeeper") →
         ∃ g, head team = Some g ∧ p_position g.2 = "Goalkeeper").
Proof.
  assert (matches sample_db_squad !! "M1" = Some (sample_session type_match scheduled [])
          ∧ m_status (sample_session type_match scheduled []) = scheduled
          ∧ matchSchema_valid (sample_session type_match scheduled []) = true
          ∧ (gb_formationPreference sample_generate = None
             ∨ gb_formationPreference sample_generate = Some "4-4-2")
          ∧ (11 ≤ length (filter (λ d, eligible d.2 = true)
                            (map_to_list (players sample_db_squad))))%nat) as H.
  { split; [by vm_compute|]. split; [done|]. split; [by vm_compute|].
    split; [by left|]. vm_compute. lia. }
  split; [exact H|].
  destruct H as (H1 & H2 & H3 & H4 & H5).
  exact (generateTeamSheet_eleven "M1" sample_generate 36000000 sample_db_squad
           (sample_session type_match scheduled []) H1 H2 H3 H4 H5).
Defined.

(** C7, as stated, fails: with two goalkeepers and nine defenders, all
    eligible, the generated team of the formation 4-4-2 has both
    goalkeepers in it. *)
Lemma generateTeamSheet_two_goalkeepers :
  matches sample_db_squad !! "M1" = Some (sample_session type_match scheduled [])
  ∧ (11 ≤ length (filter (λ d, eligible d.2 = true)
                    (map_to_list (players sample_db_squad))))%nat
  ∧ (players sample_db_squad !! "G1" = Some (sample_player "G1" "Goalkeeper")
     ∧ eligible (sample_player "G1" "Goalkeeper") = true)
  ∧ ∃ m' team db',
      run (generateTeamSheet "M1" sample_generate 36000000) sample_db_squad
      = (Json 200 (GeneratedTeam m' team "4-4-2"), db')
      ∧ matches db' !! "M1" = Some m'
      ∧ m_teamSheet m' = team.*1
      ∧ length team = 11%nat
      ∧ length (filter is_goalkeeper team) = 2%nat.
Proof.
  split; [by vm_compute|]. split; [vm_compute; lia|]. split; [by vm_compute|].
  eexists _, _, _. split; [by vm_compute|]. by vm_compute.
Qed.

(** ** Further properties *)

(** *** Methods of the match schema *)

Lemma getPlayerPerformance_assign_first (playerId : string) (d : PerformanceData)
    (l : list PlayerPerformance) (q : string) :
  List.find (λ p, bool_decide (pp_playerId p = q)) (assign_first playerId d l)
  = if decide (q = playerId)
    then match List.find (λ p, bool_decide (pp_playerId p = playerId)) l with
         | Some _ => Some (assign_performance playerId d)
         | None => None
         end
    else List.find (λ p, bool_decide (pp_playerId p = q)) l.
Proof.
  induction l as [|p l IH]; simpl; [by destruct (decide (q = playerId))|].
  destruct (decide (pp_playerId p = playerId)) as [Hp|Hp].
  - rewrite (bool_decide_eq_true_2 _ Hp). simpl. rewrite Hp.
    destruct (decide (q = playerId)) as [->|Hq].
    + by rewrite bool_decide_eq_true_2.
    + by rewrite bool_decide_eq_false_2 by congruence.
  - rewrite (bool_decide_eq_false_2 _ Hp). simpl.
    destruct (decide (q = playerId)) as [->|Hq].
    + rewrite bool_decide_eq_false_2 by done. rewrite IH.
      by destruct (decide (playerId = playerId)).
    + rewrite IH. by destruct (decide (q = playerId)).
Qed.

Lemma find_app_performance (q : string) (l : list PlayerPerformance) (x : PlayerPerformance) :
  List.find (λ p, bool_decide (pp_playerId p = q)) (l ++ [x])
  = match List.find (λ p, bool_decide (pp_playerId p = q)) l with
    | Some p => Some p
    | None => if decide (pp_playerId x = q) then Some x else None
    end.
Proof.
  induction l as [|p l IH]; simpl.
  - destruct (decide (pp_playerId x = q)) as [H|H].
    + by rewrite bool_decide_eq_true_2.
    + by rewrite bool_decide_eq_false_2.
  - by destruct (bool_decide (pp_playerId p = q)).
Qed.

Lemma fmap_playerId_assign_first (playerId : string) (d : PerformanceData)
    (l : list PlayerPerformance) :
  pp_playerId <$> assign_first playerId d l = pp_playerId <$> l.
Proof.
  induction l as [|p l IH]; simpl; [done|].
  case_bool_decide; simpl; [done|]. f_equal. apply IH.
Qed.

Lemma getPlayerPerformance_update_eq (m : Match) (playerId : string) (d : PerformanceData) :
  getPlayerPerformance (updatePlayerPerformance m playerId d) playerId
  = Some (assign_performance playerId d).
Proof.
  unfold updatePlayerPerformance, getPlayerPerformance.
  destruct (List.find _ (m_playerPerformances m)) as [p|] eqn:Hfind; simpl.
  - rewrite getPlayerPerformance_assign_first, Hfind.
    by destruct (decide (playerId = playerId)).
  - rewrite find_app_performance, Hfind. simpl.
    by destruct (decide (playerId = playerId)).
Qed.

Lemma getPlayerPerformance_update_ne (m : Match) (playerId q : string) (d : PerformanceData) :
  q ≠ playerId →
  getPlayerPerformance (updatePlayerPerformance m playerId d) q = getPlayerPerformance m q.
Proof.
  intros Hq. unfold updatePlayerPerformance, getPlayerPerformance.
  destruct (List.find (λ p, bool_decide (pp_playerId p = playerId)) _); simpl.
  - rewrite getPlayerPerformance_assign_first. by destruct (decide (q = playerId)).
  - rewrite find_app_performance. simpl.
    destruct (decide (playerId = q)); [congruence|].
    by destruct (List.find (λ p, bool_decide (pp_playerId p = q)) _).
Qed.

(** X1. [updatePlayerPerformance] is an upsert by player: afterwards the
    performance found for the player carries the data given, the
    performance found for any other player is the one found before, the
    list gets one entry longer exactly when the player had none, and a
    list with one entry per player stays so. *)
Theorem updatePlayerPerformance_upsert (m : Match) (playerId : string) (d : PerformanceData) :
  let m' := updatePlayerPerformance m playerId d in
  getPlayerPerformance m' playerId = Some (assign_performance playerId d)
  ∧ (∀ q, q ≠ playerId → getPlayerPerformance m' q = getPlayerPerformance m q)
  ∧ length (m_playerPerformances m')
    = match getPlayerPerformance m playerId with
      | Some _ => length (m_playerPerformances m)
      | None => S (length (m_playerPerformances m))
      end
  ∧ (NoDup (pp_playerId <$> m_playerPerformances m) →
     NoDup (pp_playerId <$> m_playerPerformances m')).
Proof.
  split; [apply getPlayerPerformance_update_eq|].
  split; [intros q Hq; by apply getPlayerPerformance_update_ne|].
  unfold updatePlayerPerformance, getPlayerPerformance.
  destruct (List.find _ (m_playerPerformances m)) as [p|] eqn:Hfind; simpl.
  - split; [|by rewrite fmap_playerId_assign_first].
    clear Hfind. induction (m_playerPerformances m) as [|p0 l IH]; simpl; [done|].
    case_bool_decide; simpl; [done|]. by rewrite IH.
  - split; [rewrite length_app; simpl; lia|].
    intros Hnd. rewrite fmap_app. apply NoDup_app. split; [done|]. split.
    + intros q (p & Hq & Hp)%list_elem_of_fmap Hq'. simpl in Hq'.
      apply list_elem_of_singleton in Hq'. subst q.
      apply list_elem_of_In in Hp. apply (find_none _ _ Hfind) in Hp.
      simpl in Hp. by apply bool_decide_eq_false in Hp.
    + apply NoDup_singleton.
Qed.

(** X2. Setting a ledger entry changes the total of the ledger by the
    difference between the new value and the value the entry had (0 when
    the player had no entry). *)
Theorem getTotalPlaytime_update (m : Match) (playerId : string) (minutes : Z) :
  getTotalPlaytime (updatePlayerPlaytime m playerId minutes)
  = getTotalPlaytime m - getPlayerPlaytime m playerId + minutes.
Proof.
  rewrite getPlayerPlaytime_default. unfold getTotalPlaytime, updatePlayerPlaytime. simpl.
  destruct (m_playtime m !! playerId) as [old|] eqn:Hold; simpl.
  - rewrite (map_fold_delete_L _ 0 playerId old (m_playtime m)); [|intros; lia|done].
    rewrite <-insert_delete_eq.
    rewrite map_fold_insert_L; [lia|intros; lia|apply lookup_delete_eq].
  - rewrite map_fold_insert_L; [lia|intros; lia|done].
Qed.

Lemma Math_max_spec (l : list Z) :
  match Math_max l with
  | Some x => x ∈ l ∧ ∀ y, y ∈ l → y ≤ x
  | None => l = []
  end.
Proof.
  induction l as [|a l IH]; simpl; [done|].
  destruct (Math_max l) as [y|].
  - destruct IH as [Hy Hle]. split.
    + destruct (Z.max_spec a y) as [[_ ->]|[_ ->]]; [by right|by left].
    + intros z [->|Hz]%elem_of_cons; [lia|]. apply Hle in Hz. lia.
  - subst l. split; [by left|]. intros z ->%list_elem_of_singleton. lia.
Qed.

Lemma Math_min_spec (l : list Z) :
  match Math_min l with
  | Some x => x ∈ l ∧ ∀ y, y ∈ l → x ≤ y
  | None => l = []
  end.
Proof.
  induction l as [|a l IH]; simpl; [done|].
  destruct (Math_min l) as [y|].
  - destruct IH as [Hy Hle]. split.
    + destruct (Z.min_spec a y) as [[_ ->]|[_ ->]]; [by left|by right].
    + intros z [->|Hz]%elem_of_cons; [lia|]. apply Hle in Hz. lia.
  - subst l. split; [by left|]. intros z ->%list_elem_of_singleton. lia.
Qed.

Lemma ledger_values (playtime : gmap string Z) (v : Z) :
  v ∈ (map_to_list playtime).*2 ↔ ∃ p, playtime !! p = Some v.
Proof.
  rewrite list_elem_of_fmap. split.
  - intros ([p w] & -> & H%elem_of_map_to_list). by exists p.
  - intros (p & H). exists (p, v). split; [done|]. by apply elem_of_map_to_list.
Qed.

(** X3. [checkPlaytimeFairness] raises an alert exactly when two ledger
    entries are more than 20 minutes apart: an alert carries the largest
    and the smallest entry of the ledger and their difference, which is
    above 20; without an alert no two entries differ by more than 20. *)
Theorem checkPlaytimeFairness_spec (m : Match) :
  match checkPlaytimeFairness m with
  | Some a =>
      (∃ p q, m_playtime m !! p = Some (pa_maxPlaytime a)
              ∧ m_playtime m !! q = Some (pa_minPlaytime a))
      ∧ (∀ r v, m_playtime m !! r = Some v → pa_minPlaytime a ≤ v ≤ pa_maxPlaytime a)
      ∧ pa_difference a = pa_maxPlaytime a - pa_minPlaytime a
      ∧ 20 < pa_difference a
  | None =>
      ∀ p q vp vq, m_playtime m !! p = Some vp → m_playtime m !! q = Some vq →
                   vp - vq ≤ 20
  end.
Proof.
  unfold checkPlaytimeFairness.
  pose proof (Math_max_spec (map_to_list (m_playtime m)).*2) as Hmax.
  pose proof (Math_min_spec (map_to_list (m_playtime m)).*2) as Hmin.
  assert (Hone : (length (map_to_list (m_playtime m)).*2 < 2)%nat →
                 ∀ p q vp vq, m_playtime m !! p = Some vp →
                              m_playtime m !! q = Some vq → vp - vq ≤ 20).
  { intros Hlen p q vp vq Hp Hq.
    destruct (decide (p = q)) as [->|Hpq]; [simplify_eq; lia|].
    apply elem_of_map_to_list in Hp, Hq.
    rewrite length_fmap in Hlen.
    destruct (map_to_list (m_playtime m)) as [|a [|b l]]; simpl in Hlen; [|by
      apply list_elem_of_singleton in Hp, Hq; simplify_eq|lia].
    by apply elem_of_nil in Hp. }
  destruct (length _ <? 2)%nat eqn:Hlen; [apply Hone; by apply Nat.ltb_lt|].
  destruct (Math_max _) as [maxPlaytime|], (Math_min _) as [minPlaytime|].
  - destruct Hmax as [Hmax Hle], Hmin as [Hmin Hge].
    destruct (20 <? maxPlaytime - minPlaytime) eqn:Hd; simpl.
    + apply Z.ltb_lt in Hd. split; [|split; [|split; [done|done]]].
      * apply ledger_values in Hmax as [p Hp], Hmin as [q Hq]. by exists p, q.
      * intros r v Hr. assert (v ∈ (map_to_list (m_playtime m)).*2) as Hv
          by (apply ledger_values; by exists r).
        split; [by apply Hge|by apply Hle].
    + apply Z.ltb_ge in Hd. intros p q vp vq Hp Hq.
      assert (vp ≤ maxPlaytime) by (apply Hle, ledger_values; by exists p).
      assert (minPlaytime ≤ vq) by (apply Hge, ledger_values; by exists q).
      lia.
  - rewrite Hmin in Hlen. done.
  - rewrite Hmax in Hlen. done.
  - rewrite Hmax in Hlen. done.
Qed.

(** *** Substitution: the players on the field *)

Lemma replace_on_teamSheet_cons (playerOut playerIn y : string) (l : list string) :
  replace_on_teamSheet playerOut playerIn (y :: l)
  = if decide (y = playerOut) then playerIn :: l
    else y :: replace_on_teamSheet playerOut playerIn l.
Proof.
  unfold replace_on_teamSheet. simpl.
  destruct (decide (y = playerOut)); [done|].
  by destruct (indexOf playerOut l).
Qed.

Lemma replace_on_teamSheet_NoDup (playerOut playerIn : string) (l : list string) :
  NoDup l → playerOut ∈ l → playerIn ∉ l →
  NoDup (replace_on_teamSheet playerOut playerIn l)
  ∧ ∀ p, p ∈ replace_on_teamSheet playerOut playerIn l
         ↔ p = playerIn ∨ (p ∈ l ∧ p ≠ playerOut).
Proof.
  induction l as [|y l IH]; [by intros _ ?%elem_of_nil|].
  intros [Hy Hnd]%NoDup_cons Hout [Hne Hin]%not_elem_of_cons.
  rewrite replace_on_teamSheet_cons.
  destruct (decide (y = playerOut)) as [->|Hyo].
  - split; [by apply NoDup_cons|].
    intros p. rewrite !elem_of_cons. split.
    + intros [->|Hp]; [by left|]. right. split; [by right|]. by intros ->.
    + intros [->|[[->|Hp] Hpo]]; [by left|done|by right].
  - apply elem_of_cons in Hout as [->|Hout]; [done|].
    destruct (IH Hnd Hout Hin) as [IHnd IHiff]. split.
    + apply NoDup_cons. split; [|done].
      rewrite IHiff. intros [->|[Hp _]]; [done|done].
    + intros p. rewrite !elem_of_cons, IHiff. split.
      * intros [->|[->|[Hp Hpo]]]; [|by left|].
        -- right. split; [by left|congruence].
        -- right. split; [by right|done].
      * intros [->|[[->|Hp] Hpo]]; [right; by left|by left|]. right. right. done.
Qed.

(** X4. On a team sheet without repetition a successful substitution
    leaves a team sheet without repetition, and the players on it are
    playerIn and the players that were on it other than playerOut. *)
Theorem makeSubstitution_on_field (id : string) (body : SubstitutionBody) (now : Z)
    (db db' : DB) (m m' : Match) :
  matches db !! id = Some m →
  NoDup (m_teamSheet m) →
  run (makeSubstitution id body now) db = (Json 200 (MatchData m'), db') →
  NoDup (m_teamSheet m')
  ∧ ∀ p, p ∈ m_teamSheet m'
         ↔ p = sb_playerIn body ∨ (p ∈ m_teamSheet m ∧ p ≠ sb_playerOut body).
Proof.
  intros Hm Hnd (m0 & Hm0 & _ & Hout & Hin & -> & _ & _)%makeSubstitution_success.
  simplify_eq. simpl. by apply replace_on_teamSheet_NoDup.
Qed.

Lemma makeSubstitution_on_field_witness :
  matches (sample_db type_training ongoing) !! "M1" = Some (sample_session type_training ongoing ["P1"; "P2"; "P3"; "P4"; "P5"])
  ∧ NoDup (m_teamSheet (sample_session type_training ongoing ["P1"; "P2"; "P3"; "P4"; "P5"]))
  ∧ run (makeSubstitution "M1" sample_substitution 40000000) (sample_db type_training ongoing)
    = (Json 200 (MatchData sample_substituted), sample_db_substituted)
  ∧ NoDup (m_teamSheet sample_substituted)
  ∧ ∀ p, p ∈ m_teamSheet sample_substituted
         ↔ p = sb_playerIn sample_substitution
           ∨ (p ∈ m_teamSheet (sample_session type_training ongoing ["P1"; "P2"; "P3"; "P4"; "P5"])
              ∧ p ≠ sb_playerOut sample_substitution).
Proof.
  assert (H1 : matches (sample_db type_training ongoing) !! "M1"
               = Some (sample_session type_training ongoing ["P1"; "P2"; "P3"; "P4"; "P5"])) by (by vm_compute).
  assert (H2 : NoDup (m_teamSheet (sample_session type_training ongoing ["P1"; "P2"; "P3"; "P4"; "P5"])))
    by (apply (bool_decide_unpack _); by vm_compute).
  assert (H3 : run (makeSubstitution "M1" sample_substitution 40000000)
                 (sample_db type_training ongoing)
               = (Json 200 (MatchData sample_substituted), sample_db_substituted))
    by (by vm_compute).
  split; [exact H1|]. split; [exact H2|]. split; [exact H3|].
  exact (makeSubstitution_on_field "M1" sample_substitution 40000000
           (sample_db type_training ongoing) sample_db_substituted
           (sample_session type_training ongoing ["P1"; "P2"; "P3"; "P4"; "P5"]) sample_substituted H1 H2 H3).
Defined.

(** X5. Whatever its outcome, a substitution request leaves the
    statistics and every other match as they were, and of the players it
    changes at most the injury status of playerOut, which it does only
    for an injury substitution; unless it answers with the updated match,
    the stored matches are unchanged, and when it does so for an injury
    substitution the status has been written. *)
Theorem makeSubstitution_frame (id : string) (body : SubstitutionBody) (now : Z) (db : DB) :
  let out := run (makeSubstitution id body now) db in
  let injured :=
    alter (set_injuryStatus (str_or (sb_injuryStatus body) "")) (sb_playerOut body)
      (players db) in
  statistics out.2 = statistics db
  ∧ (∀ id', id' ≠ id → matches out.2 !! id' = matches db !! id')
  ∧ (players out.2 = players db
     ∨ (injury_substitution body = true ∧ players out.2 = injured))
  ∧ ((∀ st m', out.1 ≠ Json st (MatchData m')) → matches out.2 = matches db)
  ∧ (∀ st m', out.1 = Json st (MatchData m') →
       injury_substitution body = true → players out.2 = injured).
Proof.
  unfold run, makeSubstitution, bind, or_reply, bind, Match_findById, Player_findById,
    reply_if, reply, ret, Match_save, Player_updateInjuryStatus.
  destruct (matches db !! id) as [m|] eqn:Hm; simpl; [|by repeat split; auto].
  case_bool_decide as Hst; simpl; [|by repeat split; auto].
  destruct (negb _ || negb _); simpl; [by repeat split; auto|].
  destruct (includes (sb_playerOut body) (m_teamSheet m)); simpl; [|by repeat split; auto].
  destruct (includes (sb_playerIn body) (m_teamSheet m)); simpl; [by repeat split; auto|].
  destruct (injury_substitution body) eqn:Hinj; simpl;
    destruct (matchSchema_valid _); simpl.
  - split; [done|]. split; [by intros id' Hid; rewrite lookup_insert_ne|].
    split; [by right|]. split; [|done]. intros H. by destruct (H 200%nat (apply_substitution m body now)).
  - split; [done|]. split; [done|]. split; [by right|]. split; [done|]. intros ?? [=].
  - split; [done|]. split; [by intros id' Hid; rewrite lookup_insert_ne|].
    split; [by left|]. split; [|done]. intros H. by destruct (H 200%nat (apply_substitution m body now)).
  - split; [done|]. split; [done|]. split; [by left|]. split; [done|]. intros ?? [=].
Qed.

Lemma makeSubstitution_players (id : string) (body : SubstitutionBody) (now : Z) (db : DB) :
  players (run (makeSubstitution id body now) db).2 = players db
  ∨ (injury_substitution body = true
     ∧ players (run (makeSubstitution id body now) db).2
       = alter (set_injuryStatus (str_or (sb_injuryStatus body) "")) (sb_playerOut body)
           (players db)).
Proof.
  unfold run, makeSubstitution, bind, or_reply, bind, Match_findById, Player_findById,
    reply_if, reply, ret, Match_save, Player_updateInjuryStatus.
  destruct (matches db !! id) as [m|]; simpl; [|by left].
  case_bool_decide; simpl; [|by left].
  destruct (negb _ || negb _); simpl; [by left|].
  destruct (includes (sb_playerOut body) (m_teamSheet m)); simpl; [|by left].
  destruct (includes (sb_playerIn body) (m_teamSheet m)); simpl; [by left|].
  destruct (injury_substitution body); simpl;
    destruct (matchSchema_valid _); simpl; auto.
Qed.

(** X6. Through its route a substitution writes no injury status outside
    the enumeration of the player schema: when every stored player has a
    status of the enumeration, so has every player after the request
    (the update itself runs no validator; the middleware has refused
    every other status of an injury substitution). *)
Theorem substitute_route_injuryStatus (id : string) (body : SubstitutionBody) (now : Z)
    (db : DB) :
  (∀ p doc, players db !! p = Some doc → p_injuryStatus doc ∈ injuryStatus_enum) →
  ∀ p doc, players (run (substitute_route id body now) db).2 !! p = Some doc →
           p_injuryStatus doc ∈ injuryStatus_enum.
Proof.
  intros Hdb p doc. unfold substitute_route.
  destruct (validateSubstitution body) as [r|] eqn:Hv; [apply Hdb|].
  destruct (makeSubstitution_players id body now db) as [->|[Hinj ->]]; [apply Hdb|].
  unfold validateSubstitution in Hv.
  destruct (negb _ || negb _); [done|]. rewrite Hinj in Hv. simpl in Hv.
  destruct (sb_injuryStatus body) as [injuryStatus|]; [|done].
  destruct (includes injuryStatus validInjuryStatuses) eqn:Hin; [|done].
  apply includes_true in Hin.
  assert (injuryStatus = "Minor Injury" ∨ injuryStatus = "Major Injury") as Hs.
  { apply elem_of_cons in Hin as [->|Hin]; [by left|].
    apply list_elem_of_singleton in Hin. by right. }
  destruct (decide (p = sb_playerOut body)) as [->|Hp].
  - rewrite lookup_alter_eq. destruct (players db !! sb_playerOut body); [|done].
    intros [= <-]. destruct Hs as [-> | ->]; simpl; apply (bool_decide_unpack _); by vm_compute.
  - rewrite lookup_alter_ne by done. apply Hdb.
Qed.

Lemma substitute_route_injuryStatus_witness :
  (∀ p doc, players (sample_db type_training ongoing) !! p = Some doc →
            p_injuryStatus doc ∈ injuryStatus_enum)
  ∧ ∀ p doc,
      players (run (substitute_route "M1" sample_long_injury 40000000)
                 (sample_db type_training ongoing)).2 !! p = Some doc →
      p_injuryStatus doc ∈ injuryStatus_enum.
Proof.
  assert (H : ∀ p doc, players (sample_db type_training ongoing) !! p = Some doc →
                       p_injuryStatus doc ∈ injuryStatus_enum).
  { intros p doc Hp. apply elem_of_map_to_list in Hp. revert Hp.
    apply (Forall_forall (λ d : string * Player, p_injuryStatus d.2 ∈ injuryStatus_enum)
             (map_to_list (players (sample_db type_training ongoing)))).
    apply (bool_decide_unpack _). by vm_compute. }
  split; [exact H|].
  exact (substitute_route_injuryStatus "M1" sample_long_injury 40000000
           (sample_db type_training ongoing) H).
Defined.

(** *** Starting a match: the document created *)

(** X7. A start with an inline team sheet that is answered with the
    match has the status 201 and has added, under an id that was free,
    one ongoing match and nothing else to the database; the team sheet of
    the match is that of the request and has no repetition, its players
    exist and are available, and its ledger holds 0 for each of them. *)
Theorem startMatch_created (body : MatchBody) (now : Z) (newId : string) (db db' : DB)
    (st : nat) (m' : Match) :
  run (startMatch body now newId) db = (Json st (MatchData m'), db') →
  st = 201%nat
  ∧ matches db !! newId = None
  ∧ db' = set_matches db (<[newId := m']> (matches db))
  ∧ m_status m' = ongoing
  ∧ m_teamSheet m' = default [] (mb_teamSheet body)
  ∧ NoDup (m_teamSheet m')
  ∧ (∀ playerId, playerId ∈ m_teamSheet m' →
       m_playtime m' !! playerId = Some 0
       ∧ ∃ p, players db !! playerId = Some p ∧ p_availability p = true).
Proof.
  unfold startMatch, run, bind.
  destruct (nonempty_sheet (mb_teamSheet body)) eqn:Hne.
  - destruct (all_available (default [] (mb_teamSheet body)) db) as [[r|[|]] db1] eqn:Hav;
      try (destruct (all_available_frame (default [] (mb_teamSheet body)) db) as [ok Hok];
           rewrite Hok in Hav; simplify_eq; simpl; by intros [=]).
    apply all_available_true in Hav as (-> & Hnd & Hall). simpl.
    unfold Match_create.
    destruct (negb _); [by intros [=]|].
    destruct (matches db !! newId) eqn:Hnew; [by intros [=]|].
    unfold Match_save, ret.
    destruct (foldl_zero_playtime (default [] (mb_teamSheet body))
                (new_match now body ongoing)) as (Hst & Hts & Hzero).
    destruct (matchSchema_valid _); [|by intros [=]].
    intros [= <- <- <-]. simpl in *.
    rewrite Hst, Hts.
    split; [done|]. split; [done|].
    split; [unfold set_matches; simpl; by rewrite insert_insert_eq|].
    split; [done|]. split; [done|]. split; [done|].
    by intros p Hp; split; auto.
  - unfold ret, Match_create.
    destruct (negb _); [by intros [=]|].
    destruct (matches db !! newId) eqn:Hnew; [by intros [=]|].
    intros [= <- <- <-]. simpl.
    destruct (mb_teamSheet body) as [[|q l]|]; try done; simpl;
      (split; [done|]; split; [done|]; split; [done|]; split; [done|]; split; [done|];
       split; [apply NoDup_nil_2|by intros p ?%elem_of_nil]).
Qed.

Lemma startMatch_created_witness :
  ∃ st m' db',
    run (startMatch sample_start 36000000 "M2") (sample_db type_training ongoing)
    = (Json st (MatchData m'), db')
    ∧ st = 201%nat
    ∧ matches (sample_db type_training ongoing) !! "M2" = None
    ∧ db' = set_matches (sample_db type_training ongoing)
              (<["M2" := m']> (matches (sample_db type_training ongoing)))
    ∧ m_status m' = ongoing
    ∧ m_teamSheet m' = default [] (mb_teamSheet sample_start)
    ∧ NoDup (m_teamSheet m')
    ∧ (∀ playerId, playerId ∈ m_teamSheet m' →
         m_playtime m' !! playerId = Some 0
         ∧ ∃ p, players (sample_db type_training ongoing) !! playerId = Some p
                ∧ p_availability p = true).
Proof.
  eexists _, _, _. split; [by vm_compute|].
  eapply (startMatch_created sample_start 36000000 "M2" (sample_db type_training ongoing)).
  by vm_compute.
Defined.

Lemma startMatch_unavailable_witness :
  mb_teamSheet sample_start_unknown = Some ["P1"; "P7"]
  ∧ "P7" ∈ ["P1"; "P7"]
  ∧ (∀ p, players (sample_db type_training ongoing) !! "P7" = Some p →
          p_availability p = false)
  ∧ run (startMatch sample_start_unknown 36000000 "M2") (sample_db type_training ongoing)
    = (Json 400 (Failure "Some players in the team sheet are not available"),
       sample_db type_training ongoing).
Proof.
  assert (H1 : mb_teamSheet sample_start_unknown = Some ["P1"; "P7"]) by reflexivity.
  assert (H2 : "P7" ∈ ["P1"; "P7"]) by (apply (bool_decide_unpack _); by vm_compute).
  assert (H3 : ∀ p, players (sample_db type_training ongoing) !! "P7" = Some p →
                    p_availability p = false) by (by vm_compute).
  split; [exact H1|]. split; [exact H2|]. split; [exact H3|].
  exact (startMatch_unavailable sample_start_unknown 36000000 "M2"
           (sample_db type_training ongoing) ["P1"; "P7"] "P7" H1 H2 H3).
Defined.

Lemma startExistingMatch_spec_witness :
  matches (sample_db type_match scheduled) !! "M1"
  = Some (sample_session type_match scheduled ["P1"; "P2"; "P3"; "P4"; "P5"])
  ∧ (m_status (sample_session type_match scheduled ["P1"; "P2"; "P3"; "P4"; "P5"])
     ≠ scheduled →
       ∃ message, run (startExistingMatch "M1") (sample_db type_match scheduled)
                  = (Json 400 (Failure message), sample_db type_match scheduled))
  ∧ (∀ st m' db',
       run (startExistingMatch "M1") (sample_db type_match scheduled)
       = (Json st (MatchData m'), db') →
       m_status (sample_session type_match scheduled ["P1"; "P2"; "P3"; "P4"; "P5"])
       = scheduled
       ∧ m' = set_status
                (sample_session type_match scheduled ["P1"; "P2"; "P3"; "P4"; "P5"]) ongoing
       ∧ matches db' = <["M1" := m']> (matches (sample_db type_match scheduled))).
Proof.
  assert (H : matches (sample_db type_match scheduled) !! "M1"
              = Some (sample_session type_match scheduled ["P1"; "P2"; "P3"; "P4"; "P5"]))
    by (by vm_compute).
  split; [exact H|].
  exact (startExistingMatch_spec "M1" (sample_db type_match scheduled)
           (sample_session type_match scheduled ["P1"; "P2"; "P3"; "P4"; "P5"]) H).
Defined.

(** *** Ending a match: the ledger and the performances saved *)















(** *** The statistics of a completed match: the records *)

Lemma find_replace_first (k : string * string) (s : Statistics) (l : list Statistics) :
  List.find (λ s, bool_decide (stats_key s = k)) (replace_first s l)
  = if decide (k = stats_key s)
    then match List.find (λ s, bool_decide (stats_key s = k)) l with
         | Some _ => Some s
         | None => None
         end
    else List.find (λ s, bool_decide (stats_key s = k)) l.
Proof.
  induction l as [|s0 l IH]; simpl; [by destruct (decide (k = stats_key s))|].
  destruct (decide (stats_key s0 = stats_key s)) as [H0|H0].
  - rewrite (bool_decide_eq_true_2 _ H0). simpl.
    destruct (decide (k = stats_key s)) as [->|Hk].
    + by rewrite !bool_decide_eq_true_2.
    + by rewrite !bool_decide_eq_false_2 by congruence.
  - rewrite (bool_decide_eq_false_2 _ H0). simpl.
    destruct (decide (k = stats_key s)) as [->|Hk].
    + rewrite bool_decide_eq_false_2 by done. rewrite IH.
      by destruct (decide (stats_key s = stats_key s)).
    + rewrite IH. by destruct (decide (k = stats_key s)).
Qed.

Lemma find_stats_app (k : string * string) (s : Statistics) (l : list Statistics) :
  List.find (λ s, bool_decide (stats_key s = k)) (l ++ [s])
  = match List.find (λ s, bool_decide (stats_key s = k)) l with
    | Some s0 => Some s0
    | None => if decide (stats_key s = k) then Some s else None
    end.
Proof.
  induction l as [|s0 l IH]; simpl.
  - destruct (decide (stats_key s = k)) as [H|H].
    + by rewrite bool_decide_eq_true_2.
    + by rewrite bool_decide_eq_false_2.
  - by destruct (bool_decide (stats_key s0 = k)).
Qed.

(** What a [save] that returns has done: the record found under the key
    of [s] is now [s], which is valid, and nothing else has changed. *)
Lemma Statistics_save_returns (s s0 : Statistics) (db db' : DB) :
  find_stats (stats_key s) db = Some s0 →
  Statistics_save s db = (inr tt, db') →
  statisticsSchema_valid s = true
  ∧ find_stats (stats_key s) db' = Some s
  ∧ (∀ k, k ≠ stats_key s → find_stats k db' = find_stats k db)
  ∧ players db' = players db.
Proof.
  unfold Statistics_save, find_stats. intros Hfind.
  destruct (statisticsSchema_valid s); [|done]. intros [= <-]. simpl.
  split; [done|]. split; [|split; [|done]].
  - rewrite find_replace_first, Hfind. by destruct (decide (stats_key s = stats_key s)).
  - intros k Hk. rewrite find_replace_first. by destruct (decide (k = stats_key s)).
Qed.

Lemma Statistics_insert_returns (s : Statistics) (db db' : DB) :
  find_stats (stats_key s) db = None →
  Statistics_insert s db = (inr tt, db') →
  statisticsSchema_valid s = true
  ∧ find_stats (stats_key s) db' = Some s
  ∧ (∀ k, k ≠ stats_key s → find_stats k db' = find_stats k db)
  ∧ players db' = players db.
Proof.
  unfold Statistics_insert, find_stats. intros Hfind.
  destruct (statisticsSchema_valid s); simpl; [|done].
  case_bool_decide; [done|]. intros [= <-]. simpl.
  split; [done|]. split; [|split; [|done]].
  - rewrite find_stats_app, Hfind. by destruct (decide (stats_key s = stats_key s)).
  - intros k Hk. rewrite find_stats_app.
    destruct (decide (stats_key s = k)); [congruence|].
    by destruct (List.find (λ s1, bool_decide (stats_key s1 = k)) (statistics db)).
Qed.

Lemma find_stats_key (k : string * string) (db : DB) (s : Statistics) :
  find_stats k db = Some s → stats_key s = k.
Proof. by intros [_ Hk%bool_decide_eq_true]%find_some. Qed.

(** A write that does not return leaves the database as it was. *)
Lemma Statistics_save_throws (s : Statistics) (db db' : DB) (r : Response) :
  Statistics_save s db = (inl r, db') → db' = db.
Proof. unfold Statistics_save. destruct (statisticsSchema_valid s); by intros [=]. Qed.

Lemma Statistics_insert_throws (s : Statistics) (db db' : DB) (r : Response) :
  Statistics_insert s db = (inl r, db') → db' = db.
Proof.
  unfold Statistics_insert. destruct (negb _); [by intros [=]|].
  case_bool_decide; by intros [=].
Qed.

(** A property of the database before and after that holds of every
    pass of a loop holds of the loop. *)
Lemma for_of_frame {A} (body : A → Handler unit) (P : DB → DB → Prop) (l : list A) :
  (∀ db, P db db) →
  (∀ db1 db2 db3, P db1 db2 → P db2 db3 → P db1 db3) →
  (∀ x, x ∈ l → ∀ db, P db (body x db).2) →
  ∀ db, P db (for_of l body db).2.
Proof.
  intros Hrefl Htrans. induction l as [|x l IH]; intros Hbody db; simpl; [apply Hrefl|].
  unfold bind. pose proof (Hbody x (list_elem_of_here x l) db) as Hx.
  destruct (body x db) as [[r|[]] db1]; simpl in *; [done|].
  apply (Htrans _ db1); [done|]. apply IH. intros y Hy. apply Hbody. by right.
Qed.



Lemma stats_for_performance_returns (matchId : string) (performance : PlayerPerformance)
    (db db' : DB) :
  stats_for_performance matchId performance db = (inr tt, db') →
  let k := (pp_playerId performance, matchId) in
  let s := performance_stats matchId performance (find_stats k db)
             (players db !! pp_playerId performance) in
  statisticsSchema_valid s = true
  ∧ find_stats k db' = Some s
  ∧ (∀ k', k' ≠ k → find_stats k' db' = find_stats k' db)
  ∧ players db' = players db.
Proof.
  unfold stats_for_performance, bind, Statistics_findOne, Player_findById. simpl.
  fold (find_stats (pp_playerId performance, matchId) db).
  destruct (find_stats (pp_playerId performance, matchId) db) as [s0|] eqn:Hfind.
  - pose proof (find_stats_key _ _ _ Hfind) as Hk. intros Hsave.
    apply (Statistics_save_returns _ s0) in Hsave.
    + assert (stats_key (performance_stats matchId performance (Some s0)
                          (players db !! pp_playerId performance))
              = (pp_playerId performance, matchId)) as Hk'
        by (unfold performance_stats; by destruct (players db !! pp_playerId performance)).
      unfold performance_stats in *. by rewrite Hk' in Hsave.
    + replace (stats_key _) with (pp_playerId performance, matchId); [done|].
      by destruct (players db !! pp_playerId performance).
  - intros Hins. apply Statistics_insert_returns in Hins.
    + assert (stats_key (performance_stats matchId performance None
                          (players db !! pp_playerId performance))
              = (pp_playerId performance, matchId)) as Hk'
        by (unfold performance_stats; by destruct (players db !! pp_playerId performance)).
      unfold performance_stats in *. by rewrite Hk' in Hins.
    + replace (stats_key _) with (pp_playerId performance, matchId); [done|].
      by destruct (players db !! pp_playerId performance).
Qed.

Lemma stats_for_fielded_returns (matchId : string) (m : Match) (playerId : string)
    (db db' : DB) :
  getPlayerPerformance m playerId = None →
  stats_for_fielded matchId m playerId db = (inr tt, db') →
  let k := (playerId, matchId) in
  let s := fielded_stats matchId m playerId (find_stats k db) (players db !! playerId) in
  statisticsSchema_valid s = true
  ∧ find_stats k db' = Some s
  ∧ (∀ k', k' ≠ k → find_stats k' db' = find_stats k' db)
  ∧ players db' = players db.
Proof.
  intros Hperf. unfold stats_for_fielded, bind, Statistics_findOne, Player_findById.
  rewrite Hperf. simpl.
  fold (find_stats (playerId, matchId) db).
  destruct (find_stats (playerId, matchId) db) as [s0|] eqn:Hfind; simpl.
  - pose proof (find_stats_key _ _ _ Hfind) as Hk. intros Hsave.
    apply (Statistics_save_returns _ s0) in Hsave.
    + change (stats_key (set_minutesPlayed s0 (getPlayerPlaytime m playerId)))
        with (stats_key s0) in Hsave. by rewrite Hk in Hsave.
    + change (stats_key (set_minutesPlayed s0 (getPlayerPlaytime m playerId)))
        with (stats_key s0). by rewrite Hk.
  - intros Hins. by apply Statistics_insert_returns in Hins.
Qed.

Lemma stats_for_performance_throws (matchId : string) (performance : PlayerPerformance)
    (db db' : DB) (r : Response) :
  stats_for_performance matchId performance db = (inl r, db') → db' = db.
Proof.
  unfold stats_for_performance, bind, Statistics_findOne, Player_findById. simpl.
  destruct (List.find _ (statistics db)).
  - apply Statistics_save_throws.
  - apply Statistics_insert_throws.
Qed.

Lemma stats_for_fielded_throws (matchId : string) (m : Match) (playerId : string)
    (db db' : DB) (r : Response) :
  stats_for_fielded matchId m playerId db = (inl r, db') → db' = db.
Proof.
  unfold stats_for_fielded.
  destruct (getPlayerPerformance m playerId); [by intros [=]|].
  unfold bind, Statistics_findOne, Player_findById. simpl.
  destruct (List.find _ (statistics db)).
  - apply Statistics_save_throws.
  - apply Statistics_insert_throws.
Qed.

Lemma stats_kept_refl (keys : list (string * string)) (db : DB) : stats_kept keys db db.
Proof. split; [done|]. split; [done|]. split; [done|]. intros k s Hs. by exists s. Qed.

Lemma stats_kept_trans (keys : list (string * string)) (db1 db2 db3 : DB) :
  stats_kept keys db1 db2 → stats_kept keys db2 db3 → stats_kept keys db1 db3.
Proof.
  intros (Hp1 & Hm1 & Hf1 & Hk1) (Hp2 & Hm2 & Hf2 & Hk2).
  split; [congruence|]. split; [congruence|]. split.
  - intros k Hk. rewrite Hf2, Hf1; done.
  - intros k s Hs. destruct (Hk1 k s Hs) as (s' & Hs' & Hi & Hc).
    destruct (Hk2 k s' Hs') as (s'' & Hs'' & Hi' & Hc').
    exists s''. split; [done|]. split; congruence.
Qed.

Lemma stats_kept_one (keys : list (string * string)) (k0 : string * string)
    (db db' : DB) (s : Statistics) :
  k0 ∈ keys →
  players db' = players db → matches db' = matches db →
  (∀ k', k' ≠ k0 → find_stats k' db' = find_stats k' db) →
  find_stats k0 db' = Some s →
  (∀ s0, find_stats k0 db = Some s0 →
         st_injuries s = st_injuries s0
         ∧ st_substitutionsCount s = st_substitutionsCount s0) →
  stats_kept keys db db'.
Proof.
  intros Hin Hp Hm Hframe Hs Hold. split; [done|]. split; [done|]. split.
  - intros k Hk. apply Hframe. by intros ->.
  - intros k s0 Hs0. destruct (decide (k = k0)) as [->|Hne].
    + exists s. split; [done|]. by apply Hold.
    + exists s0. by rewrite Hframe.
Qed.

Lemma matches_stats_for_performance (matchId : string) (performance : PlayerPerformance)
    (db : DB) :
  matches (stats_for_performance matchId performance db).2 = matches db.
Proof. by destruct (upserts_stats_for_performance matchId performance db) as [_ _ _ _ _ [? _]]. Qed.

Lemma matches_stats_for_fielded (matchId : string) (m : Match) (playerId : string) (db : DB) :
  matches (stats_for_fielded matchId m playerId db).2 = matches db.
Proof. by destruct (upserts_stats_for_fielded matchId m playerId db) as [_ _ _ _ _ [? _]]. Qed.

Lemma stats_kept_performance (keys : list (string * string)) (matchId : string)
    (performance : PlayerPerformance) (db : DB) :
  (pp_playerId performance, matchId) ∈ keys →
  stats_kept keys db (stats_for_performance matchId performance db).2.
Proof.
  intros Hin. pose proof (matches_stats_for_performance matchId performance db) as Hm.
  destruct (stats_for_performance matchId performance db) as [[r|[]] db'] eqn:Hh; simpl in *.
  - apply stats_for_performance_throws in Hh as ->. apply stats_kept_refl.
  - apply stats_for_performance_returns in Hh as (_ & Hs & Hframe & Hp).
    apply (stats_kept_one _ _ _ _ _ Hin Hp Hm Hframe Hs).
    intros s0 ->. unfold performance_stats.
    by destruct (players db !! pp_playerId performance).
Qed.

Lemma stats_kept_fielded (keys : list (string * string)) (matchId : string) (m : Match)
    (playerId : string) (db : DB) :
  (getPlayerPerformance m playerId = None → (playerId, matchId) ∈ keys) →
  stats_kept keys db (stats_for_fielded matchId m playerId db).2.
Proof.
  intros Hin. pose proof (matches_stats_for_fielded matchId m playerId db) as Hm.
  destruct (stats_for_fielded matchId m playerId db) as [[r|[]] db'] eqn:Hh; simpl in *.
  - apply stats_for_fielded_throws in Hh as ->. apply stats_kept_refl.
  - destruct (getPlayerPerformance m playerId) as [p|] eqn:Hperf.
    + unfold stats_for_fielded in Hh. rewrite Hperf in Hh.
      injection Hh as <-. apply stats_kept_refl.
    + apply stats_for_fielded_returns in Hh as (_ & Hs & Hframe & Hp); [|done].
      apply (stats_kept_one _ _ _ _ _ (Hin eq_refl) Hp Hm Hframe Hs).
      by intros s0 ->.
Qed.

Lemma performance_key (matchId : string) (m : Match) (performance : PlayerPerformance) :
  performance ∈ m_playerPerformances m →
  (pp_playerId performance, matchId) ∈ match_keys matchId m.
Proof.
  intros Hin. unfold match_keys. apply elem_of_app. left.
  apply list_elem_of_bind. exists performance. split; [by apply list_elem_of_singleton|done].
Qed.

Lemma fielded_match_key (matchId : string) (m : Match) (playerId : string) :
  playerId ∈ m_teamSheet m → getPlayerPerformance m playerId = None →
  (playerId, matchId) ∈ match_keys matchId m.
Proof.
  intros Hin Hperf. unfold match_keys. apply elem_of_app. right.
  apply list_elem_of_bind. exists playerId. split; [|done].
  unfold fielded_key. rewrite Hperf. by apply list_elem_of_singleton.
Qed.

Lemma stats_kept_first_loop (matchId : string) (m : Match) (db : DB) :
  stats_kept (match_keys matchId m) db
    (for_of (m_playerPerformances m) (stats_for_performance matchId) db).2.
Proof.
  apply (for_of_frame _ (stats_kept (match_keys matchId m))).
  - apply stats_kept_refl.
  - apply stats_kept_trans.
  - intros performance Hin db1. apply stats_kept_performance. by apply performance_key.
Qed.

Lemma stats_kept_second_loop (matchId : string) (m : Match) (db : DB) :
  stats_kept (match_keys matchId m) db
    (for_of (m_teamSheet m) (stats_for_fielded matchId m) db).2.
Proof.
  apply (for_of_frame _ (stats_kept (match_keys matchId m))).
  - apply stats_kept_refl.
  - apply stats_kept_trans.
  - intros playerId Hin db1. apply stats_kept_fielded. by apply fielded_match_key.
Qed.

(** X18. Whatever its outcome, [createStatisticsFromMatch] leaves the
    players and the matches alone, does not touch the records of other
    keys than those of the match (one per performance and one per player
    of the team sheet), and removes no record: a record that existed
    still exists under its key, with the injuries and the count of
    substitutions it had. *)
Theorem createStatisticsFromMatch_keeps (matchId : string) (m : Match) (db : DB) :
  let db' := (createStatisticsFromMatch matchId m db).2 in
  players db' = players db
  ∧ matches db' = matches db
  ∧ (∀ k, k ∉ match_keys matchId m → find_stats k db' = find_stats k db)
  ∧ (∀ k s, find_stats k db = Some s →
       ∃ s', find_stats k db' = Some s'
             ∧ st_injuries s' = st_injuries s
             ∧ st_substitutionsCount s' = st_substitutionsCount s).
Proof.
  change (stats_kept (match_keys matchId m) db (createStatisticsFromMatch matchId m db).2).
  unfold createStatisticsFromMatch, bind.
  pose proof (stats_kept_first_loop matchId m db) as H1.
  destruct (for_of (m_playerPerformances m) _ db) as [[r|[]] db1]; [done|].
  apply (stats_kept_trans _ _ db1); [done|]. apply stats_kept_second_loop.
Qed.











(** *** Ending a match: the result saved, the refusals and the errors *)

Lemma endMatch_result_checked (id : string) (body : EndBody) (now : Z)
    (db db' : DB) (st : nat) (m m' : Match) (message : string) :
  matches db !! id = Some m → m_type m = type_match →
  run (endMatch id body now) db = (Json st (MatchDataMessage m' message), db') →
  ∃ r, eb_matchResult body = Some r ∧ rb_result r ∈ result_enum.
Proof.
  intros Hm Hty. unfold endMatch. unfold_handler. rewrite Hm. simpl.
  case_bool_decide as Hst; simpl; [|intros [=]].
  destruct (accumulate_playtime_spec now m) as ((_ & Hty' & _) & _).
  rewrite Hty', Hty.
  destruct (eb_matchResult body) as [r|]; simpl; [|intros [=]].
  case_bool_decide as Hres; simpl; [|intros [=]].
  intros _. by exists r.
Qed.

(** X12. The result a successful [endMatch] saves on a match of type
    'match' is the result of the request, which is one of win, loss and
    draw, with the opponent's score of the request (0 when absent) and,
    as our score, the sum of the goals of the saved performances when the
    request carries an array of performances, and the score of the
    request (0 when absent) when it carries none. *)
Theorem endMatch_saved_result (id : string) (body : EndBody) (now : Z)
    (db db' : DB) (st : nat) (m' : Match) (message : string) :
  run (endMatch id body now) db = (Json st (MatchDataMessage m' message), db') →
  m_type m' = type_match →
  ∃ r, eb_matchResult body = Some r
       ∧ rb_result r ∈ result_enum
       ∧ m_matchResult m'
         = Some {| mr_result := rb_result r;
                   mr_ourScore :=
                     match eb_playerPerformances body with
                     | Some _ => calculateTeamGoals m'
                     | None => num_or (rb_ourScore r) 0
                     end;
                   mr_opponentScore := num_or (rb_opponentScore r) 0 |}.
Proof.
  intros Hrun Hty.
  pose proof Hrun as (m & Hm & Hst & Hm' & _)%endMatch_success.
  destruct (m_type m) eqn:Htype.
  - destruct (endMatch_result_checked _ _ _ _ _ _ _ _ _ Hm Htype Hrun) as (r0 & Hr0 & Henum).
    destruct Hm' as (r & Hr & ->). simplify_eq. exists r. split; [done|]. split; [done|].
    unfold ended_match in *.
    destruct (eb_playerPerformances body) as [l|]; [|done].
    rewrite calculateTeamGoals_validateMatchResult. unfold validateMatchResult in *.
    match goal with
    | |- context [record_performances ?x l] =>
        destruct (record_performances_same l x) as (Ht & _ & _ & _ & Hres)
    end.
    rewrite Hres in *. simpl in *.
    by destruct (m_type (record_performances _ l)) eqn:E; [|congruence].
  - subst m'. destruct (ended_training_type_status m (eb_playerPerformances body) now)
      as (Hty' & _). congruence.
Qed.

Lemma endMatch_saved_result_witness :
  run (endMatch "M1" sample_end_with_performances sample_end_time)
    (sample_db type_match ongoing)
  = (Json 200 (MatchDataMessage sample_ended "Match completed successfully"),
     sample_db_ended)
  ∧ m_type sample_ended = type_match
  ∧ ∃ r, eb_matchResult sample_end_with_performances = Some r
         ∧ rb_result r ∈ result_enum
         ∧ m_matchResult sample_ended
           = Some {| mr_result := rb_result r;
                     mr_ourScore :=
                       match eb_playerPerformances sample_end_with_performances with
                       | Some _ => calculateTeamGoals sample_ended
                       | None => num_or (rb_ourScore r) 0
                       end;
                     mr_opponentScore := num_or (rb_opponentScore r) 0 |}.
Proof.
  assert (H1 : run (endMatch "M1" sample_end_with_performances sample_end_time)
                 (sample_db type_match ongoing)
               = (Json 200 (MatchDataMessage sample_ended "Match completed successfully"),
                  sample_db_ended)) by (by vm_compute).
  assert (H2 : m_type sample_ended = type_match) by (by vm_compute).
  split; [exact H1|]. split; [exact H2|].
  exact (endMatch_saved_result "M1" sample_end_with_performances sample_end_time
           (sample_db type_match ongoing) sample_db_ended 200 sample_ended
           "Match completed successfully" H1 H2).
Defined.

(** X13. [endMatch] answers 404 for a match that does not exist and 400
    for a match that is not ongoing, and whenever it answers with a
    failure message, for these or for a missing or invalid result, the
    status is 404 or 400 and the database is as it was. *)
Theorem endMatch_refusals (id : string) (body : EndBody) (now : Z) (db : DB) :
  (matches db !! id = None →
     run (endMatch id body now) db = (Json 404 (Failure "Match not found"), db))
  ∧ (∀ m, matches db !! id = Some m → m_status m ≠ ongoing →
       run (endMatch id body now) db
       = (Json 400 (Failure "Match is not currently ongoing"), db))
  ∧ (∀ st message db',
       run (endMatch id body now) db = (Json st (Failure message), db') →
       db' = db ∧ (st = 404%nat ∨ st = 400%nat)).
Proof.
  unfold endMatch. unfold_handler.
  destruct (matches db !! id) as [m|] eqn:Hm; simpl.
  - split; [done|].
    case_bool_decide as Hst; simpl.
    + split; [by intros ? [= <-]|].
      intros st message db'.
      destruct (accumulate_playtime_spec now m) as ((_ & Hty & _) & _).
      rewrite Hty. destruct (m_type m).
      * destruct (eb_matchResult body) as [r|]; simpl; [|intros [= <- <- <-]; auto].
        case_bool_decide; simpl; [|intros [= <- <- <-]; auto].
        destruct (eb_playerPerformances body); simpl;
          (destruct (matchSchema_valid _); simpl; [|by intros [=]]);
          match goal with
          | |- context [createStatisticsFromMatch ?i ?x ?d] =>
              destruct (createStatisticsFromMatch i x d) as [[resp|[]] db1] eqn:Hc;
              [apply (f_equal fst) in Hc;
               apply (upserts_throws _ _ _ (upserts_createStatisticsFromMatch _ _ _)) in Hc
                 as [e ->]|]; by intros [=]
          end.
      * destruct (eb_playerPerformances body); simpl;
          (destruct (matchSchema_valid _); simpl; [|by intros [=]]);
          match goal with
          | |- context [createStatisticsFromMatch ?i ?x ?d] =>
              destruct (createStatisticsFromMatch i x d) as [[resp|[]] db1] eqn:Hc;
              [apply (f_equal fst) in Hc;
               apply (upserts_throws _ _ _ (upserts_createStatisticsFromMatch _ _ _)) in Hc
                 as [e ->]|]; by intros [=]
          end.
    + split; [by intros ? [= <-]|]. intros st message db' [= <- <- <-]. auto.
  - split; [done|]. split; [done|]. intros st message db' [= <- <- <-]. auto.
Qed.







(** *** The playtime report *)

Lemma insert_by_sorted {A} (key : A → Z) (x : A) (l : list A) :
  StronglySorted (λ a b, key a ≤ key b) l →
  StronglySorted (λ a b, key a ≤ key b) (insert_by key x l).
Proof.
  induction l as [|y l IH]; simpl; intros Hl.
  - by repeat constructor.
  - apply StronglySorted_inv in Hl as [Hl Hy].
    destruct (Z.leb_spec (key x) (key y)) as [Hle|Hlt].
    + constructor; [by constructor|].
      constructor; [done|]. eapply Forall_impl; [exact Hy|]. simpl. lia.
    + constructor; [by apply IH|].
      assert (insert_by key x l ≡ₚ x :: l) as ->.
      { clear. induction l as [|z l IH]; simpl; [done|].
        destruct (key x <=? key z); [done|]. rewrite IH. apply Permutation_swap. }
      constructor; [lia|done].
Qed.

Lemma sort_by_sorted {A} (key : A → Z) (l : list A) :
  StronglySorted (λ a b, key a ≤ key b) (sort_by key l).
Proof.
  induction l as [|x l IH]; simpl; [constructor|]. by apply insert_by_sorted.
Qed.


(** *** The schedule controller *)

Lemma create_then_reply (now : Z) (newId : string) (x : Match) (db db' : DB)
    (st : nat) (m' : Match) :
  run (Match_create now newId x ;;; ret (Json 201 (MatchData x))) db
  = (Json st (MatchData m'), db') →
  st = 201%nat ∧ matches db !! newId = None
  ∧ db' = set_matches db (<[newId := m']> (matches db))
  ∧ m' = x
  ∧ m_date x ≤ now + 365 * 24 * 60 * 60 * 1000.
Proof.
  unfold run, bind, ret, Match_create.
  destruct (date_valid now _ && _) eqn:Hvalid; simpl; [|by intros [=]].
  destruct (matches db !! newId) eqn:Hnew; [by intros [=]|].
  intros [= <- <- <-]. apply andb_prop in Hvalid as [Hdate%Z.leb_le _]. done.
Qed.

(** X20. A schedule that [createSchedule] answers with has the status
    201 and has added, under an id that was free, one match and nothing
    else to the database: the match is scheduled whatever status the body
    carries, its date is that of the body and at most a year ahead, and
    its team sheet is that of the body, without repetition and made of
    stored, available players. *)
Theorem createSchedule_created (body : MatchBody) (now : Z) (newId : string) (db db' : DB)
    (st : nat) (m' : Match) :
  run (createSchedule body now newId) db = (Json st (MatchData m'), db') →
  st = 201%nat
  ∧ matches db !! newId = None
  ∧ db' = set_matches db (<[newId := m']> (matches db))
  ∧ m_status m' = scheduled
  ∧ m_date m' = mb_date body
  ∧ m_date m' ≤ now + 365 * 24 * 60 * 60 * 1000
  ∧ m_teamSheet m' = default [] (mb_teamSheet body)
  ∧ NoDup (m_teamSheet m')
  ∧ (∀ playerId, playerId ∈ m_teamSheet m' →
       ∃ p, players db !! playerId = Some p ∧ p_availability p = true).
Proof.
  unfold createSchedule.
  destruct (nonempty_sheet (mb_teamSheet body)) eqn:Hne.
  - unfold run at 1, bind at 1, bind at 1.
    destruct (all_available (default [] (mb_teamSheet body)) db) as [[r|[|]] db1] eqn:Hav;
      try (destruct (all_available_frame (default [] (mb_teamSheet body)) db) as [ok Hok];
           rewrite Hok in Hav; simplify_eq; simpl; by intros [=]).
    apply all_available_true in Hav as (-> & Hnd & Hall). simpl. intros H.
    change (run (Match_create now newId (new_match now body scheduled) ;;;
                 ret (Json 201 (MatchData (new_match now body scheduled)))) db
            = (Json st (MatchData m'), db')) in H.
    apply create_then_reply in H as (-> & Hnew & -> & -> & Hdate). simpl. done.
  - intros H.
    change (run (Match_create now newId (new_match now body scheduled) ;;;
                 ret (Json 201 (MatchData (new_match now body scheduled)))) db
            = (Json st (MatchData m'), db')) in H.
    apply create_then_reply in H as (-> & Hnew & -> & -> & Hdate). simpl.
    repeat (split; [done|]).
    destruct (mb_teamSheet body) as [[|q l]|]; try done; simpl;
      (split; [apply NoDup_nil_2|by intros p ?%elem_of_nil]).
Qed.

Lemma createSchedule_created_witness :
  ∃ st m' db',
    run (createSchedule sample_start 36000000 "M2") (sample_db type_training ongoing)
    = (Json st (MatchData m'), db')
    ∧ st = 201%nat
    ∧ matches (sample_db type_training ongoing) !! "M2" = None
    ∧ db' = set_matches (sample_db type_training ongoing)
              (<["M2" := m']> (matches (sample_db type_training ongoing)))
    ∧ m_status m' = scheduled
    ∧ m_date m' = mb_date sample_start
    ∧ m_date m' ≤ 36000000 + 365 * 24 * 60 * 60 * 1000
    ∧ m_teamSheet m' = default [] (mb_teamSheet sample_start)
    ∧ NoDup (m_teamSheet m')
    ∧ (∀ playerId, playerId ∈ m_teamSheet m' →
         ∃ p, players (sample_db type_training ongoing) !! playerId = Some p
              ∧ p_availability p = true).
Proof.
  eexists _, _, _. split; [by vm_compute|].
  eapply (createSchedule_created sample_start 36000000 "M2"
            (sample_db type_training ongoing)).
  by vm_compute.
Defined.

Lemma update_then_reply (now : Z) (id : string) (body : MatchBody) (db db' : DB)
    (st : nat) (m m' : Match) :
  matches db !! id = Some m →
  run (let! schedule := Match_findByIdAndUpdate now id body in
       ret (Json 200 (match schedule with
                      | Some updated => MatchData updated
                      | None => NullData
                      end))) db
  = (Json st (MatchData m'), db') →
  st = 200%nat ∧ db' = set_matches db (<[id := m']> (matches db))
  ∧ m' = apply_update body m ∧ update_valid now body = true.
Proof.
  intros Hm. unfold run, bind, ret, Match_findByIdAndUpdate.
  destruct (update_valid now body); simpl; [|by intros [=]].
  rewrite Hm. by intros [= <- <- <-].
Qed.

(** X21. An update that [updateSchedule] answers with the match has
    the status 200, has found a match that is not completed, and has
    passed the validators (a date at most a year ahead, a duration from 1
    to 200) and the check of the team sheet of the body, if it has one
    (no repetition, stored and available players); the match it returns
    is the one now stored, with the status and the team sheet of the body
    when the body has them and the stored ones otherwise, and nothing
    else in the database has changed. *)
Theorem updateSchedule_updated (id : string) (body : MatchBody) (now : Z) (db db' : DB)
    (st : nat) (m' : Match) :
  run (updateSchedule id body now) db = (Json st (MatchData m'), db') →
  ∃ m, matches db !! id = Some m
       ∧ m_status m ≠ completed
       ∧ st = 200%nat
       ∧ db' = set_matches db (<[id := m']> (matches db))
       ∧ m_status m' = default (m_status m) (mb_status body)
       ∧ m_teamSheet m' = default (m_teamSheet m) (mb_teamSheet body)
       ∧ m_date m' = mb_date body
       ∧ mb_date body ≤ now + 365 * 24 * 60 * 60 * 1000
       ∧ (∀ d, mb_duration body = Some d → 1 ≤ d ≤ 200)
       ∧ (∀ teamSheet, mb_teamSheet body = Some teamSheet →
            m_teamSheet m' = teamSheet ∧ NoDup teamSheet
            ∧ ∀ playerId, playerId ∈ teamSheet →
                ∃ p, players db !! playerId = Some p ∧ p_availability p = true).
Proof.
  unfold updateSchedule.
  unfold run at 1, bind at 1, or_reply, bind at 1, Match_findById.
  destruct (matches db !! id) as [m|] eqn:Hm; simpl; [|by intros [=]].
  unfold bind at 1, reply_if, reply.
  case_bool_decide as Hst; simpl; [by intros [=]|].
  assert (update_valid now body = true →
          mb_date body ≤ now + 365 * 24 * 60 * 60 * 1000
          ∧ ∀ d, mb_duration body = Some d → 1 ≤ d ≤ 200) as Hvalidators.
  { unfold update_valid, date_valid. intros Hvalid.
    do 3 (apply andb_prop in Hvalid as [Hvalid _]).
    apply andb_prop in Hvalid as [Hdate%Z.leb_le Hdur]. split; [done|].
    intros d Hd. rewrite Hd in Hdur. apply andb_prop in Hdur as [?%Z.leb_le ?%Z.leb_le].
    done. }
  exists m. split; [done|]. split; [done|]. revert H.
  destruct (mb_teamSheet body) as [teamSheet|] eqn:Hsheet.
  - unfold bind at 1, bind at 1.
    destruct (all_available teamSheet db) as [[r|[|]] db1] eqn:Hav;
      try (destruct (all_available_frame teamSheet db) as [ok Hok];
           rewrite Hok in Hav; simplify_eq; simpl; by intros [=]).
    apply all_available_true in Hav as (-> & Hnd & Hall). simpl. intros H.
    apply (update_then_reply now id body db db' st m m' Hm) in H
      as (-> & -> & -> & [Hdate Hdur]%Hvalidators).
    simpl. rewrite Hsheet. do 7 (split; [done|]). by intros ? [= <-].
  - unfold bind at 1, ret at 1. intros H.
    apply (update_then_reply now id body db db' st m m' Hm) in H
      as (-> & -> & -> & [Hdate Hdur]%Hvalidators).
    simpl. rewrite Hsheet. do 7 (split; [done|]). by intros ? [=].
Qed.

Lemma updateSchedule_updated_witness :
  ∃ st m' db',
    run (updateSchedule "M1" sample_start 36000000) (sample_db type_match scheduled)
    = (Json st (MatchData m'), db')
    ∧ ∃ m, matches (sample_db type_match scheduled) !! "M1" = Some m
           ∧ m_status m ≠ completed
           ∧ st = 200%nat
           ∧ db' = set_matches (sample_db type_match scheduled)
                     (<["M1" := m']> (matches (sample_db type_match scheduled)))
           ∧ m_status m' = default (m_status m) (mb_status sample_start)
           ∧ m_teamSheet m' = default (m_teamSheet m) (mb_teamSheet sample_start)
           ∧ m_date m' = mb_date sample_start
           ∧ mb_date sample_start ≤ 36000000 + 365 * 24 * 60 * 60 * 1000
           ∧ (∀ d, mb_duration sample_start = Some d → 1 ≤ d ≤ 200)
           ∧ (∀ teamSheet, mb_teamSheet sample_start = Some teamSheet →
                m_teamSheet m' = teamSheet ∧ NoDup teamSheet
                ∧ ∀ playerId, playerId ∈ teamSheet →
                    ∃ p, players (sample_db type_match scheduled) !! playerId = Some p
                         ∧ p_availability p = true).
Proof.
  eexists _, _, _. split; [by vm_compute|].
  eapply (updateSchedule_updated "M1" sample_start 36000000 (sample_db type_match scheduled)).
  by vm_compute.
Defined.

Lemma cancelSchedule_spec_witness :
  matches (sample_db type_match scheduled) !! "M1"
  = Some (sample_session type_match scheduled ["P1"; "P2"; "P3"; "P4"; "P5"])
  ∧ (m_status (sample_session type_match scheduled ["P1"; "P2"; "P3"; "P4"; "P5"])
     = completed →
       run (cancelSchedule "M1") (sample_db type_match scheduled)
       = (Json 400 (Failure "Cannot cancel completed matches"),
          sample_db type_match scheduled))
  ∧ (m_status (sample_session type_match scheduled ["P1"; "P2"; "P3"; "P4"; "P5"])
     = ongoing →
       run (cancelSchedule "M1") (sample_db type_match scheduled)
       = (Json 400 (Failure "Cannot cancel ongoing matches. End the match first."),
          sample_db type_match scheduled))
  ∧ (m_status (sample_session type_match scheduled ["P1"; "P2"; "P3"; "P4"; "P5"])
     = scheduled
     ∨ m_status (sample_session type_match scheduled ["P1"; "P2"; "P3"; "P4"; "P5"])
       = cancelled →
       (run (cancelSchedule "M1") (sample_db type_match scheduled)).1
       = Json 200 (Message "Schedule cancelled successfully")
       ∧ matches (run (cancelSchedule "M1") (sample_db type_match scheduled)).2 !! "M1"
         = Some (set_status
                   (sample_session type_match scheduled ["P1"; "P2"; "P3"; "P4"; "P5"])
                   cancelled)).
Proof.
  assert (H : matches (sample_db type_match scheduled) !! "M1"
              = Some (sample_session type_match scheduled ["P1"; "P2"; "P3"; "P4"; "P5"]))
    by (by vm_compute).
  split; [exact H|].
  exact (cancelSchedule_spec "M1" (sample_db type_match scheduled)
           (sample_session type_match scheduled ["P1"; "P2"; "P3"; "P4"; "P5"]) H).
Defined.

Lemma completed_is_terminal_witness :
  matches (sample_db type_match completed) !! "M1"
  = Some (sample_session type_match completed ["P1"; "P2"; "P3"; "P4"; "P5"])
  ∧ m_status (sample_session type_match completed ["P1"; "P2"; "P3"; "P4"; "P5"]) = completed
  ∧ matches (run (route (PUT_schedules "M1" sample_update) 36000000)
               (sample_db type_match completed)).2 !! "M1"
    = Some (sample_session type_match completed ["P1"; "P2"; "P3"; "P4"; "P5"]).
Proof.
  assert (H1 : matches (sample_db type_match completed) !! "M1"
               = Some (sample_session type_match completed ["P1"; "P2"; "P3"; "P4"; "P5"]))
    by (by vm_compute).
  assert (H2 : m_status (sample_session type_match completed
                           ["P1"; "P2"; "P3"; "P4"; "P5"]) = completed) by reflexivity.
  split; [exact H1|]. split; [exact H2|].
  exact (completed_is_terminal (PUT_schedules "M1" sample_update) 36000000
           (sample_db type_match completed) "M1"
           (sample_session type_match completed ["P1"; "P2"; "P3"; "P4"; "P5"]) H1 H2).
Defined.

(** X24. [generateTeamSheet] answers 404 for a match that does not
    exist, 400 for a match that is not scheduled and 400 when fewer than
    eleven players are available with the status Healthy or Minor
    Injury, each time leaving the database as it was; and whatever its
    outcome it leaves the players, the statistics and every other match
    alone and changes of the match at most the team sheet. *)
Theorem generateTeamSheet_refusals (id : string) (body : GenerateBody) (now : Z) (db : DB) :
  let out := run (generateTeamSheet id body now) db in
  (matches db !! id = None → out = (Json 404 (Failure "Schedule not found"), db))
  ∧ (∀ m, matches db !! id = Some m → m_status m ≠ scheduled →
       out = (Json 400 (Failure "Can only generate team sheet for scheduled matches"), db))
  ∧ (∀ m, matches db !! id = Some m → m_status m = scheduled →
       (length (filter (λ d, eligible d.2 = true) (map_to_list (players db))) < 11)%nat →
       out = (Json 400 (Failure "Not enough available players for a full team"), db))
  ∧ players out.2 = players db
  ∧ statistics out.2 = statistics db
  ∧ (∀ id', id' ≠ id → matches out.2 !! id' = matches db !! id')
  ∧ (∀ m, matches db !! id = Some m →
       ∃ teamSheet, matches out.2 !! id = Some (set_teamSheet m teamSheet)).
Proof.
  unfold generateTeamSheet. unfold_handler. unfold Player_find, Match_find.
  destruct (matches db !! id) as [m|] eqn:Hm; simpl.
  2:{ repeat split; try done. }
  assert (set_teamSheet m (m_teamSheet m) = m) as Hsame by (by destruct m).
  case_bool_decide as Hst; simpl.
  2:{ split; [done|]. split; [by intros ? [= <-]|]. split; [by intros ? [= <-]|].
      split; [done|]. split; [done|]. split; [done|].
      intros ? [= <-]. exists (m_teamSheet m). by rewrite Hsame. }
  change (filter _ (map_to_list (players db)))
    with (filter (λ d : string * Player, eligible d.2 = true) (map_to_list (players db))).
  case_bool_decide as Hlen; simpl.
  { split; [done|]. split; [by intros ? [= <-]|]. split; [by intros ? [= <-]|].
    split; [done|]. split; [done|]. split; [done|].
    intros ? [= <-]. exists (m_teamSheet m). by rewrite Hsame. }
  destruct (matchSchema_valid _); simpl.
  - split; [done|]. split; [by intros ? [= <-]|]. split; [intros ? [= <-]; lia|].
    split; [done|]. split; [done|].
    split; [by intros id' Hid; rewrite lookup_insert_ne|].
    intros ? [= <-]. eexists. by rewrite lookup_insert_eq.
  - split; [done|]. split; [by intros ? [= <-]|]. split; [intros ? [= <-]; lia|].
    split; [done|]. split; [done|]. split; [done|].
    intros ? [= <-]. exists (m_teamSheet m). by rewrite Hsame.
Qed.

Lemma take_needed_elem_of {A} (needed : option Z) (available : list A) (x : A) :
  x ∈ take_needed needed available → x ∈ available.
Proof.
  destruct needed as [n|]; simpl; [|by intros ?%elem_of_nil].
  by intros (i & Hx%list_elem_of_lookup_2 & _)%elem_of_take.
Qed.

Lemma sort_by_head_least {A} (key : A → Z) (l : list A) (x y : A) :
  head (sort_by key l) = Some x → y ∈ l → key x ≤ key y.
Proof.
  intros Hx Hy. rewrite <-(sort_by_Permutation key) in Hy.
  pose proof (sort_by_sorted key l) as Hsorted.
  destruct (sort_by key l) as [|x' l']; [done|]. injection Hx as ->.
  apply StronglySorted_inv in Hsorted as [_ Hall].
  apply elem_of_cons in Hy as [->|Hy]; [lia|].
  rewrite Forall_forall in Hall. by apply Hall.
Qed.

(** X25. Whatever the formation string, the team [generateOptimalTeam]
    returns has at most eleven entries, all of them available players;
    and when a goalkeeper is available and every available player has an
    entry in the table of recent minutes, the first entry of the team is
    a goalkeeper, and none of the available goalkeepers has fewer recent
    minutes. *)
Theorem generateOptimalTeam_goalkeeper (availablePlayers : list (string * Player))
    (playerPlaytime : gmap string Z) (formation : string) (prioritizeRest : bool) :
  (∀ p, p ∈ availablePlayers → is_Some (playerPlaytime !! p.1)) →
  let team := generateOptimalTeam availablePlayers playerPlaytime formation prioritizeRest in
  (length team ≤ 11)%nat
  ∧ (∀ p, p ∈ team → p ∈ availablePlayers)
  ∧ ((∃ g, g ∈ availablePlayers ∧ is_goalkeeper g) →
     ∃ g, head team = Some g ∧ g ∈ availablePlayers ∧ is_goalkeeper g
          ∧ ∀ g', g' ∈ availablePlayers → is_goalkeeper g' →
                  recent_minutes playerPlaytime g.1 ≤ recent_minutes playerPlaytime g'.1).
Proof.
  intros _. unfold generateOptimalTeam.
  set (formationArray := parseInt <$> split_dash formation).
  set (G := sort_by (selection_score playerPlaytime prioritizeRest "Goalkeeper")
              (filter (λ p : string * Player, p_position p.2 = "Goalkeeper") availablePlayers)).
  set (D := sort_by (selection_score playerPlaytime prioritizeRest "Defender") _).
  set (M := sort_by (selection_score playerPlaytime prioritizeRest "Midfielder") _).
  set (F := sort_by (selection_score playerPlaytime prioritizeRest "Forward") _).
  set (picks := (take_needed (Some 1) G ++ take_needed _ D
                 ++ take_needed _ M ++ take_needed _ F)%list).
  set (total := num_add _ _).
  set (remainingPlayers := sort_by _ _).
  assert (∀ p, p ∈ picks → p ∈ availablePlayers) as Hpicks.
  { intros p. unfold picks. rewrite !elem_of_app.
    intros [Hp|[Hp|[Hp|Hp]]]; apply take_needed_elem_of in Hp; revert Hp;
      unfold G, D, M, F; rewrite sort_by_Permutation, list_elem_of_filter; tauto. }
  assert (∀ p, p ∈ remainingPlayers → p ∈ availablePlayers) as Hremaining.
  { intros p. unfold remainingPlayers. rewrite sort_by_Permutation, list_elem_of_filter.
    tauto. }
  simpl. split; [rewrite length_take; lia|]. split.
  - intros p (i & Hp%list_elem_of_lookup_2 & _)%elem_of_take.
    destruct total as [t|]; [|by apply Hpicks].
    destruct (Z.of_nat (length picks) <? t); [|by apply Hpicks].
    apply elem_of_app in Hp as [Hp|Hp]; [by apply Hpicks|].
    apply elem_of_take in Hp as (j & Hp%list_elem_of_lookup_2 & _). by apply Hremaining.
  - intros (g0 & Hg0 & Hgk0).
    assert (g0 ∈ G) as HG.
    { unfold G. rewrite sort_by_Permutation. by apply list_elem_of_filter. }
    destruct G as [|g G'] eqn:HeqG; [by apply elem_of_nil in HG|].
    assert (g ∈ filter (λ p : string * Player, p_position p.2 = "Goalkeeper")
                  availablePlayers) as [Hgk Hg]%list_elem_of_filter.
    { rewrite <-(sort_by_Permutation (selection_score playerPlaytime prioritizeRest
                                        "Goalkeeper")).
      fold G. rewrite HeqG. by left. }
    exists g. split; [|split; [done|split; [done|]]].
    + unfold picks. simpl.
      destruct total as [t|]; [|done]. by destruct (Z.of_nat _ <? t).
    + intros g' Hg' Hgk'.
      assert (selection_score playerPlaytime prioritizeRest "Goalkeeper" g
              ≤ selection_score playerPlaytime prioritizeRest "Goalkeeper" g') as Hle.
      { apply (sort_by_head_least _
                 (filter (λ p : string * Player, p_position p.2 = "Goalkeeper")
                    availablePlayers)).
        - fold G. by rewrite HeqG.
        - by apply list_elem_of_filter. }
      unfold selection_score in Hle. unfold is_goalkeeper in *.
      rewrite !bool_decide_eq_true_2 in Hle by done.
      destruct prioritizeRest; lia.
Qed.

Lemma generateOptimalTeam_goalkeeper_witness :
  (∀ p, p ∈ sample_available → is_Some (sample_recent !! p.1))
  ∧ (length (generateOptimalTeam sample_available sample_recent "3-5-2" false) ≤ 11)%nat
  ∧ (∀ p, p ∈ generateOptimalTeam sample_available sample_recent "3-5-2" false →
          p ∈ sample_available)
  ∧ ((∃ g, g ∈ sample_available ∧ is_goalkeeper g) →
     ∃ g, head (generateOptimalTeam sample_available sample_recent "3-5-2" false) = Some g
          ∧ g ∈ sample_available ∧ is_goalkeeper g
          ∧ ∀ g', g' ∈ sample_available → is_goalkeeper g' →
                  recent_minutes sample_recent g.1 ≤ recent_minutes sample_recent g'.1).
Proof.
  assert (H : ∀ p, p ∈ sample_available → is_Some (sample_recent !! p.1)).
  { apply (Forall_forall (λ p : string * Player, is_Some (sample_recent !! p.1))).
    apply (bool_decide_unpack _). by vm_compute. }
  split; [exact H|].
  exact (generateOptimalTeam_goalkeeper sample_available sample_recent "3-5-2" false H).
Defined.

(** X26. For a formation of three counts that are not negative, with
    players enough for the goalkeeper and the three lines, the team has
    as many entries as the formation asks for, the goalkeeper included,
    and eleven when it asks for more: a formation that adds up to ten
    gives eleven entries. *)
Theorem generateOptimalTeam_length (availablePlayers : list (string * Player))
    (playerPlaytime : gmap string Z) (formation : string) (prioritizeRest : bool)
    (defenders midfielders forwards : Z) (rest : list (option Z)) :
  parseInt <$> split_dash formation
  = Some defenders :: Some midfielders :: Some forwards :: rest →
  0 ≤ defenders → 0 ≤ midfielders → 0 ≤ forwards →
  NoDup availablePlayers.*1 →
  1 + defenders + midfielders + forwards ≤ Z.of_nat (length availablePlayers) →
  Z.of_nat
    (length (generateOptimalTeam availablePlayers playerPlaytime formation prioritizeRest))
  = Z.min 11 (1 + defenders + midfielders + forwards).
Proof.
  intros Hformation Hd Hm Hf Hnd Hlen. unfold generateOptimalTeam. rewrite Hformation.
  simpl.
  set (G := sort_by (selection_score playerPlaytime prioritizeRest "Goalkeeper") _).
  set (D := sort_by (selection_score playerPlaytime prioritizeRest "Defender") _).
  set (M := sort_by (selection_score playerPlaytime prioritizeRest "Midfielder") _).
  set (F := sort_by (selection_score playerPlaytime prioritizeRest "Forward") _).
  set (picks := (take _ G ++ take _ D ++ take _ M ++ take _ F)%list).
  assert (Z.of_nat (length picks) ≤ 1 + defenders + midfielders + forwards) as Hpicks.
  { unfold picks. rewrite !length_app, !length_take. lia. }
  pose proof (length_not_selected picks availablePlayers Hnd) as Hrest.
  rewrite length_take.
  destruct (Z.ltb_spec (Z.of_nat (length picks)) (1 + defenders + midfielders + forwards))
    as [Hlt|Hge].
  - rewrite length_app, length_take.
    rewrite (Permutation_length (sort_by_Permutation _ _)). lia.
  - lia.
Qed.

Lemma generateOptimalTeam_length_witness :
  parseInt <$> split_dash "3-5-2" = [Some 3; Some 5; Some 2]
  ∧ 0 ≤ 3 ∧ 0 ≤ 5 ∧ 0 ≤ 2
  ∧ NoDup sample_available.*1
  ∧ 1 + 3 + 5 + 2 ≤ Z.of_nat (length sample_available)
  ∧ Z.of_nat (length (generateOptimalTeam sample_available sample_recent "3-5-2" true))
    = Z.min 11 (1 + 3 + 5 + 2).
Proof.
  assert (H1 : parseInt <$> split_dash "3-5-2" = [Some 3; Some 5; Some 2]) by reflexivity.
  assert (H2 : 0 ≤ 3) by lia.
  assert (H3 : 0 ≤ 5) by lia.
  assert (H4 : 0 ≤ 2) by lia.
  assert (H5 : NoDup sample_available.*1) by (apply (bool_decide_unpack _); by vm_compute).
  assert (H6 : 1 + 3 + 5 + 2 ≤ Z.of_nat (length sample_available)) by (by vm_compute).
  split; [exact H1|]. split; [exact H2|]. split; [exact H3|]. split; [exact H4|].
  split; [exact H5|]. split; [exact H6|].
  exact (generateOptimalTeam_length sample_available sample_recent "3-5-2" true 3 5 2 []
           H1 H2 H3 H4 H5 H6).
Defined.

Lemma same_id_same_player (l : list (string * Player)) (_id : string) (p1 p2 : Player) :
  NoDup l.*1 → (_id, p1) ∈ l → (_id, p2) ∈ l → p1 = p2.
Proof.
  induction l as [|[k q] l IH]; simpl; [by intros _ ?%elem_of_nil|].
  intros [Hk Hnd]%NoDup_cons H1 H2.
  apply elem_of_cons in H1 as [H1|H1]; apply elem_of_cons in H2 as [H2|H2].
  - congruence.
  - injection H1 as -> ->. destruct Hk. apply list_elem_of_fmap.
    eexists (_, p2). split; [|exact H2]. done.
  - injection H2 as -> ->. destruct Hk. apply list_elem_of_fmap.
    eexists (_, p1). split; [|exact H1]. done.
  - by apply IH.
Qed.

Lemma of_positions_app (availablePlayers : list (string * Player)) (S1 S2 : list string)
    (l1 l2 : list (string * Player)) :
  NoDup availablePlayers.*1 →
  (∀ pos, pos ∈ S1 → pos ∉ S2) →
  of_positions availablePlayers S1 l1 → of_positions availablePlayers S2 l2 →
  of_positions availablePlayers (S1 ++ S2) (l1 ++ l2).
Proof.
  intros Hnd Hdisj [Hnd1 Hin1] [Hnd2 Hin2]. split.
  - rewrite fmap_app. apply NoDup_app. split; [done|]. split; [|done].
    intros _id ([_id1 p1] & -> & H1)%list_elem_of_fmap ([_id2 p2] & Heq & H2)%list_elem_of_fmap.
    simpl in Heq. subst _id2.
    destruct (Hin1 _ H1) as [Ha1 Hp1], (Hin2 _ H2) as [Ha2 Hp2].
    rewrite (same_id_same_player _ _ _ _ Hnd Ha1 Ha2) in Hp1. by apply (Hdisj _ Hp1).
  - intros p [Hp|Hp]%elem_of_app.
    + destruct (Hin1 p Hp). split; [done|]. apply elem_of_app. by left.
    + destruct (Hin2 p Hp). split; [done|]. apply elem_of_app. by right.
Qed.

Lemma of_positions_bucket (availablePlayers : list (string * Player)) (pos : string)
    (key : string * Player → Z) (needed : option Z)
    (P : string * Player → Prop) `{!∀ p, Decision (P p)} :
  NoDup availablePlayers.*1 →
  (∀ p, p ∈ availablePlayers → P p → p_position p.2 = pos) →
  of_positions availablePlayers [pos]
    (take_needed needed (sort_by key (filter P availablePlayers))).
Proof.
  intros Hnd HP. split.
  - apply (sublist_NoDup _ (sort_by key (filter P availablePlayers)).*1).
    + rewrite sort_by_Permutation.
      apply (sublist_NoDup _ availablePlayers.*1); [done|].
      apply fmap_sublist, sublist_filter.
    + apply fmap_sublist. destruct needed; simpl; [apply sublist_take|apply sublist_nil_l].
  - intros p Hp%take_needed_elem_of. rewrite sort_by_Permutation in Hp.
    apply list_elem_of_filter in Hp as [HPp Hp]. split; [done|].
    apply list_elem_of_singleton. by apply HP.
Qed.

(** X27. When the available players are distinct and none of them
    prefers a position other than their own, no player comes twice in the
    team [generateOptimalTeam] returns, whatever the formation. *)
Theorem generateOptimalTeam_NoDup (availablePlayers : list (string * Player))
    (playerPlaytime : gmap string Z) (formation : string) (prioritizeRest : bool) :
  NoDup availablePlayers.*1 →
  (∀ p pos, p ∈ availablePlayers → pos ∈ p_preferredPositions p.2 →
            pos = p_position p.2) →
  NoDup (generateOptimalTeam availablePlayers playerPlaytime formation prioritizeRest).*1.
Proof.
  intros Hnd Hpref. unfold generateOptimalTeam.
  set (formationArray := parseInt <$> split_dash formation).
  assert (∀ pos p, p ∈ availablePlayers → in_bucket pos p = true → p_position p.2 = pos)
    as Hbucket.
  { intros pos p Hp [Hpos%bool_decide_eq_true|Hpos%bool_decide_eq_true]%orb_prop; [done|].
    symmetry. by apply Hpref. }
  match goal with
  | |- context [(take_needed ?g ?G ++ take_needed ?d ?D
                 ++ take_needed ?m ?M ++ take_needed ?f ?F)%list] =>
      assert (of_positions availablePlayers
                (["Goalkeeper"] ++ ["Defender"] ++ ["Midfielder"] ++ ["Forward"])
                (take_needed g G ++ take_needed d D
                 ++ take_needed m M ++ take_needed f F)) as [Hpicks Hin];
      [|set (picks := (take_needed g G ++ take_needed d D
                       ++ take_needed m M ++ take_needed f F)%list) in *]
  end.
  { apply of_positions_app; [done| |by apply of_positions_bucket|].
    { intros pos ->%list_elem_of_singleton. apply (bool_decide_unpack _). by vm_compute. }
    apply of_positions_app; [done| | |].
    { intros pos ->%list_elem_of_singleton. apply (bool_decide_unpack _). by vm_compute. }
    { apply of_positions_bucket; [done|]. intros p Hp. apply Hbucket, Hp. }
    apply of_positions_app; [done| | |].
    { intros pos ->%list_elem_of_singleton. apply (bool_decide_unpack _). by vm_compute. }
    { apply of_positions_bucket; [done|]. intros p Hp. apply Hbucket, Hp. }
    apply of_positions_bucket; [done|]. intros p Hp. apply Hbucket, Hp. }
  simpl.
  match goal with
  | |- NoDup (take 11 ?X).*1 =>
      apply (sublist_NoDup _ X.*1); [|apply fmap_sublist, sublist_take]
  end.
  destruct (num_add _ _) as [total|]; [|done].
  destruct (Z.of_nat (length picks) <? total); [|done].
  set (remainingPlayers := sort_by _ _).
  assert (∀ p, p ∈ remainingPlayers → p ∈ availablePlayers ∧ p.1 ∉ picks.*1) as Hremaining.
  { intros p. unfold remainingPlayers. rewrite sort_by_Permutation, list_elem_of_filter.
    intros [Hsel Hp]. split; [done|]. by apply includes_false. }
  rewrite fmap_app. apply NoDup_app. split; [done|]. split.
  - intros _id H1 (p & -> & (i & Hp%list_elem_of_lookup_2 & _)%elem_of_take)%list_elem_of_fmap.
    by destruct (Hremaining p Hp).
  - apply (sublist_NoDup _ remainingPlayers.*1); [|apply fmap_sublist, sublist_take].
    unfold remainingPlayers. rewrite sort_by_Permutation.
    apply (sublist_NoDup _ availablePlayers.*1); [done|].
    apply fmap_sublist, sublist_filter.
Qed.

Lemma generateOptimalTeam_NoDup_witness :
  NoDup sample_available.*1
  ∧ (∀ p pos, p ∈ sample_available → pos ∈ p_preferredPositions p.2 →
              pos = p_position p.2)
  ∧ NoDup (generateOptimalTeam sample_available sample_recent "4-4-2" true).*1.
Proof.
  assert (H1 : NoDup sample_available.*1) by (apply (bool_decide_unpack _); by vm_compute).
  assert (H2 : ∀ p pos, p ∈ sample_available → pos ∈ p_preferredPositions p.2 →
                        pos = p_position p.2).
  { intros p pos Hp. revert pos.
    apply (Forall_forall (λ pos, pos = p_position p.2) (p_preferredPositions p.2)).
    revert p Hp.
    apply (Forall_forall
             (λ p : string * Player,
                Forall (λ pos, pos = p_position p.2) (p_preferredPositions p.2))
             sample_available).
    apply (bool_decide_unpack _). by vm_compute. }
  split; [exact H1|]. split; [exact H2|].
  exact (generateOptimalTeam_NoDup sample_available sample_recent "4-4-2" true H1 H2).
Defined.

(** What the route has gone through when it returns the record. *)
Lemma log_injury_route_returns (body : InjuryBody) (db db' : DB) (stats : Statistics) :
  log_injury_route body db = (inr stats, db') →
  let k := (ib_playerId body, ib_matchId body) in
  ∃ player m db1,
    players db !! ib_playerId body = Some player
    ∧ matches db !! ib_matchId body = Some m
    ∧ stats = (let base := match find_stats k db with
                           | Some s0 => s0
                           | None => new_injury_stats (ib_playerId body) (ib_matchId body)
                                       (getPlayerPlaytime m (ib_playerId body))
                                       (p_position player)
                           end in
               set_injuries base (st_injuries base ++ [trim (ib_injuryDescription body)]))
    ∧ match find_stats k db with
      | Some _ => Statistics_save stats db = (inr tt, db1)
      | None => Statistics_insert stats db = (inr tt, db1)
      end
    ∧ (if truthy (ib_severity body)
       then Player_updateInjury (ib_playerId body)
              (injuryStatusMap (default "" (ib_severity body))) db1 = (inr tt, db')
            ∧ includes (toLowerCase (default "" (ib_severity body)))
                ["minor"; "major"; "severe"] = true
       else db' = db1).
Proof.
  unfold log_injury_route, validateStatistics.
  destruct (negb _ || negb _ || negb _); [by intros [=]|].
  destruct (truthy (ib_severity body)) eqn:Hsev; simpl.
  - destruct (includes _ _) eqn:Hinc; simpl; [|by intros [=]].
    unfold logInjury, bind, or_reply, bind, Player_findById, Match_findById,
      Statistics_findOne, reply, ret. simpl.
    destruct (players db !! ib_playerId body) as [player|]; simpl; [|by intros [=]].
    destruct (matches db !! ib_matchId body) as [m|]; simpl; [|by intros [=]].
    fold (find_stats (ib_playerId body, ib_matchId body) db).
    assert ((if getPlayerPlaytime m (ib_playerId body) =? 0 then 0
             else getPlayerPlaytime m (ib_playerId body))
            = getPlayerPlaytime m (ib_playerId body)) as ->.
    { by destruct (Z.eqb_spec (getPlayerPlaytime m (ib_playerId body)) 0). }
    rewrite Hsev.
    destruct (find_stats (ib_playerId body, ib_matchId body) db) as [s0|].
    + destruct (Statistics_save _ db) as [[r|[]] db1] eqn:Hsave; [by intros [=]|].
      intros [= <- <-]. by exists player, m, db1.
    + destruct (Statistics_insert _ db) as [[r|[]] db1] eqn:Hins; [by intros [=]|].
      intros [= <- <-]. by exists player, m, db1.
  - unfold logInjury, bind, or_reply, bind, Player_findById, Match_findById,
      Statistics_findOne, reply, ret. simpl.
    destruct (players db !! ib_playerId body) as [player|]; simpl; [|by intros [=]].
    destruct (matches db !! ib_matchId body) as [m|]; simpl; [|by intros [=]].
    fold (find_stats (ib_playerId body, ib_matchId body) db).
    assert ((if getPlayerPlaytime m (ib_playerId body) =? 0 then 0
             else getPlayerPlaytime m (ib_playerId body))
            = getPlayerPlaytime m (ib_playerId body)) as ->.
    { by destruct (Z.eqb_spec (getPlayerPlaytime m (ib_playerId body)) 0). }
    rewrite Hsev.
    destruct (find_stats (ib_playerId body, ib_matchId body) db) as [s0|].
    + destruct (Statistics_save _ db) as [[r|[]] db1] eqn:Hsave; [by intros [=]|].
      intros [= <- <-]. by exists player, m, db1.
    + destruct (Statistics_insert _ db) as [[r|[]] db1] eqn:Hins; [by intros [=]|].
      intros [= <- <-]. by exists player, m, db1.
Qed.

(** X28. An injury that the route logs is appended, trimmed, to the
    injuries of the record of the player and the match, which keeps its
    other fields; when there was no such record, one is created with the
    ledger minutes of the player (0 without an entry) and the position of
    the player.  The player and the match exist, the other records and
    the matches are untouched, and the index on (playerId, matchId) stays
    unique. *)
Theorem log_injury_route_logged (body : InjuryBody) (db db' : DB) (stats : Statistics) :
  log_injury_route body db = (inr stats, db') →
  let k := (ib_playerId body, ib_matchId body) in
  ∃ player m,
    players db !! ib_playerId body = Some player
    ∧ matches db !! ib_matchId body = Some m
    ∧ find_stats k db' = Some stats
    ∧ stats = (let base := match find_stats k db with
                           | Some s0 => s0
                           | None => new_injury_stats (ib_playerId body) (ib_matchId body)
                                       (getPlayerPlaytime m (ib_playerId body))
                                       (p_position player)
                           end in
               set_injuries base (st_injuries base ++ [trim (ib_injuryDescription body)]))
    ∧ (∀ k', k' ≠ k → find_stats k' db' = find_stats k' db)
    ∧ matches db' = matches db
    ∧ (NoDup (stats_keys db) → NoDup (stats_keys db')).
Proof.
  intros (player & m & db1 & Hplayer & Hm & Hstats & Hwrite & Hsev)%log_injury_route_returns.
  simpl. exists player, m. split; [done|]. split; [done|].
  assert (statistics db' = statistics db1 ∧ matches db' = matches db1) as [Hs' Hm'].
  { destruct (truthy (ib_severity body)); [|by subst].
    destruct Hsev as [Hsev _]. unfold Player_updateInjury in Hsev. by injection Hsev as <-. }
  assert (∀ k, find_stats k db' = find_stats k db1) as Hf'
    by (intros; unfold find_stats; by rewrite Hs').
  assert (stats_keys db' = stats_keys db1) as Hk1 by (unfold stats_keys; by rewrite Hs').
  rewrite Hf', Hk1, Hm'. setoid_rewrite Hf'.
  destruct (find_stats (ib_playerId body, ib_matchId body) db) as [s0|] eqn:Hfind.
  - pose proof (find_stats_key _ _ _ Hfind) as Hk.
    assert (stats_key stats = (ib_playerId body, ib_matchId body)) as Hk'
      by (by rewrite Hstats).
    pose proof (upserts_save _ stats db Hk') as [_ Hu _ _ _ [Hmatches _]].
    { apply (Statistics_findOne_Some _ _ _ s0). exact Hfind. }
    rewrite Hwrite in Hu, Hmatches. simpl in Hu, Hmatches.
    rewrite <-Hk' in Hfind.
    destruct (Statistics_save_returns _ _ _ _ Hfind Hwrite) as (_ & Hfound & Hframe & _).
    rewrite Hk' in Hfound, Hframe. done.
  - assert (stats_key stats = (ib_playerId body, ib_matchId body)) as Hk'
      by (by rewrite Hstats).
    pose proof (upserts_insert _ stats db Hk') as [_ Hu _ _ _ [Hmatches _]].
    { apply Statistics_findOne_None. exact Hfind. }
    rewrite Hwrite in Hu, Hmatches. simpl in Hu, Hmatches.
    rewrite <-Hk' in Hfind.
    destruct (Statistics_insert_returns _ _ _ Hfind Hwrite) as (_ & Hfound & Hframe & _).
    rewrite Hk' in Hfound, Hframe. done.
Qed.

(** X29. When the route logs an injury without a severity, the players
    are unchanged.  With a severity, which is minor, major or severe in
    any case of letters, only the player of the request changes: minor
    sets the injury status 'Minor Injury' and leaves the availability,
    major and severe set 'Major Injury' and make the player unavailable,
    hence not eligible for a generated team sheet; the other fields of
    the player are kept. *)
Theorem log_injury_route_player (body : InjuryBody) (db db' : DB) (stats : Statistics) :
  log_injury_route body db = (inr stats, db') →
  (truthy (ib_severity body) = false → players db' = players db)
  ∧ (∀ p, p ≠ ib_playerId body → players db' !! p = players db !! p)
  ∧ ∃ player player',
      players db !! ib_playerId body = Some player
      ∧ players db' !! ib_playerId body = Some player'
      ∧ p_name player' = p_name player
      ∧ p_jerseyNumber player' = p_jerseyNumber player
      ∧ p_position player' = p_position player
      ∧ p_preferredPositions player' = p_preferredPositions player
      ∧ (p_availability player' = true → p_availability player = true)
      ∧ ∀ severity, ib_severity body = Some severity → severity ≠ "" →
          (toLowerCase severity = "minor"
           ∧ p_injuryStatus player' = "Minor Injury"
           ∧ p_availability player' = p_availability player)
          ∨ ((toLowerCase severity = "major" ∨ toLowerCase severity = "severe")
             ∧ p_injuryStatus player' = "Major Injury"
             ∧ p_availability player' = false
             ∧ eligible player' = false).
Proof.
  intros (player & m & db1 & Hplayer & Hm & Hstats & Hwrite & Hsev)%log_injury_route_returns.
  assert (players db1 = players db) as Hp1.
  { destruct (find_stats _ db).
    - unfold Statistics_save in Hwrite.
      destruct (statisticsSchema_valid stats); [|done]. by injection Hwrite as <-.
    - unfold Statistics_insert in Hwrite.
      destruct (negb _); [done|]. case_bool_decide; [done|]. by injection Hwrite as <-. }
  destruct (truthy (ib_severity body)) eqn:Htruthy.
  - destruct Hsev as [Hupdate Hinc]. unfold Player_updateInjury in Hupdate.
    injection Hupdate as <-. simpl. rewrite Hp1.
    split; [done|]. split; [by intros p Hp; rewrite lookup_alter_ne|].
    exists player. eexists. rewrite lookup_alter_eq, Hplayer. simpl.
    split; [done|]. split; [done|]. split; [done|]. split; [done|]. split; [done|].
    split; [done|]. split; [by case_bool_decide|].
    intros severity Hs Hne. rewrite Hs in Hinc |- *. simpl in *.
    apply includes_true in Hinc.
    assert (∀ key status, toLowerCase severity = key →
              (if bool_decide (key = "minor") then "Minor Injury"
               else if bool_decide (key = "major") then "Major Injury"
               else if bool_decide (key = "severe") then "Major Injury"
               else "Minor Injury") = status →
              injuryStatusMap severity = status) as Hmap
      by (by intros key status <- <-).
    apply elem_of_cons in Hinc as [Hinc|Hinc]; [|apply elem_of_cons in Hinc as [Hinc|Hinc]].
    + left. rewrite (Hmap "minor" "Minor Injury" Hinc eq_refl). done.
    + right. rewrite (Hmap "major" "Major Injury" Hinc eq_refl).
      split; [by left|]. done.
    + apply list_elem_of_singleton in Hinc.
      right. rewrite (Hmap "severe" "Major Injury" Hinc eq_refl).
      split; [by right|]. done.
  - subst db'. rewrite Hp1. split; [done|]. split; [done|].
    exists player, player. repeat (split; [done|]).
    intros severity Hs Hne. rewrite Hs in Htruthy. by destruct severity.
Qed.

Lemma log_injury_route_logged_witness :
  ∃ stats db',
    log_injury_route sample_injury (sample_db type_match ongoing) = (inr stats, db')
    ∧ st_injuries stats = ["Sprained ankle"]
    ∧ ∃ player m,
        players (sample_db type_match ongoing) !! ib_playerId sample_injury = Some player
        ∧ matches (sample_db type_match ongoing) !! ib_matchId sample_injury = Some m
        ∧ find_stats (ib_playerId sample_injury, ib_matchId sample_injury) db' = Some stats
        ∧ stats
          = (let base :=
               match find_stats (ib_playerId sample_injury, ib_matchId sample_injury)
                       (sample_db type_match ongoing) with
               | Some s0 => s0
               | None =>
                   new_injury_stats (ib_playerId sample_injury) (ib_matchId sample_injury)
                     (getPlayerPlaytime m (ib_playerId sample_injury)) (p_position player)
               end in
             set_injuries base
               (st_injuries base ++ [trim (ib_injuryDescription sample_injury)]))
        ∧ (∀ k', k' ≠ (ib_playerId sample_injury, ib_matchId sample_injury) →
                 find_stats k' db' = find_stats k' (sample_db type_match ongoing))
        ∧ matches db' = matches (sample_db type_match ongoing)
        ∧ (NoDup (stats_keys (sample_db type_match ongoing)) → NoDup (stats_keys db')).
Proof.
  eexists _, _. split; [by vm_compute|]. split; [by vm_compute|].
  eapply (log_injury_route_logged sample_injury (sample_db type_match ongoing)).
  by vm_compute.
Defined.

Lemma log_injury_route_player_witness :
  ∃ stats db',
    log_injury_route sample_injury (sample_db type_match ongoing) = (inr stats, db')
    ∧ (truthy (ib_severity sample_injury) = false →
       players db' = players (sample_db type_match ongoing))
    ∧ (∀ p, p ≠ ib_playerId sample_injury →
            players db' !! p = players (sample_db type_match ongoing) !! p)
    ∧ ∃ player player',
        players (sample_db type_match ongoing) !! ib_playerId sample_injury = Some player
        ∧ players db' !! ib_playerId sample_injury = Some player'
        ∧ p_name player' = p_name player
        ∧ p_jerseyNumber player' = p_jerseyNumber player
        ∧ p_position player' = p_position player
        ∧ p_preferredPositions player' = p_preferredPositions player
        ∧ (p_availability player' = true → p_availability player = true)
        ∧ ∀ severity, ib_severity sample_injury = Some severity → severity ≠ "" →
            (toLowerCase severity = "minor"
             ∧ p_injuryStatus player' = "Minor Injury"
             ∧ p_availability player' = p_availability player)
            ∨ ((toLowerCase severity = "major" ∨ toLowerCase severity = "severe")
               ∧ p_injuryStatus player' = "Major Injury"
               ∧ p_availability player' = false
               ∧ eligible player' = false).
Proof.
  eexists _, _. split; [by vm_compute|].
  eapply (log_injury_route_player sample_injury (sample_db type_match ongoing)).
  by vm_compute.
Defined.

(** X30. [updateInjuryStatus] forwards a validation error for a status
    outside the enumeration of the schema and answers 404 for a player
    that does not exist, both without a change.  When it returns the
    player, it has set the status, has made the player unavailable if the
    status is 'Major Injury' and has left the availability alone
    otherwise: no status, not even 'Healthy', makes an unavailable player
    available again.  Nothing else in the database changes. *)
Theorem updateInjuryStatus_spec (id : string) (injuryStatus : string) (db : DB) :
  (injuryStatus ∉ injuryStatus_enum →
     updateInjuryStatus id injuryStatus db = (inl (Next ValidationError), db))
  ∧ (injuryStatus ∈ injuryStatus_enum → players db !! id = None →
       updateInjuryStatus id injuryStatus db
       = (inl (Json 404 (Failure "Player not found")), db))
  ∧ (∀ player' db', updateInjuryStatus id injuryStatus db = (inr player', db') →
       ∃ player, players db !! id = Some player
         ∧ db' = set_players db (<[id := player']> (players db))
         ∧ injuryStatus ∈ injuryStatus_enum
         ∧ p_injuryStatus player' = injuryStatus
         ∧ (injuryStatus = "Major Injury" → p_availability player' = false)
         ∧ (injuryStatus ≠ "Major Injury" → p_availability player' = p_availability player)
         ∧ (p_availability player = false → p_availability player' = false)
         ∧ p_name player' = p_name player
         ∧ p_jerseyNumber player' = p_jerseyNumber player
         ∧ p_position player' = p_position player
         ∧ p_preferredPositions player' = p_preferredPositions player).
Proof.
  unfold updateInjuryStatus, or_reply, bind, Player_findByIdAndUpdate, reply, ret.
  case_bool_decide as Henum; simpl.
  - split; [done|]. destruct (players db !! id) as [player|] eqn:Hplayer.
    + split; [done|]. intros player' db' [= <- <-]. exists player. simpl.
      split; [done|]. split; [done|]. split; [done|]. split; [done|].
      split; [by intros; case_bool_decide|]. split; [by intros; case_bool_decide|].
      split; [by intros; case_bool_decide|]. done.
    + split; [done|]. by intros player' db' [=].
  - split; [done|]. split; [done|]. by intros player' db' [=].
Qed.
